(** * image-bootstrap: the bootstrap engine (image_bootstrap/engine.py)

    A shallow embedding of [BootstrapEngine] and the properties of its
    pipeline.

    The engine talks to the outside world only through its collaborators
    (Messenger, Executor, the distribution driver, MountFinder) and through
    the Python standard library ([os], [time], [tempfile], [subprocess],
    [ctypes]).  Every such call is one [event]; what the outside world
    answers is decided by a [world], which sees the whole history of the
    run so far.  A property proved for every [world] therefore holds for
    every mock Executor, every file system and every fault injected at any
    call.

    Conventions.
    - A Python [str] is a [string] of bytes; [None] is [option].
    - An argument vector holds strings.  Where a field that is still [None]
      would be put into an argument vector, a path or an environment, the
      model raises at that point ([TypeError], or [AttributeError] for
      [os.path.join]), which is what posixpath and the process spawner do
      with it.
    - A file written through [open(.., 'w')], [print] and [close] is one
      event that carries the complete content.
    - Dictionaries are objects in a store ([heap]); [os.environ] is the
      object at [os_environ].  A callee that is handed a dictionary may
      leave anything in it. *)

From Stdlib Require Import ZArith Lia Ascii String Sorted.
From stdpp Require Import base gmap strings list.

Open Scope Z_scope.

(** The double quote, tab and newline characters of the message and file
    formats. *)
Definition dquote : string := String "034"%char EmptyString.
Definition tab : string := String "009"%char EmptyString.
Definition newline : string := String "010"%char EmptyString.

(** ** Python built-ins used by the engine *)

Module Py.

(** [s.startswith(p)] *)
Definition startswith (p s : string) : bool := String.prefix p s.

(** [s.endswith(suffix)] *)
Fixpoint endswith (suffix s : string) : bool :=
  String.eqb suffix s ||
  match s with
  | EmptyString => false
  | String _ s' => endswith suffix s'
  end.

(** [needle in s] *)
Fixpoint contains (needle s : string) : bool :=
  String.prefix needle s ||
  match s with
  | EmptyString => false
  | String _ s' => contains needle s'
  end.

(** [s.split(sep)[0]] for a non-empty separator: the text in front of the
    first occurrence of [sep], the whole of [s] when there is none. *)
Fixpoint split_head (sep s : string) : string :=
  if String.prefix sep s then EmptyString
  else match s with
       | EmptyString => EmptyString
       | String c s' => String c (split_head sep s')
       end.

(** [s.split(c)] for a one-character separator. *)
Fixpoint split_char (c : ascii) (s : string) : list string :=
  match s with
  | EmptyString => [EmptyString]
  | String a s' =>
      if Ascii.eqb a c then EmptyString :: split_char c s'
      else match split_char c s' with
           | x :: xs => String a x :: xs
           | [] => [String a EmptyString]
           end
  end.

(** The characters [str.rstrip()] removes: space, tab, line feed,
    carriage return, vertical tab, form feed. *)
Definition isspace (c : ascii) : bool :=
  let n := nat_of_ascii c in
  (Nat.eqb n 32 || Nat.eqb n 9 || Nat.eqb n 10 || Nat.eqb n 13
   || Nat.eqb n 11 || Nat.eqb n 12)%bool.

(** [s.rstrip()] *)
Fixpoint rstrip (s : string) : string :=
  match s with
  | EmptyString => EmptyString
  | String c s' =>
      let r := rstrip s' in
      if (isspace c && String.eqb r EmptyString)%bool then EmptyString
      else String c r
  end.

(** [os.path.join(a, b)] of posixpath. *)
Definition join (a b : string) : string :=
  if startswith "/" b then b
  else if (String.eqb a EmptyString || endswith "/" a)%bool then a +:+ b
  else a +:+ "/" +:+ b.

(** [sorted(names)] on byte strings: stable insertion by [String.leb]. *)
Fixpoint insert_sorted (x : string) (l : list string) : list string :=
  match l with
  | [] => [x]
  | y :: l' => if String.leb x y then x :: y :: l' else y :: insert_sorted x l'
  end.

Definition sorted (l : list string) : list string :=
  foldr insert_sorted [] l.

(** [range(n)] *)
Definition range (n : nat) : list nat := seq 0 n.

(** Truth value of an optional string: [None] and [''] are false. *)
Definition truthy (o : option string) : bool :=
  match o with
  | Some s => negb (String.eqb s EmptyString)
  | None => false
  end.

(** ['%s' % o] *)
Definition str (o : option string) : string :=
  match o with
  | Some s => s
  | None => "None"
  end.

(** C's [strlen] on the bytes of a Python string. *)
Definition strlen (s : string) : Z :=
  Z.of_nat (String.length (split_head (String "000"%char EmptyString) s)).

End Py.

(** ** Exceptions and results *)

Inductive exn : Type :=
| CalledProcessError (returncode : Z) (cmd : list string)
| OSError (errno : Z) (strerror : string)
| IOError (errno : Z) (strerror : string)
| ValueError (msg : string)
| KeyError (key : string)
| TypeError
| AttributeError
| AssertionError
| OtherError (name : string).

Inductive result (A : Type) : Type :=
| Ok (a : A)
| Raise (e : exn).
Arguments Ok {A} a.
Arguments Raise {A} e.

Definition EPERM : Z := 1.
Definition ENOENT : Z := 2.
Definition EBUSY : Z := 16.
Definition EEXIST : Z := 17.

(** ** Module constants of engine.py *)

Definition BOOTLOADER__AUTO : string := "auto".
Definition BOOTLOADER__CHROOT_GRUB2__DEVICE : string := "chroot-grub2-device".
Definition BOOTLOADER__CHROOT_GRUB2__DRIVE : string := "chroot-grub2-drive".
Definition BOOTLOADER__HOST_GRUB2__DEVICE : string := "host-grub2-device".
Definition BOOTLOADER__HOST_GRUB2__DRIVE : string := "host-grub2-drive".
Definition BOOTLOADER__NONE : string := "none".

Definition _MOUNTPOINT_PARENT_DIR : string := "/mnt".
Definition _CHROOT_SCRIPT_TARGET_DIR : string := "root/chroot-scripts/".

Definition _NON_DISK_MOUNT_TASKS : list (string * list string * string) :=
  [ ("/dev", ["-o"; "bind"], "dev");
    ("/dev/pts", ["-o"; "bind"], "dev/pts");
    ("PROC", ["-t"; "proc"], "proc");
    ("/sys", ["-o"; "bind"], "sys") ].

Definition _DISK_ID_OFFSET : Z := 440.
Definition _DISK_ID_COUNT_BYTES : Z := 4.

Definition _COMMAND_BLKID : string := "blkid".
Definition _COMMAND_CHMOD : string := "chmod".
Definition COMMAND_CHROOT : string := "chroot".
Definition _COMMAND_CP : string := "cp".
Definition _COMMAND_KPARTX : string := "kpartx".
Definition _COMMAND_MKDIR : string := "mkdir".
Definition _COMMAND_MKFS_EXT4 : string := "mkfs.ext4".
Definition _COMMAND_MOUNT : string := "mount".
Definition _COMMAND_PARTED : string := "parted".
Definition _COMMAND_PARTPROBE : string := "partprobe".
Definition _COMMAND_RM : string := "rm".
Definition _COMMAND_RMDIR : string := "rmdir".
Definition _COMMAND_SED : string := "sed".
Definition _COMMAND_TUNE2FS : string := "tune2fs".
Definition _COMMAND_UMOUNT : string := "umount".

Definition _EXIT_COMMAND_NOT_FOUND : Z := 127.

Definition _PARTITION_DELIMITER : string := "p".

Definition CLONE_NEWNS : Z := 0x00020000.
Definition CLONE_NEWUTS : Z := 0x04000000.

(** ** The engine object *)

(** The disk identifier object ([image_bootstrap.types.disk_id]) as far as
    the engine uses it: [byte_sequence()] and [str()]. *)
Record disk_id : Type := {
  byte_sequence : list Z;
  disk_id_str : string;
}.

(** The attributes of [self], as [__init__] stores them. *)
Record engine : Type := {
  _hostname : string;
  _architecture : string;
  _root_password : option string;
  _abs_root_password_file : option string;
  _abs_etc_resolv_conf : string;
  _disk_id : option disk_id;
  _abs_scripts_dir_pre : option string;
  _abs_scripts_dir_chroot : option string;
  _abs_scripts_dir_post : option string;
  _abs_target_path : string;
  _command_grub2_install : option string;
  _bootloader_approach : string;
  _bootloader_force : bool;
  _abs_mountpoint : option string;
  _abs_first_partition_device : option string;
  _first_partition_uuid : option string;
}.

(** [BootstrapEngine.__init__]: the two runtime paths start as [None]. *)
Definition __init__
    (hostname architecture : string)
    (root_password abs_root_password_file : option string)
    (abs_etc_resolv_conf : string)
    (disk_id : option disk_id)
    (first_partition_uuid : option string)
    (abs_scripts_dir_pre abs_scripts_dir_chroot abs_scripts_dir_post : option string)
    (abs_target_path : string)
    (command_grub2_install : option string)
    (bootloader_approach : string)
    (bootloader_force : bool) : engine :=
  {| _hostname := hostname;
     _architecture := architecture;
     _root_password := root_password;
     _abs_root_password_file := abs_root_password_file;
     _abs_etc_resolv_conf := abs_etc_resolv_conf;
     _disk_id := disk_id;
     _abs_scripts_dir_pre := abs_scripts_dir_pre;
     _abs_scripts_dir_chroot := abs_scripts_dir_chroot;
     _abs_scripts_dir_post := abs_scripts_dir_post;
     _abs_target_path := abs_target_path;
     _command_grub2_install := command_grub2_install;
     _bootloader_approach := bootloader_approach;
     _bootloader_force := bootloader_force;
     _abs_mountpoint := None;
     _abs_first_partition_device := None;
     _first_partition_uuid := first_partition_uuid |}.

Definition set__abs_mountpoint (v : option string) (e : engine) : engine :=
  {| _hostname := _hostname e;
     _architecture := _architecture e;
     _root_password := _root_password e;
     _abs_root_password_file := _abs_root_password_file e;
     _abs_etc_resolv_conf := _abs_etc_resolv_conf e;
     _disk_id := _disk_id e;
     _abs_scripts_dir_pre := _abs_scripts_dir_pre e;
     _abs_scripts_dir_chroot := _abs_scripts_dir_chroot e;
     _abs_scripts_dir_post := _abs_scripts_dir_post e;
     _abs_target_path := _abs_target_path e;
     _command_grub2_install := _command_grub2_install e;
     _bootloader_approach := _bootloader_approach e;
     _bootloader_force := _bootloader_force e;
     _abs_mountpoint := v;
     _abs_first_partition_device := _abs_first_partition_device e;
     _first_partition_uuid := _first_partition_uuid e |}.

Definition set__abs_first_partition_device (v : option string) (e : engine) : engine :=
  {| _hostname := _hostname e;
     _architecture := _architecture e;
     _root_password := _root_password e;
     _abs_root_password_file := _abs_root_password_file e;
     _abs_etc_resolv_conf := _abs_etc_resolv_conf e;
     _disk_id := _disk_id e;
     _abs_scripts_dir_pre := _abs_scripts_dir_pre e;
     _abs_scripts_dir_chroot := _abs_scripts_dir_chroot e;
     _abs_scripts_dir_post := _abs_scripts_dir_post e;
     _abs_target_path := _abs_target_path e;
     _command_grub2_install := _command_grub2_install e;
     _bootloader_approach := _bootloader_approach e;
     _bootloader_force := _bootloader_force e;
     _abs_mountpoint := _abs_mountpoint e;
     _abs_first_partition_device := v;
     _first_partition_uuid := _first_partition_uuid e |}.

Definition set__first_partition_uuid (v : option string) (e : engine) : engine :=
  {| _hostname := _hostname e;
     _architecture := _architecture e;
     _root_password := _root_password e;
     _abs_root_password_file := _abs_root_password_file e;
     _abs_etc_resolv_conf := _abs_etc_resolv_conf e;
     _disk_id := _disk_id e;
     _abs_scripts_dir_pre := _abs_scripts_dir_pre e;
     _abs_scripts_dir_chroot := _abs_scripts_dir_chroot e;
     _abs_scripts_dir_post := _abs_scripts_dir_post e;
     _abs_target_path := _abs_target_path e;
     _command_grub2_install := _command_grub2_install e;
     _bootloader_approach := _bootloader_approach e;
     _bootloader_force := _bootloader_force e;
     _abs_mountpoint := _abs_mountpoint e;
     _abs_first_partition_device := _abs_first_partition_device e;
     _first_partition_uuid := v |}.

Definition set__command_grub2_install (v : option string) (e : engine) : engine :=
  {| _hostname := _hostname e;
     _architecture := _architecture e;
     _root_password := _root_password e;
     _abs_root_password_file := _abs_root_password_file e;
     _abs_etc_resolv_conf := _abs_etc_resolv_conf e;
     _disk_id := _disk_id e;
     _abs_scripts_dir_pre := _abs_scripts_dir_pre e;
     _abs_scripts_dir_chroot := _abs_scripts_dir_chroot e;
     _abs_scripts_dir_post := _abs_scripts_dir_post e;
     _abs_target_path := _abs_target_path e;
     _command_grub2_install := v;
     _bootloader_approach := _bootloader_approach e;
     _bootloader_force := _bootloader_force e;
     _abs_mountpoint := _abs_mountpoint e;
     _abs_first_partition_device := _abs_first_partition_device e;
     _first_partition_uuid := _first_partition_uuid e |}.

(** ** Events, worlds and states *)

(** A dictionary of strings: an environment. *)
Abbreviation dict := (gmap string string).

(** One call of the engine on a collaborator or on the standard library,
    with what came back. *)
Inductive event : Type :=
| Messenger_info (msg : string)
| Messenger_warn (msg : string)
| Messenger_error (msg : string)
| Messenger_announce_command (cmd : list string)
| Executor_check_call (cmd : list string) (env : option dict) (r : result unit)
| Executor_check_output (cmd : list string) (r : result string)
| Subprocess_check_output (cmd : list string) (r : result string)
| Subprocess_Popen (cmd : list string) (env : dict) (stdin : string) (r : result Z)
| Time_sleep (seconds : Z)
| Os_path_exists (path : string) (b : bool)
| Os_path_realpath (path : string) (real : string)
| Os_mkdir (path : string) (mode : Z) (r : result unit)
| Os_rmdir (path : string) (r : result unit)
| Os_remove (path : string) (r : result unit)
| Os_listdir (path : string) (r : result (list string))
| Tempfile_mkdtemp (dir : string) (r : result string)
| File_write (path : string) (content : string) (r : result unit)
| File_write_at (path : string) (offset : Z) (content : list Z) (r : result unit)
| File_readlines (path : string) (r : result (list string))
| Libc_unshare (flags : Z) (ret errno : Z)
| Libc_sethostname (name : string) (len : Z) (ret errno : Z)
| Require_valid_uuid (candidate : string) (r : result unit)
| MountFinder_below (root : string) (r : result (list string))
| Distro_call (method : string) (args : list string) (env : option dict) (r : result unit)
| Distro_get_chroot_command_grub2_install (r : result string).

(** The outside world.  Each field answers one kind of call, given the
    history of the run.  [executor_env_left] and [distro_env_left] are what
    the callee leaves in the dictionary object it was handed;
    [os_strerror] and [os_path_normpath] are the pure library functions of
    these names. *)
Record world : Type := {
  executor_check_call : list event -> list string -> option dict -> result unit;
  executor_env_left : list event -> list string -> dict -> dict;
  executor_check_output : list event -> list string -> result string;
  subprocess_check_output : list event -> list string -> result string;
  subprocess_Popen : list event -> list string -> dict -> string -> result Z;
  os_path_exists : list event -> string -> bool;
  os_path_realpath : list event -> string -> string;
  os_mkdir : list event -> string -> Z -> result unit;
  os_rmdir : list event -> string -> result unit;
  os_remove : list event -> string -> result unit;
  os_listdir : list event -> string -> result (list string);
  tempfile_mkdtemp : list event -> string -> result string;
  file_write : list event -> string -> string -> result unit;
  file_write_at : list event -> string -> Z -> list Z -> result unit;
  file_readlines : list event -> string -> result (list string);
  libc_unshare : list event -> Z -> Z * Z;
  libc_sethostname : list event -> string -> Z -> Z * Z;
  require_valid_uuid : list event -> string -> result unit;
  mountfinder_below : list event -> string -> result (list string);
  distro_call : list event -> string -> list string -> option dict -> result unit;
  distro_env_left : list event -> string -> dict -> dict;
  distro_get_chroot_command_grub2_install : list event -> result string;
  os_strerror : Z -> string;
  os_path_normpath : string -> string;
}.

(** The state of a run: the engine object, the history, and the store of
    dictionary objects. *)
Record state : Type := {
  self : engine;
  log : list event;
  heap : list dict;
}.

(** The location of [os.environ] in the store. *)
Definition os_environ : nat := 0%nat.

Definition with_self (f : engine -> engine) (s : state) : state :=
  {| self := f (self s); log := log s; heap := heap s |}.

Definition with_event (ev : event) (s : state) : state :=
  {| self := self s; log := log s ++ [ev]; heap := heap s |}.

Definition with_heap (h : list dict) (s : state) : state :=
  {| self := self s; log := log s; heap := h |}.

(** The dictionary stored at a location. *)
Definition deref (s : state) (l : nat) : dict := default ∅ (heap s !! l).

(** ** The monad of engine methods: state and exceptions *)

Definition M (A : Type) : Type := state -> result A * state.

Definition ret {A} (a : A) : M A := fun s => (Ok a, s).

Definition raise {A} (e : exn) : M A := fun s => (Raise e, s).

Definition bind {A B} (m : M A) (k : A -> M B) : M B :=
  fun s =>
    match m s with
    | (Ok a, s1) => k a s1
    | (Raise e, s1) => (Raise e, s1)
    end.

Declare Scope py_scope.
Delimit Scope py_scope with py.
Notation "x <- m ;; k" := (bind m (fun x => k))
  (at level 100, m at next level, k at level 200, right associativity) : py_scope.
Notation "m ;; k" := (bind m (fun _ => k))
  (at level 100, k at level 200, right associativity) : py_scope.
Open Scope py_scope.

(** [try: body finally: final].  An exception of [final] replaces whatever
    [body] ended with. *)
Definition try_finally {A} (body : M A) (final : M unit) : M A :=
  fun s =>
    let '(r, s1) := body s in
    match final s1 with
    | (Ok _, s2) => (r, s2)
    | (Raise e, s2) => (Raise e, s2)
    end.

(** [try: body except ... as e: handler e].  A handler that does not match
    re-raises. *)
Definition try_except {A} (body : M A) (handler : exn -> M A) : M A :=
  fun s =>
    match body s with
    | (Ok a, s1) => (Ok a, s1)
    | (Raise e, s1) => handler e s1
    end.

(** What the body of a [for] loop ends with: go on, or [break]. *)
Inductive flow : Type := Next | Break.

(** [for x in xs: body x else: orelse]: [orelse] runs unless the loop was
    left by [break]. *)
Fixpoint for_in {A} (xs : list A) (body : A -> M flow) (orelse : M unit) : M unit :=
  match xs with
  | [] => orelse
  | x :: xs' =>
      c <- body x ;;
      match c with
      | Break => ret tt
      | Next => for_in xs' body orelse
      end
  end.

(** [for x in xs: body x] without [break]. *)
Fixpoint for_each {A} (xs : list A) (body : A -> M unit) : M unit :=
  match xs with
  | [] => ret tt
  | x :: xs' => body x ;; for_each xs' body
  end.

(** [assert b] *)
Definition assert (b : bool) : M unit :=
  if b then ret tt else raise AssertionError.

(** Reading an attribute of [self]. *)
Definition attr {A} (f : engine -> A) : M A := fun s => (Ok (f (self s)), s).

(** Assigning an attribute of [self]. *)
Definition assign (f : engine -> engine) : M unit := fun s => (Ok tt, with_self f s).

(** An attribute that goes into an argument vector or an environment. *)
Definition attr_str (f : engine -> option string) : M string :=
  fun s =>
    match f (self s) with
    | Some v => (Ok v, s)
    | None => (Raise TypeError, s)
    end.

(** An attribute that is the first argument of [os.path.join]. *)
Definition attr_path (f : engine -> option string) : M string :=
  fun s =>
    match f (self s) with
    | Some v => (Ok v, s)
    | None => (Raise AttributeError, s)
    end.

(** ** Calls on the collaborators and on the standard library *)

Section Engine.

Variable w : world.

(** A call without a result: [messenger.info], [time.sleep], ... *)
Definition emit (ev : event) : M unit := fun s => (Ok tt, with_event ev s).

Definition messenger_info (msg : string) : M unit := emit (Messenger_info msg).

Definition messenger_announce_command (cmd : list string) : M unit :=
  emit (Messenger_announce_command cmd).

Definition time_sleep (seconds : Z) : M unit := emit (Time_sleep seconds).

(** [self._executor.check_call(cmd, env=env)].  The Executor is handed the
    dictionary object itself. *)
Definition check_call (cmd : list string) (env : option nat) : M unit :=
  fun s =>
    let d := deref s <$> env in
    let r := executor_check_call w (log s) cmd d in
    let s1 := with_event (Executor_check_call cmd d r) s in
    (r, match env with
        | Some l =>
            with_heap (<[l := executor_env_left w (log s) cmd (deref s l)]> (heap s)) s1
        | None => s1
        end).

(** [self._executor.check_output(cmd)] *)
Definition check_output (cmd : list string) : M string :=
  fun s =>
    let r := executor_check_output w (log s) cmd in
    (r, with_event (Executor_check_output cmd r) s).

(** [subprocess.check_output(cmd)] *)
Definition subprocess_check_output_ (cmd : list string) : M string :=
  fun s =>
    let r := subprocess_check_output w (log s) cmd in
    (r, with_event (Subprocess_check_output cmd r) s).

(** [p = subprocess.Popen(cmd, stdin=PIPE, env=env); p.stdin.write(input);
    p.stdin.close(); p.wait()], giving [p.returncode]. *)
Definition popen_communicate (cmd : list string) (env : nat) (input : string) : M Z :=
  fun s =>
    let r := subprocess_Popen w (log s) cmd (deref s env) input in
    (r, with_event (Subprocess_Popen cmd (deref s env) input r) s).

Definition path_exists (p : string) : M bool :=
  fun s =>
    let b := os_path_exists w (log s) p in
    (Ok b, with_event (Os_path_exists p b) s).

Definition path_realpath (p : string) : M string :=
  fun s =>
    let q := os_path_realpath w (log s) p in
    (Ok q, with_event (Os_path_realpath p q) s).

Definition mkdir (p : string) (mode : Z) : M unit :=
  fun s =>
    let r := os_mkdir w (log s) p mode in
    (r, with_event (Os_mkdir p mode r) s).

Definition rmdir (p : string) : M unit :=
  fun s =>
    let r := os_rmdir w (log s) p in
    (r, with_event (Os_rmdir p r) s).

Definition remove (p : string) : M unit :=
  fun s =>
    let r := os_remove w (log s) p in
    (r, with_event (Os_remove p r) s).

Definition listdir (p : string) : M (list string) :=
  fun s =>
    let r := os_listdir w (log s) p in
    (r, with_event (Os_listdir p r) s).

Definition mkdtemp (dir : string) : M string :=
  fun s =>
    let r := tempfile_mkdtemp w (log s) dir in
    (r, with_event (Tempfile_mkdtemp dir r) s).

(** [f = open(path, 'w'); print(.., file=f) ...; f.close()] with the
    printed text [content]. *)
Definition write_file (path content : string) : M unit :=
  fun s =>
    let r := file_write w (log s) path content in
    (r, with_event (File_write path content r) s).

(** [f = open(path, 'w'); f.seek(offset); f.write(content); f.close()] *)
Definition write_file_at (path : string) (offset : Z) (content : list Z) : M unit :=
  fun s =>
    let r := file_write_at w (log s) path offset content in
    (r, with_event (File_write_at path offset content r) s).

(** [f = open(path)] and the lines [for l in f] yields. *)
Definition readlines (path : string) : M (list string) :=
  fun s =>
    let r := file_readlines w (log s) path in
    (r, with_event (File_readlines path r) s).

(** [libc.unshare(c_int(flags))] and [get_errno()] after it. *)
Definition unshare (flags : Z) : M (Z * Z) :=
  fun s =>
    let '(r, e) := libc_unshare w (log s) flags in
    (Ok (r, e), with_event (Libc_unshare flags r e) s).

(** [libc.sethostname(name, len)] and [get_errno()] after it. *)
Definition sethostname (name : string) (len : Z) : M (Z * Z) :=
  fun s =>
    let '(r, e) := libc_sethostname w (log s) name len in
    (Ok (r, e), with_event (Libc_sethostname name len r e) s).

(** [require_valid_uuid(candidate)] of [image_bootstrap.types.uuid]. *)
Definition require_valid_uuid_ (candidate : string) : M unit :=
  fun s =>
    let r := require_valid_uuid w (log s) candidate in
    (r, with_event (Require_valid_uuid candidate r) s).

(** [mounts = MountFinder(); mounts.load(); list(mounts.below(root))] *)
Definition mounts_below (root : string) : M (list string) :=
  fun s =>
    let r := mountfinder_below w (log s) root in
    (r, with_event (MountFinder_below root r) s).

(** [self._distro.method(args)], and [self._distro.method(args, env)]
    where the driver is handed the dictionary object. *)
Definition distro (method : string) (args : list string) (env : option nat) : M unit :=
  fun s =>
    let d := deref s <$> env in
    let r := distro_call w (log s) method args d in
    let s1 := with_event (Distro_call method args d r) s in
    (r, match env with
        | Some l =>
            with_heap (<[l := distro_env_left w (log s) method (deref s l)]> (heap s)) s1
        | None => s1
        end).

Definition distro_get_chroot_command_grub2_install_ : M string :=
  fun s =>
    let r := distro_get_chroot_command_grub2_install w (log s) in
    (r, with_event (Distro_get_chroot_command_grub2_install r) s).

(** *** Dictionary objects *)

(** [d.copy()]: a new object with the same content. *)
Definition dict_copy (l : nat) : M nat :=
  fun s => (Ok (length (heap s)), with_heap (heap s ++ [deref s l]) s).

(** [d.pop(key, None)] *)
Definition dict_pop (l : nat) (key : string) : M unit :=
  fun s => (Ok tt, with_heap (<[l := delete key (deref s l)]> (heap s)) s).

(** [d.update({key: value})] *)
Definition dict_update (l : nat) (key value : string) : M unit :=
  fun s => (Ok tt, with_heap (<[l := <[key := value]> (deref s l)]> (heap s)) s).

(** [d[key]] *)
Definition dict_getitem (l : nat) (key : string) : M string :=
  fun s =>
    match deref s l !! key with
    | Some v => (Ok v, s)
    | None => (Raise (KeyError key), s)
    end.

(** ** Pre-flight: detection of grub2-install *)

(** The loop of [_find_command]: the first directory of PATH under which
    [command] exists. *)
Fixpoint _find_command_in (dirs : list string) (command : string) : M string :=
  match dirs with
  | [] =>
      raise (OSError _EXIT_COMMAND_NOT_FOUND
               ("Command " +:+ dquote +:+ command +:+ dquote +:+ " not found in PATH."))
  | _dir :: dirs' =>
      let abs_path := Py.join _dir command in
      found <- path_exists abs_path ;;
      if found then ret abs_path else _find_command_in dirs' command
  end.

Definition _find_command (command : string) : M string :=
  path <- dict_getitem os_environ "PATH" ;;
  _find_command_in (Py.split_char ":" path) command.

Definition _protect_against_grub_legacy (command : string) : M unit :=
  output <- subprocess_check_output_ [command; "--version"] ;;
  if Py.contains "GRUB GRUB 0." output then
    raise (ValueError
             ("Command " +:+ dquote +:+ command +:+ dquote
              +:+ " is GRUB legacy while GRUB 2 is needed. "
              +:+ "Please install GRUB 2 or pass --grub2-install .. on the command line."))
  else ret tt.

Definition detect_grub2_install : M unit :=
  explicit <- attr _command_grub2_install ;;
  if Py.truthy explicit then ret tt (* Explicit command given *)
  else
    approach <- attr _bootloader_approach ;;
    if negb (String.eqb approach BOOTLOADER__HOST_GRUB2__DEVICE
             || String.eqb approach BOOTLOADER__HOST_GRUB2__DRIVE)
    then ret tt (* Host grub2-install not used *)
    else
      let _COMMAND_GRUB_INSTALL := "grub-install" in
      let _COMMAND_GRUB2_INSTALL := "grub2-install" in
      assign (set__command_grub2_install (Some _COMMAND_GRUB2_INSTALL)) ;;
      try_except
        (command <- attr_str _command_grub2_install ;;
         _find_command command ;;
         ret tt)
        (fun e =>
           match e with
           | OSError errno _ =>
               if negb (errno =? _EXIT_COMMAND_NOT_FOUND) then raise e
               else
                 assign (set__command_grub2_install (Some _COMMAND_GRUB_INSTALL)) ;;
                 found <- try_except
                   (command <- attr_str _command_grub2_install ;;
                    _find_command command ;;
                    ret true)
                   (fun e' =>
                      match e' with
                      | OSError errno' _ =>
                          if negb (errno' =? _EXIT_COMMAND_NOT_FOUND) then raise e'
                          else ret false (* the later search reports it *)
                      | _ => raise e'
                      end) ;;
                 if found then
                   command <- attr_str _command_grub2_install ;;
                   _protect_against_grub_legacy command
                 else ret tt
           | _ => raise e
           end).

Definition _script_should_be_run (basename : string) : bool :=
  if Py.startswith "." basename then false
  else if Py.endswith "~" basename then false
  else true.

(** ** Isolation *)

Definition _unshare : M unit :=
  messenger_info "Unsharing Linux namespaces (mount, UTS/hostname)..." ;;
  p <- unshare (Z.lor CLONE_NEWNS CLONE_NEWUTS) ;;
  (if negb (fst p =? 0) then
     let _errno := if snd p =? 0 then EPERM else snd p in
     raise (OSError _errno ("Unsharing Linux namespaces failed: " +:+ os_strerror w _errno))
   else ret tt) ;;
  hostname <- attr _hostname ;;
  q <- sethostname hostname (Py.strlen hostname) ;;
  if negb (fst q =? 0) then
    let _errno := if snd q =? 0 then EPERM else snd q in
    raise (OSError _errno ("Setting hostname failed: " +:+ os_strerror w _errno))
  else ret tt.

(** ** Partitioning and activation *)

Definition _partition_device : M unit :=
  target <- attr _abs_target_path ;;
  messenger_info ("Partitioning " +:+ dquote +:+ target +:+ dquote +:+ "...") ;;
  let cmd_mklabel := [_COMMAND_PARTED; "--script"; target; "mklabel"; "msdos"] in
  check_call cmd_mklabel None ;;
  let cmd_mkpart :=
    [_COMMAND_PARTED; "--align"; "optimal"; "--script"; target;
     "mkpart"; "primary"; "ext4"; "1"; "100%"] in
  check_call cmd_mkpart None ;;
  let cmd_boot_flag :=
    [_COMMAND_PARTED; "--script"; target; "set"; "1"; "boot"; "on"] in
  time_sleep 1 ;;
  for_in (Py.range 3)
    (fun i =>
       try_except
         (check_call cmd_boot_flag None ;; ret Break)
         (fun e =>
            match e with
            | CalledProcessError returncode _ =>
                if returncode =? _EXIT_COMMAND_NOT_FOUND then raise e
                else time_sleep 1 ;; ret Next
            | _ => raise e
            end))
    (ret tt).

Definition _set_disk_id_in_mbr : M unit :=
  disk_id <- attr _disk_id ;;
  match disk_id with
  | None => ret tt
  | Some d =>
      let content := byte_sequence d in
      assert (Z.of_nat (length content) =? _DISK_ID_COUNT_BYTES) ;;
      messenger_info
        ("Setting MBR disk identifier to " +:+ disk_id_str d +:+ " (4 bytes)...") ;;
      target <- attr _abs_target_path ;;
      write_file_at target _DISK_ID_OFFSET content
  end.

Definition _kpartx_minus_a : M unit :=
  messenger_info "Activating partition devices..." ;;
  target <- attr _abs_target_path ;;
  let cmd_list := [_COMMAND_KPARTX; "-l"; "-p"; _PARTITION_DELIMITER; target] in
  output <- check_output cmd_list ;;
  let device_name := Py.split_head " : " (Py.split_head newline output) in
  assign (set__abs_first_partition_device (Some ("/dev/mapper/" +:+ device_name))) ;;
  let is_loop_device := Py.startswith "loop" device_name in
  (if is_loop_device then
     device <- attr_str _abs_first_partition_device ;;
     stale <- path_exists device ;;
     (if stale then
        raise (OSError EEXIST ("File exists: '" +:+ device +:+ "'"))
      else ret tt) ;;
     let cmd_add :=
       [_COMMAND_KPARTX; "-a"; "-p"; _PARTITION_DELIMITER; "-s"; target] in
     check_call cmd_add None
   else
     let cmd_refresh_table := [_COMMAND_PARTPROBE; target] in
     time_sleep 1 ;;
     for_in (Py.range 3)
       (fun i =>
          try_except
            (check_call cmd_refresh_table None ;; ret Break)
            (fun e =>
               match e with
               | CalledProcessError returncode _ =>
                   if returncode =? _EXIT_COMMAND_NOT_FOUND then raise e
                   else time_sleep 1 ;; ret Next
               | _ => raise e
               end))
       (ret tt)) ;;
  for_in (Py.range 3)
    (fun i =>
       device <- attr_str _abs_first_partition_device ;;
       present <- path_exists device ;;
       if present then ret Break
       else time_sleep 1 ;; ret Next)
    (device <- attr _abs_first_partition_device ;;
     raise (OSError ENOENT
              ("No such block device file: '" +:+ Py.str device +:+ "'"))).

(** ** Formatting and mounting *)

Definition _format_partitions : M unit :=
  device <- attr _abs_first_partition_device ;;
  messenger_info
    ("Creating file system on " +:+ dquote +:+ Py.str device +:+ dquote +:+ "...") ;;
  device <- attr_str _abs_first_partition_device ;;
  let cmd := [_COMMAND_MKFS_EXT4; "-F"; device] in
  check_call cmd None.

Definition _mkdir_mountpount : M unit :=
  mountpoint <- mkdtemp _MOUNTPOINT_PARENT_DIR ;;
  assign (set__abs_mountpoint (Some mountpoint)) ;;
  mountpoint <- attr _abs_mountpoint ;;
  messenger_info
    ("Creating directory " +:+ dquote +:+ Py.str mountpoint +:+ dquote +:+ "...").

Definition _mkdir_mountpount_etc : M unit :=
  mountpoint <- attr_path _abs_mountpoint ;;
  let abs_dir := Py.join mountpoint "etc" in
  messenger_info ("Creating directory " +:+ dquote +:+ abs_dir +:+ dquote +:+ "...") ;;
  mkdir abs_dir 493 (* 0755 *).

Definition _mount_disk_chroot_mounts : M unit :=
  messenger_info "Mounting partitions..." ;;
  device <- attr_str _abs_first_partition_device ;;
  mountpoint <- attr_str _abs_mountpoint ;;
  let cmd := [_COMMAND_MOUNT; device; mountpoint] in
  check_call cmd None.

Definition run_directory_bootstrap : M unit :=
  mountpoint <- attr_str _abs_mountpoint ;;
  architecture <- attr _architecture ;;
  approach <- attr _bootloader_approach ;;
  distro "run_directory_bootstrap" [mountpoint; architecture; approach] None.

(** ** Unmounting, with the retry loop *)

Definition _try_unmounting (abs_path : string) : M unit :=
  let cmd := [_COMMAND_UMOUNT; abs_path] in
  for_in (Py.range 3)
    (fun i =>
       try_except
         (check_call cmd None ;; ret Break)
         (fun e =>
            match e with
            | CalledProcessError returncode _ =>
                if returncode =? _EXIT_COMMAND_NOT_FOUND then raise e
                else time_sleep 1 ;; ret Next
            | _ => raise e
            end))
    (ret tt).

Definition _unmount_directory_bootstrap_leftovers : M unit :=
  mountpoint <- attr_str _abs_mountpoint ;;
  mounts <- mounts_below mountpoint ;;
  for_each (rev mounts) (fun abs_mount_point => _try_unmounting abs_mount_point).

(** ** The environment of scripts and chroot commands *)

Definition make_environment (tell_mountpoint : bool) : M nat :=
  env <- dict_copy os_environ ;;
  for_each ["LANG"; "LANGUAGE"] (fun key => dict_pop env key) ;;
  hostname <- attr _hostname ;;
  dict_update env "HOSTNAME" hostname ;;
  dict_update env "IB_HOSTNAME" hostname ;;
  dict_update env "LC_ALL" "C" ;;
  (if tell_mountpoint then
     mountpoint <- attr_str _abs_mountpoint ;;
     dict_update env "IB_ROOT" mountpoint ;;
     dict_update env "MNTPOINT" mountpoint
   else ret tt) ;;
  ret env.

Definition _set_root_password_inside_chroot : M unit :=
  messenger_info "Setting root password..." ;;
  root_password <- attr _root_password ;;
  match root_password with
  | None => ret tt
  | Some password =>
      mountpoint <- attr_str _abs_mountpoint ;;
      let cmd := [COMMAND_CHROOT; mountpoint; "chpasswd"] in
      env <- make_environment false ;;
      messenger_announce_command cmd ;;
      returncode <- popen_communicate cmd env ("root:" +:+ password) ;;
      if negb (returncode =? 0) then raise (CalledProcessError returncode cmd)
      else ret tt
  end.

(** ** The UUID of the first partition *)

Definition _set_first_partition_uuid : M unit :=
  uuid <- attr _first_partition_uuid ;;
  if negb (Py.truthy uuid) then ret tt
  else
    messenger_info ("Setting first partition UUID to " +:+ Py.str uuid +:+ "...") ;;
    uuid <- attr_str _first_partition_uuid ;;
    device <- attr_str _abs_first_partition_device ;;
    let cmd := [_COMMAND_TUNE2FS; "-U"; uuid; device] in
    check_call cmd None.

Definition _gather_first_partition_uuid : M unit :=
  device <- attr_str _abs_first_partition_device ;;
  let cmd_blkid := [_COMMAND_BLKID; "-o"; "value"; "-s"; "UUID"; device] in
  output <- check_output cmd_blkid ;;
  let first_partition_uuid := Py.rstrip output in
  require_valid_uuid_ first_partition_uuid ;;
  assign (set__first_partition_uuid (Some first_partition_uuid)).

(** ** Files written into the target *)

Definition _create_etc_fstab : M unit :=
  mountpoint <- attr_path _abs_mountpoint ;;
  let filename := Py.join (Py.join mountpoint "etc") "fstab" in
  messenger_info ("Writing file " +:+ dquote +:+ filename +:+ dquote +:+ "...") ;;
  uuid <- attr _first_partition_uuid ;;
  write_file filename
    ("/dev/disk/by-uuid/" +:+ Py.str uuid +:+ " / auto defaults 0 1" +:+ newline).

Definition _create_etc_hostname : M unit :=
  mountpoint <- attr_path _abs_mountpoint ;;
  let filename := Py.join (Py.join mountpoint "etc") "hostname" in
  messenger_info ("Writing file " +:+ dquote +:+ filename +:+ dquote +:+ "...") ;;
  hostname <- attr _hostname ;;
  write_file filename (hostname +:+ newline).

(** The lines [_create_etc_resolv_conf] prints: the [nameserver] lines,
    right-stripped. *)
Fixpoint resolv_conf_content (lines : list string) : string :=
  match lines with
  | [] => EmptyString
  | l :: lines' =>
      let line := Py.rstrip l in
      if Py.startswith "nameserver" line
      then line +:+ newline +:+ resolv_conf_content lines'
      else resolv_conf_content lines'
  end.

Definition _create_etc_resolv_conf : M unit :=
  mountpoint <- attr_path _abs_mountpoint ;;
  let output_filename := Py.join (Py.join mountpoint "etc") "resolv.conf" in
  source <- attr _abs_etc_resolv_conf ;;
  messenger_info
    ("Writing file " +:+ dquote +:+ output_filename +:+ dquote
     +:+ " (based on file " +:+ dquote +:+ source +:+ dquote +:+ ")...") ;;
  lines <- readlines source ;;
  write_file output_filename (resolv_conf_content lines).

Definition create_network_configuration : M unit :=
  mountpoint <- attr_str _abs_mountpoint ;;
  distro "create_network_configuration" [mountpoint] None.

Definition _fix_grub_cfg_root_device : M unit :=
  messenger_info "Post-processing GRUB config..." ;;
  uuid <- attr _first_partition_uuid ;;
  mountpoint <- attr_path _abs_mountpoint ;;
  let cmd_sed :=
    [_COMMAND_SED;
     "s,root=[^ ]\+,root=UUID=" +:+ Py.str uuid +:+ ",g";
     "-i"; Py.join (Py.join (Py.join mountpoint "boot") "grub") "grub.cfg"] in
  check_call cmd_sed None.

(** ** Scripts *)

Definition _run_scripts_from (abs_scripts_dir : string) (env : nat) : M unit :=
  names <- listdir abs_scripts_dir ;;
  for_each (Py.sorted names)
    (fun basename =>
       if negb (_script_should_be_run basename) then ret tt (* continue *)
       else
         let cmd := [Py.join abs_scripts_dir basename] in
         env' <- dict_copy env ;;
         check_call cmd (Some env')).

Definition _run_pre_scripts : M unit :=
  messenger_info "Running pre-chroot scripts..." ;;
  env <- make_environment true ;;
  scripts_dir <- attr _abs_scripts_dir_pre ;;
  if Py.truthy scripts_dir then
    abs_scripts_dir <- attr_str _abs_scripts_dir_pre ;;
    _run_scripts_from abs_scripts_dir env
  else ret tt.

Definition _run_post_scripts : M unit :=
  messenger_info "Running post-chroot scripts..." ;;
  env <- make_environment true ;;
  scripts_dir <- attr _abs_scripts_dir_post ;;
  if Py.truthy scripts_dir then
    abs_scripts_dir <- attr_str _abs_scripts_dir_post ;;
    _run_scripts_from abs_scripts_dir env
  else ret tt.

Definition _copy_chroot_scripts : M unit :=
  messenger_info "Copying chroot scripts into chroot..." ;;
  mountpoint <- attr_path _abs_mountpoint ;;
  let abs_path_parent := Py.join mountpoint _CHROOT_SCRIPT_TARGET_DIR in
  let cmd_mkdir := [_COMMAND_MKDIR; abs_path_parent] in
  check_call cmd_mkdir None ;;
  abs_scripts_dir <- attr_str _abs_scripts_dir_chroot ;;
  names <- listdir abs_scripts_dir ;;
  for_each names
    (fun basename =>
       if negb (_script_should_be_run basename) then ret tt (* continue *)
       else
         let abs_path_source := Py.join abs_scripts_dir basename in
         let abs_path_target :=
           Py.join (Py.join mountpoint _CHROOT_SCRIPT_TARGET_DIR) basename in
         let cmd_copy := [_COMMAND_CP; abs_path_source; abs_path_target] in
         check_call cmd_copy None ;;
         let cmd_chmod := [_COMMAND_CHMOD; "a+x"; abs_path_target] in
         check_call cmd_chmod None).

Definition _run_chroot_scripts : M unit :=
  messenger_info "Running chroot scripts..." ;;
  env <- make_environment false ;;
  abs_scripts_dir <- attr_str _abs_scripts_dir_chroot ;;
  names <- listdir abs_scripts_dir ;;
  for_each names
    (fun basename =>
       if negb (_script_should_be_run basename) then ret tt (* continue *)
       else
         mountpoint <- attr_str _abs_mountpoint ;;
         let cmd_run :=
           [COMMAND_CHROOT; mountpoint;
            Py.join (Py.join "/" _CHROOT_SCRIPT_TARGET_DIR) basename] in
         env' <- dict_copy env ;;
         check_call cmd_run (Some env')).

Definition _remove_chroot_scripts : M unit :=
  messenger_info "Removing chroot scripts..." ;;
  abs_scripts_dir <- attr_str _abs_scripts_dir_chroot ;;
  names <- listdir abs_scripts_dir ;;
  for_each names
    (fun basename =>
       if negb (_script_should_be_run basename) then ret tt (* continue *)
       else
         mountpoint <- attr_path _abs_mountpoint ;;
         let abs_path_target :=
           Py.join (Py.join mountpoint _CHROOT_SCRIPT_TARGET_DIR) basename in
         let cmd_rm := [_COMMAND_RM; abs_path_target] in
         check_call cmd_rm None) ;;
  mountpoint <- attr_path _abs_mountpoint ;;
  let abs_path_parent := Py.join mountpoint _CHROOT_SCRIPT_TARGET_DIR in
  let cmd_rmdir := [_COMMAND_RMDIR; abs_path_parent] in
  check_call cmd_rmdir None.

(** ** Non-disk mounts *)

Definition _mount_nondisk_chroot_mounts : M unit :=
  messenger_info "Mounting non-disk file systems..." ;;
  for_each _NON_DISK_MOUNT_TASKS
    (fun task =>
       let '(source, options, target) := task in
       mountpoint <- attr_path _abs_mountpoint ;;
       let cmd := [_COMMAND_MOUNT; source] ++ options ++ [Py.join mountpoint target] in
       check_call cmd None).

Definition _unmount_nondisk_chroot_mounts : M unit :=
  messenger_info "Unmounting non-disk file systems..." ;;
  for_each (rev _NON_DISK_MOUNT_TASKS)
    (fun task =>
       let '(source, options, target) := task in
       mountpoint <- attr_path _abs_mountpoint ;;
       let abs_path := Py.join mountpoint target in
       _try_unmounting abs_path).

(** ** Bootloader *)

Definition _create_bootloader_install_message (real_abs_target : string) : M string :=
  target <- attr _abs_target_path ;;
  approach <- attr _bootloader_approach ;;
  let hint_approach := "approach " +:+ dquote +:+ approach +:+ dquote in
  let hints :=
    if negb (String.eqb real_abs_target (os_path_normpath w target))
    then "actually " +:+ dquote +:+ real_abs_target +:+ dquote +:+ ", " +:+ hint_approach
    else hint_approach in
  ret ("Installing bootloader to device " +:+ dquote +:+ target +:+ dquote
       +:+ " (" +:+ hints +:+ ")...").

Definition get_chroot_command_grub2_install : M string :=
  distro_get_chroot_command_grub2_install_.

Definition _install_bootloader__grub2 : M unit :=
  target <- attr _abs_target_path ;;
  real_abs_target <- path_realpath target ;;
  message <- _create_bootloader_install_message real_abs_target ;;
  approach <- attr _bootloader_approach ;;
  let use_chroot :=
    (String.eqb approach BOOTLOADER__CHROOT_GRUB2__DEVICE
     || String.eqb approach BOOTLOADER__CHROOT_GRUB2__DRIVE)%bool in
  let use_device_map :=
    (String.eqb approach BOOTLOADER__CHROOT_GRUB2__DRIVE
     || String.eqb approach BOOTLOADER__HOST_GRUB2__DRIVE)%bool in
  let grub_drive := "(hd0)" in
  abs_chroot_device_map <-
    (if use_device_map then
       (* Write device map just for being able to call grub-install *)
       mountpoint <- attr_path _abs_mountpoint ;;
       let abs_chroot_device_map :=
         Py.join (Py.join (Py.join mountpoint "boot") "grub") "device.map" in
       messenger_info
         ("Writing device map to " +:+ dquote +:+ abs_chroot_device_map +:+ dquote
          +:+ " (mapping " +:+ dquote +:+ grub_drive +:+ dquote
          +:+ " to " +:+ dquote +:+ real_abs_target +:+ dquote +:+ ")...") ;;
       write_file abs_chroot_device_map (grub_drive +:+ tab +:+ real_abs_target +:+ newline) ;;
       ret (Some abs_chroot_device_map)
     else ret None) ;;
  messenger_info message ;;
  cmd_env <-
    (if use_chroot then
       mountpoint <- attr_str _abs_mountpoint ;;
       command <- get_chroot_command_grub2_install ;;
       env <- make_environment false ;;
       ret ([COMMAND_CHROOT; mountpoint; command], Some env)
     else
       command <- attr_str _command_grub2_install ;;
       mountpoint <- attr_path _abs_mountpoint ;;
       ret ([command; "--boot-directory"; Py.join mountpoint "boot"], None)) ;;
  force <- attr _bootloader_force ;;
  let cmd :=
    fst cmd_env
    ++ (if force then ["--force"] else [])
    ++ [if use_device_map then grub_drive else target] in
  check_call cmd (snd cmd_env) ;;
  match abs_chroot_device_map with
  | Some path => remove path
  | None => ret tt
  end.

Definition generate_grub_cfg_from_inside_chroot : M unit :=
  env <- make_environment false ;;
  mountpoint <- attr_str _abs_mountpoint ;;
  distro "generate_grub_cfg_from_inside_chroot" [mountpoint] (Some env).

Definition generate_initramfs_from_inside_chroot : M unit :=
  env <- make_environment false ;;
  mountpoint <- attr_str _abs_mountpoint ;;
  distro "generate_initramfs_from_inside_chroot" [mountpoint] (Some env).

Definition perform_post_chroot_clean_up : M unit :=
  mountpoint <- attr_str _abs_mountpoint ;;
  distro "perform_post_chroot_clean_up" [mountpoint] None.

(** ** Tear-down *)

Definition _unmount_disk_chroot_mounts : M unit :=
  messenger_info "Unmounting partitions..." ;;
  mountpoint <- attr_str _abs_mountpoint ;;
  _try_unmounting mountpoint.

Definition _kpartx_minus_d : M unit :=
  messenger_info "Deactivating partition devices..." ;;
  target <- attr _abs_target_path ;;
  let cmd := [_COMMAND_KPARTX; "-d"; "-p"; _PARTITION_DELIMITER; target] in
  for_in (Py.range 3)
    (fun i =>
       try_except
         (check_call cmd None ;; ret Break)
         (fun e =>
            match e with
            | CalledProcessError returncode _ =>
                if returncode =? _EXIT_COMMAND_NOT_FOUND then raise e
                else time_sleep 1 ;; ret Next
            | _ => raise e
            end))
    (ret tt).

Definition _rmdir_mountpount : M unit :=
  mountpoint <- attr _abs_mountpoint ;;
  messenger_info
    ("Removing directory " +:+ dquote +:+ Py.str mountpoint +:+ dquote +:+ "...") ;;
  for_in (Py.range 3)
    (fun i =>
       try_except
         (mountpoint <- attr_str _abs_mountpoint ;;
          rmdir mountpoint ;;
          ret Break)
         (fun e =>
            match e with
            | OSError errno _ =>
                if negb (errno =? EBUSY) then raise e
                else time_sleep 1 ;; ret Next
            | _ => raise e
            end))
    (ret tt).

(** ** The pipeline *)

Definition run : M unit :=
  _unshare ;;
  _partition_device ;;
  _set_disk_id_in_mbr ;;
  _kpartx_minus_a ;;
  try_finally
    (_format_partitions ;;

     configured <- attr _first_partition_uuid ;;
     (if Py.truthy configured then _set_first_partition_uuid
      else _gather_first_partition_uuid) ;;
     uuid <- attr _first_partition_uuid ;;
     assert (Py.truthy uuid) ;;

     _mkdir_mountpount ;;
     try_finally
       (_mount_disk_chroot_mounts ;;
        try_finally
          (_mkdir_mountpount_etc ;;
           _create_etc_hostname ;; (* first time *)
           _create_etc_resolv_conf ;; (* first time *)
           try_finally
             run_directory_bootstrap
             _unmount_directory_bootstrap_leftovers ;;
           _create_etc_hostname ;; (* re-write *)
           _create_etc_resolv_conf ;; (* re-write *)
           _create_etc_fstab ;;
           create_network_configuration ;;
           _run_pre_scripts ;;
           approach <- attr _bootloader_approach ;;
           (if (String.eqb approach BOOTLOADER__HOST_GRUB2__DEVICE
                || String.eqb approach BOOTLOADER__HOST_GRUB2__DRIVE)%bool
            then _install_bootloader__grub2 else ret tt) ;;
           _mount_nondisk_chroot_mounts ;;
           try_finally
             (_set_root_password_inside_chroot ;;

              approach <- attr _bootloader_approach ;;
              (if (String.eqb approach BOOTLOADER__CHROOT_GRUB2__DEVICE
                   || String.eqb approach BOOTLOADER__CHROOT_GRUB2__DRIVE)%bool
               then _install_bootloader__grub2 else ret tt) ;;

              approach <- attr _bootloader_approach ;;
              (if negb (String.eqb approach BOOTLOADER__NONE) then
                 messenger_info "Generating GRUB configuration..." ;;
                 generate_grub_cfg_from_inside_chroot ;;

                 _fix_grub_cfg_root_device
               else ret tt) ;;

              messenger_info "Generating initramfs..." ;;
              generate_initramfs_from_inside_chroot ;;

              scripts_dir <- attr _abs_scripts_dir_chroot ;;
              if Py.truthy scripts_dir then
                _copy_chroot_scripts ;;
                try_finally
                  _run_chroot_scripts
                  _remove_chroot_scripts
              else ret tt)
             _unmount_nondisk_chroot_mounts ;;
           perform_post_chroot_clean_up ;;
           _run_post_scripts)
          _unmount_disk_chroot_mounts)
       _rmdir_mountpount)
    _kpartx_minus_d.

End Engine.

(** ** Concrete worlds and engines, for running the model *)

Module Mock.

(** A world in which every call succeeds, built around an Executor
    [cc]/[co], a file system view [ex]/[ls], a temporary directory name
    and a mount table. *)
Definition make
    (cc : list event -> list string -> option dict -> result unit)
    (co : list event -> list string -> result string)
    (ex : list event -> string -> bool)
    (ls : list event -> string -> result (list string))
    (below : list event -> string -> result (list string)) : world :=
  {| executor_check_call := cc;
     executor_env_left := fun _ _ d => d;
     executor_check_output := co;
     subprocess_check_output := fun _ _ => Ok EmptyString;
     subprocess_Popen := fun _ _ _ _ => Ok 0;
     os_path_exists := ex;
     os_path_realpath := fun _ p => p;
     os_mkdir := fun _ _ _ => Ok tt;
     os_rmdir := fun _ _ => Ok tt;
     os_remove := fun _ _ => Ok tt;
     os_listdir := ls;
     tempfile_mkdtemp := fun _ dir => Ok (dir +:+ "/tmpAbCdEf");
     file_write := fun _ _ _ => Ok tt;
     file_write_at := fun _ _ _ _ => Ok tt;
     file_readlines := fun _ _ => Ok [];
     libc_unshare := fun _ _ => (0, 0);
     libc_sethostname := fun _ _ _ => (0, 0);
     require_valid_uuid := fun _ _ => Ok tt;
     mountfinder_below := below;
     distro_call := fun _ _ _ _ => Ok tt;
     distro_env_left := fun _ _ d => d;
     distro_get_chroot_command_grub2_install := fun _ => Ok "grub-install";
     os_strerror := fun _ => "Operation not permitted";
     os_path_normpath := fun p => p |}.

(** The command [c] exits with [code], every other command with 0. *)
Definition failing (c : string) (code : Z)
    (h : list event) (cmd : list string) (env : option dict) : result unit :=
  match cmd with
  | c' :: _ => if String.eqb c c' then Raise (CalledProcessError code cmd) else Ok tt
  | [] => Ok tt
  end.

(** [kpartx -l] prints [listing]; [blkid] prints [uuid]. *)
Definition outputs (listing uuid : string)
    (h : list event) (cmd : list string) : result string :=
  match cmd with
  | c :: _ => if String.eqb c _COMMAND_KPARTX then Ok listing else Ok uuid
  | [] => Ok EmptyString
  end.

Definition sda1 : string := "sda1 : 0 2095104 /dev/sda 2048" +:+ newline.
Definition loop0p1 : string := "loop0p1 : 0 2095104 /dev/loop0 2048" +:+ newline.
Definition uuid1 : string := "11111111-2222-3333-4444-555555555555".

(** Every call succeeds; the target is a disk whose partition node is
    there at once. *)
Definition happy : world :=
  make (fun _ _ _ => Ok tt) (outputs sda1 (uuid1 +:+ newline))
       (fun _ _ => true) (fun _ _ => Ok []) (fun _ _ => Ok []).

Definition engine0 (approach : string) (uuid scripts_chroot : option string) : engine :=
  __init__ "host1" "amd64" None None "/etc/resolv.conf" None uuid
           None scripts_chroot None "/dev/sda" (Some "grub-install") approach false.

(** A fresh process: nothing has happened, [os.environ] is the only
    dictionary. *)
Definition start (e : engine) (environ : dict) : state :=
  {| self := e; log := []; heap := [environ] |}.

Definition environ0 : dict :=
  <["LANG" := "en_US.UTF-8"]> (<["PATH" := "/usr/sbin:/usr/bin"]> ∅).

End Mock.

(** * Before the pipeline *)

Definition set__root_password (v : option string) (e : engine) : engine :=
  {| _hostname := _hostname e;
     _architecture := _architecture e;
     _root_password := v;
     _abs_root_password_file := _abs_root_password_file e;
     _abs_etc_resolv_conf := _abs_etc_resolv_conf e;
     _disk_id := _disk_id e;
     _abs_scripts_dir_pre := _abs_scripts_dir_pre e;
     _abs_scripts_dir_chroot := _abs_scripts_dir_chroot e;
     _abs_scripts_dir_post := _abs_scripts_dir_post e;
     _abs_target_path := _abs_target_path e;
     _command_grub2_install := _command_grub2_install e;
     _bootloader_approach := _bootloader_approach e;
     _bootloader_force := _bootloader_force e;
     _abs_mountpoint := _abs_mountpoint e;
     _abs_first_partition_device := _abs_first_partition_device e;
     _first_partition_uuid := _first_partition_uuid e |}.

Section Preflight.

Variable w : world.

(** [self._messenger.warn(msg)] *)
Definition messenger_warn (msg : string) : M unit := emit (Messenger_warn msg).

(** [f = open(path); content = f.read(); f.close()]: what [read] gives is
    the lines of the file, one after the other. *)
Definition read_file (path : string) : M string :=
  lines <- readlines w path ;;
  ret (String.concat EmptyString lines).

Definition process_root_password : M unit :=
  password_file <- attr _abs_root_password_file ;;
  if Py.truthy password_file then
    messenger_info
      ("Reading root password from file " +:+ dquote +:+ Py.str password_file
       +:+ dquote +:+ "...") ;;
    path <- attr_str _abs_root_password_file ;;
    content <- read_file path ;;
    assign (set__root_password (Some (Py.split_head newline content)))
  else
    root_password <- attr _root_password ;;
    match root_password with
    | Some _ =>
        messenger_warn
          ("Using --password PASSWORD is a security risk more often than not; "
           +:+ "please consider using --password-file FILE, instead.")
    | None => ret tt
    end.

End Preflight.

(** * Observations on runs *)

(** The state [s] after the further events [l]. *)
Definition log_more (l : list event) (s : state) : state :=
  {| self := self s; log := log s ++ l; heap := heap s |}.

(** The events a computation adds to the history of [s]. *)
Definition new_events {A} (m : M A) (s : state) : list event :=
  drop (length (log s)) (log (snd (m s))).

(** ** The retry loop *)

Module Retry.

(** One attempt of [cmd] that exits with [code]. *)
Definition attempt (cmd : list string) (code : Z) : event :=
  Executor_check_call cmd None (Raise (CalledProcessError code cmd)).

(** Three failed attempts, each followed by its sleep. *)
Definition exhausted (cmd : list string) (code : Z) : list event :=
  [attempt cmd code; Time_sleep 1;
   attempt cmd code; Time_sleep 1;
   attempt cmd code; Time_sleep 1].

(** In [w], [cmd] exits with [code] whenever it is run. *)
Definition always_exits (w : world) (cmd : list string) (code : Z) : Prop :=
  forall h, executor_check_call w h cmd None = Raise (CalledProcessError code cmd).

(** What a retried step whose command always exits with [code] comes to,
    after the events [before] that lead to the loop: code 127 is raised
    at the first attempt; any other code is tried three times and then
    let go. *)
Definition outcome (cmd : list string) (code : Z) (before : list event)
    (s : state) : result unit * state :=
  if code =? _EXIT_COMMAND_NOT_FOUND
  then (Raise (CalledProcessError code cmd), log_more (before ++ [attempt cmd code]) s)
  else (Ok tt, log_more (before ++ exhausted cmd code) s).

Definition cmd_umount (abs_path : string) : list string :=
  [_COMMAND_UMOUNT; abs_path].
Definition cmd_kpartx_d (target : string) : list string :=
  [_COMMAND_KPARTX; "-d"; "-p"; _PARTITION_DELIMITER; target].
Definition cmd_mklabel (target : string) : list string :=
  [_COMMAND_PARTED; "--script"; target; "mklabel"; "msdos"].
Definition cmd_mkpart (target : string) : list string :=
  [_COMMAND_PARTED; "--align"; "optimal"; "--script"; target;
   "mkpart"; "primary"; "ext4"; "1"; "100%"].
Definition cmd_boot_flag (target : string) : list string :=
  [_COMMAND_PARTED; "--script"; target; "set"; "1"; "boot"; "on"].
Definition cmd_partprobe (target : string) : list string :=
  [_COMMAND_PARTPROBE; target].
Definition cmd_kpartx_l (target : string) : list string :=
  [_COMMAND_KPARTX; "-l"; "-p"; _PARTITION_DELIMITER; target].

(** [umount] exits with 1 every time; everything else succeeds. *)
Definition umount_exits_1 : world :=
  Mock.make (Mock.failing _COMMAND_UMOUNT 1) (Mock.outputs Mock.sda1 Mock.uuid1)
            (fun _ _ => true) (fun _ _ => Ok []) (fun _ _ => Ok []).

Definition start : state :=
  Mock.start (Mock.engine0 BOOTLOADER__NONE None None) Mock.environ0.

(** The number of attempts of [cmd], and of sleeps, in a history. *)
Definition attempts (cmd : list string) (l : list event) : nat :=
  length (List.filter (fun ev => match ev with
                                 | Executor_check_call c _ _ => bool_decide (c = cmd)
                                 | _ => false
                                 end) l).

Definition sleeps (l : list event) : nat :=
  length (List.filter (fun ev => match ev with
                                 | Time_sleep _ => true
                                 | _ => false
                                 end) l).

End Retry.

(** ** Script phases *)

Module Scripts.

(** The commands the Executor was asked to run, in order, with how each
    ended. *)
Definition calls (l : list event) : list (list string * result unit) :=
  omap (fun ev => match ev with
                  | Executor_check_call cmd _ r => Some (cmd, r)
                  | _ => None
                  end) l.

Definition commands (l : list event) : list (list string) := (calls l).*1.

(** The basenames of a directory listing that are scripts to run. *)
Definition eligible (names : list string) : list string :=
  List.filter _script_should_be_run names.

(** A call that went through. *)
Definition succeeded (c : list string * result unit) : Prop := c.2 = Ok tt.

(** The directory of the example: [os.listdir] gives the five names in
    the order the file system keeps them. *)
Definition listing : list string := ["d"; ".hidden"; "b"; "c~"; "a"].

Definition directory : world :=
  Mock.make (fun _ _ _ => Ok tt) (Mock.outputs Mock.sda1 Mock.uuid1)
            (fun _ _ => true) (fun _ _ => Ok listing) (fun _ _ => Ok []).

(** An engine whose mountpoint is set up and whose three script
    directories are configured. *)
Definition engine1 : engine :=
  set__abs_mountpoint (Some "/mnt/tmpAbCdEf")
    (__init__ "host1" "amd64" None None "/etc/resolv.conf" None None
       (Some "/scripts/pre") (Some "/scripts/chroot") (Some "/scripts/post")
       "/dev/sda" None BOOTLOADER__NONE false).

Definition start : state := Mock.start engine1 Mock.environ0.

End Scripts.

(** ** Partition activation, in the words of the specification *)

Module Activation.

(** The first line's token before " : ", and the device under
    /dev/mapper that it names. *)
Definition device_name (output : string) : string :=
  Py.split_head " : " (Py.split_head newline output).

Definition first_partition_device (output : string) : string :=
  "/dev/mapper/" +:+ device_name output.

Definition cmd_kpartx_a (target : string) : list string :=
  [_COMMAND_KPARTX; "-a"; "-p"; _PARTITION_DELIMITER; "-s"; target].

(** An error that the retry loop does not swallow: anything but a
    non-127 exit of the command. *)
Definition fatal (e : exn) : Prop :=
  match e with
  | CalledProcessError code _ => code = _EXIT_COMMAND_NOT_FOUND
  | _ => True
  end.

(** [retried cmd n l r]: running [cmd] with at most [n] attempts left
    gives the events [l] and ends with [r].  A failed attempt is
    followed by a sleep of 1 s and the next attempt; a success ends the
    loop; a fatal error is raised at once; when no attempt is left the
    loop ends. *)
Inductive retried (cmd : list string) : nat -> list event -> result unit -> Prop :=
| retried_out : retried cmd 0 [] (Ok tt)
| retried_ok n :
    retried cmd (S n) [Executor_check_call cmd None (Ok tt)] (Ok tt)
| retried_fatal n e :
    fatal e ->
    retried cmd (S n) [Executor_check_call cmd None (Raise e)] (Raise e)
| retried_again n code c l r :
    code <> _EXIT_COMMAND_NOT_FOUND ->
    retried cmd n l r ->
    retried cmd (S n)
      (Executor_check_call cmd None (Raise (CalledProcessError code c))
         :: Time_sleep 1 :: l) r.

(** [polled device n l r]: looking for the node of [device] at most [n]
    times, with a sleep of 1 s after each look that does not find it;
    [PartitionDeviceMissing] when it never shows up. *)
Inductive polled (device : string) : nat -> list event -> result unit -> Prop :=
| polled_missing :
    polled device 0 []
      (Raise (OSError ENOENT ("No such block device file: '" +:+ device +:+ "'")))
| polled_present n :
    polled device (S n) [Os_path_exists device true] (Ok tt)
| polled_again n l r :
    polled device n l r ->
    polled device (S n) (Os_path_exists device false :: Time_sleep 1 :: l) r.

Definition announced : event := Messenger_info "Activating partition devices...".

Definition listed (target output : string) : event :=
  Executor_check_output (Retry.cmd_kpartx_l target) (Ok output).

(** [activation target l r device]: what partition activation on
    [target] does ([l]), how it ends ([r]) and which first partition
    device it records ([None]: none). *)
Inductive activation (target : string) :
    list event -> result unit -> option string -> Prop :=
| listing_fails e :
    activation target
      [announced; Executor_check_output (Retry.cmd_kpartx_l target) (Raise e)]
      (Raise e) None
| loop_stale output :
    Py.startswith "loop" (device_name output) = true ->
    activation target
      [announced; listed target output;
       Os_path_exists (first_partition_device output) true]
      (Raise (OSError EEXIST
                ("File exists: '" +:+ first_partition_device output +:+ "'")))
      (Some (first_partition_device output))
| loop_add_fails output e :
    Py.startswith "loop" (device_name output) = true ->
    activation target
      [announced; listed target output;
       Os_path_exists (first_partition_device output) false;
       Executor_check_call (cmd_kpartx_a target) None (Raise e)]
      (Raise e)
      (Some (first_partition_device output))
| loop_added output polls r :
    Py.startswith "loop" (device_name output) = true ->
    polled (first_partition_device output) 3 polls r ->
    activation target
      ([announced; listed target output;
        Os_path_exists (first_partition_device output) false;
        Executor_check_call (cmd_kpartx_a target) None (Ok tt)] ++ polls)
      r
      (Some (first_partition_device output))
| refresh_fails output probes e :
    Py.startswith "loop" (device_name output) = false ->
    retried (Retry.cmd_partprobe target) 3 probes (Raise e) ->
    activation target
      ([announced; listed target output; Time_sleep 1] ++ probes)
      (Raise e)
      (Some (first_partition_device output))
| refreshed output probes polls r :
    Py.startswith "loop" (device_name output) = false ->
    retried (Retry.cmd_partprobe target) 3 probes (Ok tt) ->
    polled (first_partition_device output) 3 polls r ->
    activation target
      ([announced; listed target output; Time_sleep 1] ++ probes ++ polls)
      r
      (Some (first_partition_device output)).

(** A run of partprobe. *)
Definition is_partprobe (ev : event) : Prop :=
  match ev with
  | Executor_check_call (c :: _) _ _ => c = _COMMAND_PARTPROBE
  | _ => False
  end.

(** The field after activation: the recorded device, or what it was. *)
Definition recorded (device : option string) (before : option string) : option string :=
  match device with
  | Some d => Some d
  | None => before
  end.

End Activation.

(** ** Specifications of methods by their events *)

(** How a call ended, without its value. *)
Definition outcome {A} (r : result A) : option exn :=
  match r with
  | Ok _ => None
  | Raise e => Some e
  end.

(** A property [Φ o l] of the events [l] of a computation that ended with
    [o] is closed when it holds of doing nothing, and is kept when a second
    computation follows a first one: either after its success, or in a
    [finally] clause after it ended in whatever way; the outcome is that of
    the second computation if that one raises, that of the first one
    otherwise. *)
Class Closed (Φ : option exn -> list event -> Prop) : Prop := {
  closed_nil : Φ None [];
  closed_then_ok : forall l1 l2 o, Φ o l1 -> Φ None l2 -> Φ o (l1 ++ l2);
  closed_then_raise : forall l1 l2 o e, Φ o l1 -> Φ (Some e) l2 -> Φ (Some e) (l1 ++ l2);
}.
#[global] Hint Mode Closed ! : typeclass_instances.

(** What a sequence of steps needs of [Φ]: it holds of doing nothing, and
    the events of a step that returned normally may stand in front of what
    follows. *)
Class Sequential (Φ : option exn -> list event -> Prop) : Prop := {
  seq_nil : Φ None [];
  seq_app : forall l1 l2 o, Φ None l1 -> Φ o l2 -> Φ o (l1 ++ l2);
}.
#[global] Hint Mode Sequential ! : typeclass_instances.

(** [sat I Φ m]: started with an engine that satisfies [I], [m] only adds
    events to the history, these satisfy [Φ] for the way [m] ends, and the
    engine satisfies [I] again. *)
Definition sat (I : engine -> Prop) (Φ : option exn -> list event -> Prop)
    {A} (m : M A) : Prop :=
  forall s, I (self s) ->
    exists l,
      log (snd (m s)) = log s ++ l
      /\ Φ (outcome (fst (m s))) l
      /\ I (self (snd (m s))).

(** Every event satisfies [Q], however the computation ends. *)
Definition all_events (Q : event -> Prop) : option exn -> list event -> Prop :=
  fun _ l => Forall Q l.

(** The computation adds no event, however it ends. *)
Definition no_events : option exn -> list event -> Prop :=
  fun _ l => l = [].

(** [must P m]: [m] only adds events to the history, and when it returns
    normally, one of them satisfies [P]. *)
Definition must (P : event -> Prop) {A} (m : M A) : Prop :=
  forall s,
    exists l,
      log (snd (m s)) = log s ++ l
      /\ (forall a, fst (m s) = Ok a -> Exists P l).

(** [m] only adds events to the history. *)
Definition grows {A} (m : M A) : Prop :=
  forall s, exists l, log (snd (m s)) = log s ++ l.

(** ** The error a run reports *)

Module Errors.

(** The commands that are run under the retry loop: [umount path],
    [partprobe target], [kpartx -d -p p target] and
    [parted --script target set 1 boot on]. *)
Definition retried_command (cmd : list string) : bool :=
  match cmd with
  | [c; _] => String.eqb c _COMMAND_UMOUNT || String.eqb c _COMMAND_PARTPROBE
  | [c; d; _; _; _] => String.eqb d "-d" && String.eqb c _COMMAND_KPARTX
  | [c; _; _; verb; _; _; _] => String.eqb verb "set" && String.eqb c _COMMAND_PARTED
  | _ => false
  end.

(** A failure that the retry loop swallows: another exit code than 127
    of a retried command. *)
Definition swallowed (cmd : list string) (e : exn) : bool :=
  match e with
  | CalledProcessError code _ =>
      retried_command cmd && negb (code =? _EXIT_COMMAND_NOT_FOUND)
  | _ => false
  end.

(** The failure that the loop of [_rmdir_mountpount] swallows. *)
Definition busy (e : exn) : bool :=
  match e with
  | OSError errno _ => errno =? EBUSY
  | _ => false
  end.

(** The exception that a call makes the engine raise, if any: the
    exception of a failed call that no loop swallows, and the
    [CalledProcessError] that the engine raises for a child of [Popen]
    that returns a non-zero code. *)
Definition raised_by (ev : event) : option exn :=
  match ev with
  | Executor_check_call cmd _ (Raise e) => if swallowed cmd e then None else Some e
  | Os_rmdir _ (Raise e) => if busy e then None else Some e
  | Subprocess_Popen cmd _ _ (Ok returncode) =>
      if returncode =? 0 then None else Some (CalledProcessError returncode cmd)
  | Executor_check_output _ (Raise e)
  | Subprocess_check_output _ (Raise e)
  | Subprocess_Popen _ _ _ (Raise e)
  | Os_mkdir _ _ (Raise e)
  | Os_remove _ (Raise e)
  | Os_listdir _ (Raise e)
  | Tempfile_mkdtemp _ (Raise e)
  | File_write _ _ (Raise e)
  | File_write_at _ _ _ (Raise e)
  | File_readlines _ (Raise e)
  | Require_valid_uuid _ (Raise e)
  | MountFinder_below _ (Raise e)
  | Distro_call _ _ _ (Raise e)
  | Distro_get_chroot_command_grub2_install (Raise e) => Some e
  | _ => None
  end.

(** The exceptions raised in the course of a history, in order. *)
Definition raised (l : list event) : list exn := omap raised_by l.

(** The exceptions that the engine raises without a call that shows it:
    a failed assertion, a [None] where a string is needed, the checks of
    the device node, and a failed libc call. *)
Definition engine_raised (e : exn) : Prop :=
  match e with
  | AssertionError | TypeError | AttributeError => True
  | OSError _ msg =>
      Py.startswith "File exists: '" msg = true
      \/ Py.startswith "No such block device file: '" msg = true
      \/ Py.startswith "Unsharing Linux namespaces failed: " msg = true
      \/ Py.startswith "Setting hostname failed: " msg = true
  | _ => False
  end.

(** [reported o l]: a computation with the events [l] ends with [o].
    Without an exception, no call has raised.  With the exception [e]:
    [e] is the last exception that was raised in [l]; or no exception was
    raised in [l] at all and [e] is one of those that the engine raises
    without a call. *)
Definition reported (o : option exn) (l : list event) : Prop :=
  match o with
  | None => raised l = []
  | Some e => last (raised l) = Some e \/ (engine_raised e /\ raised l = [])
  end.

(** [thrown o l]: the same for a step that only raises what a call has
    raised. *)
Definition thrown (o : option exn) (l : list event) : Prop :=
  match o with
  | None => raised l = []
  | Some e => last (raised l) = Some e
  end.

(** The engine has the directory [d] of chroot scripts; and its
    mountpoint is set. *)
Definition configured (d : option string) (e : engine) : Prop :=
  _abs_scripts_dir_chroot e = d.

Definition underway (d : option string) (e : engine) : Prop :=
  is_Some (_abs_mountpoint e) /\ _abs_scripts_dir_chroot e = d.

(** [mkfs.ext4] exits with 1 and [kpartx -d] with 127; everything else
    succeeds. *)
Definition mkfs_1_kpartx_d_127
    (h : list event) (cmd : list string) (env : option dict) : result unit :=
  match cmd with
  | [c; d; _; _; _] =>
      if String.eqb c _COMMAND_KPARTX && String.eqb d "-d"
      then Raise (CalledProcessError 127 cmd) else Ok tt
  | c :: _ =>
      if String.eqb c _COMMAND_MKFS_EXT4 then Raise (CalledProcessError 1 cmd) else Ok tt
  | [] => Ok tt
  end.

Definition cleanup_fails : world :=
  Mock.make mkfs_1_kpartx_d_127 (Mock.outputs Mock.sda1 Mock.uuid1)
            (fun _ _ => true) (fun _ _ => Ok []) (fun _ _ => Ok []).

Definition start : state :=
  Mock.start (Mock.engine0 BOOTLOADER__NONE None None) Mock.environ0.

(** chpasswd returns 1, and in the tear-down every umount is not found
    (exit 127); everything else succeeds. *)
Definition chpasswd_fails : world :=
  {| executor_check_call := Mock.failing _COMMAND_UMOUNT 127;
     executor_env_left := fun _ _ d => d;
     executor_check_output := Mock.outputs Mock.sda1 Mock.uuid1;
     subprocess_check_output := fun _ _ => Ok EmptyString;
     subprocess_Popen := fun _ _ _ _ => Ok 1;
     os_path_exists := fun _ _ => true;
     os_path_realpath := fun _ p => p;
     os_mkdir := fun _ _ _ => Ok tt;
     os_rmdir := fun _ _ => Ok tt;
     os_remove := fun _ _ => Ok tt;
     os_listdir := fun _ _ => Ok [];
     tempfile_mkdtemp := fun _ dir => Ok (dir +:+ "/tmpAbCdEf");
     file_write := fun _ _ _ => Ok tt;
     file_write_at := fun _ _ _ _ => Ok tt;
     file_readlines := fun _ _ => Ok [];
     libc_unshare := fun _ _ => (0, 0);
     libc_sethostname := fun _ _ _ => (0, 0);
     require_valid_uuid := fun _ _ => Ok tt;
     mountfinder_below := fun _ _ => Ok [];
     distro_call := fun _ _ _ _ => Ok tt;
     distro_env_left := fun _ _ d => d;
     distro_get_chroot_command_grub2_install := fun _ => Ok "grub-install";
     os_strerror := fun _ => "Operation not permitted";
     os_path_normpath := fun p => p |}.

(** A fresh process, with a root password to set. *)
Definition with_password : state :=
  Mock.start
    (__init__ "host1" "amd64" (Some "secret") None "/etc/resolv.conf" None None
       None None None "/dev/sda" (Some "grub-install") BOOTLOADER__NONE false)
    Mock.environ0.

Definition is_messenger_error (ev : event) : bool :=
  match ev with
  | Messenger_error _ => true
  | _ => false
  end.

End Errors.

(** ** The first partition device *)

Module Device.

(** The kernel is told about the partitions: [kpartx -a] or [partprobe]
    went through. *)
Definition told (ev : event) : bool :=
  match ev with
  | Executor_check_call [c; _] _ (Ok _) => String.eqb c _COMMAND_PARTPROBE
  | Executor_check_call [c; a; _; _; _; _] _ (Ok _) =>
      String.eqb a "-a" && String.eqb c _COMMAND_KPARTX
  | _ => false
  end.

(** A device node is seen to exist. *)
Definition observed (ev : event) : bool :=
  match ev with
  | Os_path_exists _ true => true
  | _ => false
  end.

(** In the history [l], the kernel has been told about the partitions
    and the node has been observed. *)
Definition activated (l : list event) : bool :=
  existsb told l && existsb observed l.

(** The field is non-empty. *)
Definition is_set (e : engine) : Prop :=
  Py.truthy (_abs_first_partition_device e) = true.

(** The node of the partition never shows up. *)
Definition never_there : world :=
  Mock.make (fun _ _ _ => Ok tt) (Mock.outputs Mock.sda1 Mock.uuid1)
            (fun _ _ => false) (fun _ _ => Ok []) (fun _ _ => Ok []).

Definition start : state :=
  Mock.start (Mock.engine0 BOOTLOADER__NONE None None) Mock.environ0.

End Device.

(** ** /etc/fstab *)

Module Fstab.

(** The line of /etc/fstab for the UUID [u], with its newline. *)
Definition line (u : string) : string :=
  "/dev/disk/by-uuid/" +:+ u +:+ " / auto defaults 0 1" +:+ newline.

(** The fstab of the target mounted on [mountpoint]. *)
Definition path (mountpoint : string) : string :=
  Py.join (Py.join mountpoint "etc") "fstab".

Definition cmd_mkfs (device : string) : list string :=
  [_COMMAND_MKFS_EXT4; "-F"; device].

Definition cmd_tune2fs (u device : string) : list string :=
  [_COMMAND_TUNE2FS; "-U"; u; device].

Definition cmd_blkid (device : string) : list string :=
  [_COMMAND_BLKID; "-o"; "value"; "-s"; "UUID"; device].

(** A call of blkid, of tune2fs; a file that is written; a file system
    that is made. *)
Definition is_blkid (ev : event) : bool :=
  match ev with
  | Executor_check_output (c :: _) _ => String.eqb c _COMMAND_BLKID
  | _ => false
  end.

Definition is_tune2fs (ev : event) : bool :=
  match ev with
  | Executor_check_call [c; flag; _; _] _ _ =>
      String.eqb c _COMMAND_TUNE2FS && String.eqb flag "-U"
  | _ => false
  end.

Definition is_write (ev : event) : bool :=
  match ev with
  | File_write _ _ _ => true
  | _ => false
  end.

Definition formats (ev : event) : bool :=
  match ev with
  | Executor_check_call [c; _; _] _ (Ok _) => String.eqb c _COMMAND_MKFS_EXT4
  | _ => false
  end.

(** An event that leaves the UUID alone and writes no file. *)
Definition idle (ev : event) : Prop :=
  is_blkid ev = false /\ is_tune2fs ev = false /\ is_write ev = false.

(** An event before the file system is made. *)
Definition early (ev : event) : Prop := idle ev /\ formats ev = false.

(** An event with the UUID [u] settled and the target mounted on
    [mountpoint]: the UUID is left alone; a file that is written is below
    the mountpoint, and when it is the etc/fstab of a directory, it is
    that of the mountpoint and holds the line of [u]. *)
Definition within (u mountpoint : string) (ev : event) : Prop :=
  is_blkid ev = false /\ is_tune2fs ev = false
  /\ match ev with
     | File_write p content _ =>
         Py.startswith mountpoint p = true
         /\ ((exists m, p = path m) -> p = path mountpoint /\ content = line u)
     | _ => True
     end.

(** [settled configured device l u]: what the pipeline does to settle
    the UUID of the file system on [device] ([l]), and the UUID it goes on
    with ([None]: it stops).  A configured UUID is imposed with tune2fs;
    without one, blkid is asked, and its output, stripped of trailing
    white space, is validated and must not be empty. *)
Inductive settled (configured : option string) (device : string) :
    list event -> option string -> Prop :=
| imposed u :
    configured = Some u -> u <> EmptyString ->
    settled configured device
      [Messenger_info ("Setting first partition UUID to " +:+ u +:+ "...");
       Executor_check_call (cmd_tune2fs u device) None (Ok tt)]
      (Some u)
| not_imposed u e :
    configured = Some u -> u <> EmptyString ->
    settled configured device
      [Messenger_info ("Setting first partition UUID to " +:+ u +:+ "...");
       Executor_check_call (cmd_tune2fs u device) None (Raise e)]
      None
| not_read e :
    Py.truthy configured = false ->
    settled configured device [Executor_check_output (cmd_blkid device) (Raise e)] None
| not_valid output e :
    Py.truthy configured = false ->
    settled configured device
      [Executor_check_output (cmd_blkid device) (Ok output);
       Require_valid_uuid (Py.rstrip output) (Raise e)]
      None
| gathered output :
    Py.truthy configured = false ->
    settled configured device
      [Executor_check_output (cmd_blkid device) (Ok output);
       Require_valid_uuid (Py.rstrip output) (Ok tt)]
      (if Py.truthy (Some (Py.rstrip output)) then Some (Py.rstrip output) else None).

(** [written u r l]: what a pipeline that ends with [r] does once the
    UUID [u] is settled.  The mountpoint is made; when that fails, nothing
    is written; otherwise everything is written within it, and a pipeline
    that returns normally has written its etc/fstab, with the line of
    [u]. *)
Inductive written (u : string) (r : result unit) : list event -> Prop :=
| no_mountpoint e l :
    Forall idle l -> r <> Ok tt ->
    written u r (Tempfile_mkdtemp _MOUNTPOINT_PARENT_DIR (Raise e) :: l)
| below mountpoint l :
    Forall (within u mountpoint) l ->
    (r = Ok tt -> In (File_write (path mountpoint) (line u) (Ok tt)) l) ->
    written u r (Tempfile_mkdtemp _MOUNTPOINT_PARENT_DIR (Ok mountpoint) :: l).

(** An etc/fstab has been written, and the write went through. *)
Definition writes (ev : event) : Prop :=
  match ev with
  | File_write p _ (Ok _) => exists m, p = path m
  | _ => False
  end.

(** The engine: configured UUID and target; device; UUID and mountpoint. *)
Definition starting (configured : option string) (target : string) (e : engine) : Prop :=
  _first_partition_uuid e = configured /\ _abs_target_path e = target.

Definition mounted (u mountpoint : string) (e : engine) : Prop :=
  _first_partition_uuid e = Some u /\ _abs_mountpoint e = Some mountpoint.

(** The last character of a string. *)
Fixpoint last_char (s : string) : option ascii :=
  match s with
  | EmptyString => None
  | String c EmptyString => Some c
  | String _ s' => last_char s'
  end.

End Fstab.


(** ** The device map of a drive-mode install *)

Module DeviceMap.

(** The approaches that install to the drive [(hd0)]. *)
Definition drive_mode (approach : string) : bool :=
  String.eqb approach BOOTLOADER__CHROOT_GRUB2__DRIVE
  || String.eqb approach BOOTLOADER__HOST_GRUB2__DRIVE.

(** [<mountpoint>/boot/grub/device.map] *)
Definition path (mountpoint : string) : string :=
  Py.join (Py.join (Py.join mountpoint "boot") "grub") "device.map".

(** The one line of the device map, with its newline. *)
Definition content (real_abs_target : string) : string :=
  "(hd0)" +:+ tab +:+ real_abs_target +:+ newline.

(** An event that runs no command and neither writes nor removes a file. *)
Definition quiet (ev : event) : bool :=
  match ev with
  | Executor_check_call _ _ _ | Executor_check_output _ _
  | Subprocess_check_output _ _ | Subprocess_Popen _ _ _ _
  | File_write _ _ _ | File_write_at _ _ _ _ | Os_remove _ _ => false
  | _ => true
  end.

(** The events of a drive-mode install and the way it ends.  The target
    path is resolved and the device map is written first; if the write
    goes through, the install command for [(hd0)] is the only command that
    is run, nothing touches the device map before it, and the device map is
    removed exactly when the command has succeeded. *)
Inductive installed (target devmap : string) : list event -> result unit -> Prop :=
| write_fails real msg e :
    installed target devmap
      [Os_path_realpath target real; Messenger_info msg;
       File_write devmap (content real) (Raise e)]
      (Raise e)
| command_not_run real msg mid e :
    forallb quiet mid = true ->
    installed target devmap
      ([Os_path_realpath target real; Messenger_info msg;
        File_write devmap (content real) (Ok tt)] ++ mid)
      (Raise e)
| command_fails real msg mid cmd env e :
    forallb quiet mid = true ->
    last cmd = Some "(hd0)" ->
    installed target devmap
      ([Os_path_realpath target real; Messenger_info msg;
        File_write devmap (content real) (Ok tt)] ++ mid
       ++ [Executor_check_call cmd env (Raise e)])
      (Raise e)
| command_succeeds real msg mid cmd env r :
    forallb quiet mid = true ->
    last cmd = Some "(hd0)" ->
    installed target devmap
      ([Os_path_realpath target real; Messenger_info msg;
        File_write devmap (content real) (Ok tt)] ++ mid
       ++ [Executor_check_call cmd env (Ok tt); Os_remove devmap r])
      r.

(** The mock world in which grub-install exits with 1. *)
Definition install_fails : world :=
  Mock.make (Mock.failing "grub-install" 1) (Mock.outputs Mock.sda1 Mock.uuid1)
            (fun _ _ => true) (fun _ _ => Ok []) (fun _ _ => Ok []).

Definition engine1 : engine :=
  set__abs_mountpoint (Some "/mnt/tmp0")
    (Mock.engine0 BOOTLOADER__HOST_GRUB2__DRIVE None None).

Definition start : state := Mock.start engine1 Mock.environ0.

End DeviceMap.


(** ** Detection of grub2-install *)

Module Detect.

(** The approaches that run the grub2-install of the host. *)
Definition host_grub2 (approach : string) : bool :=
  String.eqb approach BOOTLOADER__HOST_GRUB2__DEVICE
  || String.eqb approach BOOTLOADER__HOST_GRUB2__DRIVE.

(** The events of a search for [command] in the directories [dirs], in
    order, and what it finds: the first path that exists. *)
Inductive searched (command : string) : list string -> list event -> option string -> Prop :=
| searched_nowhere : searched command [] [] None
| searched_here d ds :
    searched command (d :: ds)
      [Os_path_exists (Py.join d command) true] (Some (Py.join d command))
| searched_further d ds l r :
    searched command ds l r ->
    searched command (d :: ds) (Os_path_exists (Py.join d command) false :: l) r.

(** The error of [_protect_against_grub_legacy]. *)
Definition legacy (command : string) : exn :=
  ValueError
    ("Command " +:+ dquote +:+ command +:+ dquote
     +:+ " is GRUB legacy while GRUB 2 is needed. "
     +:+ "Please install GRUB 2 or pass --grub2-install .. on the command line.").

(** What the probe of [command] makes of the answer to [--version]. *)
Definition probed (command : string) (answer : result string) : result unit :=
  match answer with
  | Ok output =>
      if Py.contains "GRUB GRUB 0." output then Raise (legacy command) else Ok tt
  | Raise e => Raise e
  end.

(** The events of a detection over the directories [dirs], the way it
    ends and the command it records. *)
Inductive detected (dirs : list string) :
  list event -> result unit -> option string -> Prop :=
| grub2_install_found l p :
    searched "grub2-install" dirs l (Some p) ->
    detected dirs l (Ok tt) (Some "grub2-install")
| nothing_found l1 l2 :
    searched "grub2-install" dirs l1 None ->
    searched "grub-install" dirs l2 None ->
    detected dirs (l1 ++ l2) (Ok tt) (Some "grub-install")
| grub_install_found l1 l2 p answer :
    searched "grub2-install" dirs l1 None ->
    searched "grub-install" dirs l2 (Some p) ->
    detected dirs
      (l1 ++ l2 ++ [Subprocess_check_output ["grub-install"; "--version"] answer])
      (probed "grub-install" answer) (Some "grub-install").

(** A host with GRUB legacy as [/usr/sbin/grub-install] and no
    grub2-install. *)
Definition grub_legacy : world :=
  {| executor_check_call := fun _ _ _ => Ok tt;
     executor_env_left := fun _ _ d => d;
     executor_check_output := fun _ _ => Ok EmptyString;
     subprocess_check_output :=
       fun _ _ => Ok ("grub-install (GRUB GRUB 0.93)" +:+ newline);
     subprocess_Popen := fun _ _ _ _ => Ok 0;
     os_path_exists := fun _ p => String.eqb p "/usr/sbin/grub-install";
     os_path_realpath := fun _ p => p;
     os_mkdir := fun _ _ _ => Ok tt;
     os_rmdir := fun _ _ => Ok tt;
     os_remove := fun _ _ => Ok tt;
     os_listdir := fun _ _ => Ok [];
     tempfile_mkdtemp := fun _ dir => Ok (dir +:+ "/tmpAbCdEf");
     file_write := fun _ _ _ => Ok tt;
     file_write_at := fun _ _ _ _ => Ok tt;
     file_readlines := fun _ _ => Ok [];
     libc_unshare := fun _ _ => (0, 0);
     libc_sethostname := fun _ _ _ => (0, 0);
     require_valid_uuid := fun _ _ => Ok tt;
     mountfinder_below := fun _ _ => Ok [];
     distro_call := fun _ _ _ _ => Ok tt;
     distro_env_left := fun _ _ d => d;
     distro_get_chroot_command_grub2_install := fun _ => Ok "grub-install";
     os_strerror := fun _ => "Operation not permitted";
     os_path_normpath := fun p => p |}.

Definition engine1 : engine :=
  __init__ "host1" "amd64" None None "/etc/resolv.conf" None None
           None None None "/dev/sda" None BOOTLOADER__HOST_GRUB2__DRIVE false.

Definition start : state := Mock.start engine1 Mock.environ0.

End Detect.


(** ** The environments of scripts and commands *)

Module Env.

(** The dictionary [make_environment] builds from [os.environ]: LANG and
    LANGUAGE removed, HOSTNAME, IB_HOSTNAME and LC_ALL set, and IB_ROOT and
    MNTPOINT set when a mountpoint is told. *)
Definition made (environ : dict) (hostname : string) (mountpoint : option string) : dict :=
  let base :=
    <["LC_ALL" := "C"]>
      (<["IB_HOSTNAME" := hostname]>
         (<["HOSTNAME" := hostname]> (delete "LANGUAGE" (delete "LANG" environ)))) in
  match mountpoint with
  | Some mp => <["MNTPOINT" := mp]> (<["IB_ROOT" := mp]> base)
  | None => base
  end.

(** If the event runs a command with an environment, that is [d]. *)
Definition handed (d : dict) (ev : event) : Prop :=
  match ev with
  | Executor_check_call _ (Some d') _ => d' = d
  | _ => True
  end.

(** [framed d env m]: started with [d] at the location [env], [m] leaves
    the engine as it is, only adds events to the history, only hands [d]
    to the commands it runs with an environment, and leaves every
    dictionary object that exists where and as it is: it only allocates
    new ones. *)
Definition framed (d : dict) (env : nat) {A} (m : M A) : Prop :=
  forall s, heap s !! env = Some d ->
    exists l extra,
      log (snd (m s)) = log s ++ l
      /\ Forall (handed d) l
      /\ heap (snd (m s)) = heap s ++ extra
      /\ self (snd (m s)) = self s.

(** Every dictionary object of [s], [os.environ] among them, is in [s']
    where and as it was. *)
Definition kept (s s' : state) : Prop :=
  forall l d, heap s !! l = Some d -> heap s' !! l = Some d.

(** The mock world in which every command empties the environment it is
    given, and two scripts to run. *)
Definition wrecking : world :=
  {| executor_check_call := fun _ _ _ => Ok tt;
     executor_env_left := fun _ _ _ => ∅;
     executor_check_output := fun _ _ => Ok EmptyString;
     subprocess_check_output := fun _ _ => Ok EmptyString;
     subprocess_Popen := fun _ _ _ _ => Ok 0;
     os_path_exists := fun _ _ => true;
     os_path_realpath := fun _ p => p;
     os_mkdir := fun _ _ _ => Ok tt;
     os_rmdir := fun _ _ => Ok tt;
     os_remove := fun _ _ => Ok tt;
     os_listdir := fun _ _ => Ok ["b"; "a"];
     tempfile_mkdtemp := fun _ dir => Ok (dir +:+ "/tmpAbCdEf");
     file_write := fun _ _ _ => Ok tt;
     file_write_at := fun _ _ _ _ => Ok tt;
     file_readlines := fun _ _ => Ok [];
     libc_unshare := fun _ _ => (0, 0);
     libc_sethostname := fun _ _ _ => (0, 0);
     require_valid_uuid := fun _ _ => Ok tt;
     mountfinder_below := fun _ _ => Ok [];
     distro_call := fun _ _ _ _ => Ok tt;
     distro_env_left := fun _ _ _ => ∅;
     distro_get_chroot_command_grub2_install := fun _ => Ok "grub-install";
     os_strerror := fun _ => "Operation not permitted";
     os_path_normpath := fun p => p |}.

Definition engine1 : engine :=
  set__abs_mountpoint (Some "/mnt/tmp0")
    (__init__ "host1" "amd64" None None "/etc/resolv.conf" None None
              (Some "/scripts/pre") (Some "/scripts/chroot") (Some "/scripts/post")
              "/dev/sda" None BOOTLOADER__NONE false).

Definition start : state := Mock.start engine1 Mock.environ0.

End Env.


(** * Observations for the further properties *)

(** ** Removing the mountpoint *)

Module Rmdir.

(** [tried path n l r]: removing the directory [path] with at most [n]
    attempts left gives the events [l] and ends with [r].  An attempt
    that fails because the directory is busy is followed by a sleep of
    1 s and the next attempt; any other error is raised at once; when no
    attempt is left the loop ends, and nothing is raised. *)
Inductive tried (path : string) : nat -> list event -> result unit -> Prop :=
| tried_out : tried path 0 [] (Ok tt)
| tried_removed n : tried path (S n) [Os_rmdir path (Ok tt)] (Ok tt)
| tried_failed n e :
    (forall msg, e <> OSError EBUSY msg) ->
    tried path (S n) [Os_rmdir path (Raise e)] (Raise e)
| tried_busy n msg l r :
    tried path n l r ->
    tried path (S n) (Os_rmdir path (Raise (OSError EBUSY msg)) :: Time_sleep 1 :: l) r.

(** The mountpoint stays busy. *)
Definition always_busy : world :=
  {| executor_check_call := fun _ _ _ => Ok tt;
     executor_env_left := fun _ _ d => d;
     executor_check_output := fun _ _ => Ok EmptyString;
     subprocess_check_output := fun _ _ => Ok EmptyString;
     subprocess_Popen := fun _ _ _ _ => Ok 0;
     os_path_exists := fun _ _ => true;
     os_path_realpath := fun _ p => p;
     os_mkdir := fun _ _ _ => Ok tt;
     os_rmdir := fun _ _ => Raise (OSError EBUSY "Device or resource busy");
     os_remove := fun _ _ => Ok tt;
     os_listdir := fun _ _ => Ok [];
     tempfile_mkdtemp := fun _ dir => Ok (dir +:+ "/tmpAbCdEf");
     file_write := fun _ _ _ => Ok tt;
     file_write_at := fun _ _ _ _ => Ok tt;
     file_readlines := fun _ _ => Ok [];
     libc_unshare := fun _ _ => (0, 0);
     libc_sethostname := fun _ _ _ => (0, 0);
     require_valid_uuid := fun _ _ => Ok tt;
     mountfinder_below := fun _ _ => Ok [];
     distro_call := fun _ _ _ _ => Ok tt;
     distro_env_left := fun _ _ d => d;
     distro_get_chroot_command_grub2_install := fun _ => Ok "grub-install";
     os_strerror := fun _ => "Operation not permitted";
     os_path_normpath := fun p => p |}.

Definition start : state :=
  Mock.start (set__abs_mountpoint (Some "/mnt/tmp0") (Mock.engine0 BOOTLOADER__NONE None None))
    Mock.environ0.

End Rmdir.

(** ** Isolation comes first *)

Module Isolation.

Definition announced : event :=
  Messenger_info "Unsharing Linux namespaces (mount, UTS/hostname)...".

(** [get_errno() or errno.EPERM] *)
Definition errno_or_eperm (e : Z) : Z := if e =? 0 then EPERM else e.

(** The error of a libc call that failed with the errno [e]. *)
Definition failed (w : world) (what : string) (e : Z) : exn :=
  OSError (errno_or_eperm e) (what +:+ os_strerror w (errno_or_eperm e)).

(** How a run begins, and ends when it is not isolated: either
    [unshare(CLONE_NEWNS | CLONE_NEWUTS)] fails and that is all, or it
    succeeds, [sethostname] fails and that is all, or both succeed and
    the pipeline goes on with [rest]. *)
Inductive begun (w : world) (hostname : string) : list event -> result unit -> Prop :=
| unshare_failed ret e :
    ret <> 0 ->
    begun w hostname
      [announced; Libc_unshare 0x04020000 ret e]
      (Raise (failed w "Unsharing Linux namespaces failed: " e))
| sethostname_failed e ret e' :
    ret <> 0 ->
    begun w hostname
      [announced; Libc_unshare 0x04020000 0 e;
       Libc_sethostname hostname (Py.strlen hostname) ret e']
      (Raise (failed w "Setting hostname failed: " e'))
| isolated e e' rest r :
    begun w hostname
      (announced :: Libc_unshare 0x04020000 0 e
       :: Libc_sethostname hostname (Py.strlen hostname) 0 e' :: rest) r.

(** A world without the permission to unshare: errno is left at 0. *)
Definition not_permitted : world :=
  {| executor_check_call := fun _ _ _ => Ok tt;
     executor_env_left := fun _ _ d => d;
     executor_check_output := fun _ _ => Ok EmptyString;
     subprocess_check_output := fun _ _ => Ok EmptyString;
     subprocess_Popen := fun _ _ _ _ => Ok 0;
     os_path_exists := fun _ _ => true;
     os_path_realpath := fun _ p => p;
     os_mkdir := fun _ _ _ => Ok tt;
     os_rmdir := fun _ _ => Ok tt;
     os_remove := fun _ _ => Ok tt;
     os_listdir := fun _ _ => Ok [];
     tempfile_mkdtemp := fun _ dir => Ok (dir +:+ "/tmpAbCdEf");
     file_write := fun _ _ _ => Ok tt;
     file_write_at := fun _ _ _ _ => Ok tt;
     file_readlines := fun _ _ => Ok [];
     libc_unshare := fun _ _ => (-1, 0);
     libc_sethostname := fun _ _ _ => (0, 0);
     require_valid_uuid := fun _ _ => Ok tt;
     mountfinder_below := fun _ _ => Ok [];
     distro_call := fun _ _ _ _ => Ok tt;
     distro_env_left := fun _ _ d => d;
     distro_get_chroot_command_grub2_install := fun _ => Ok "grub-install";
     os_strerror := fun _ => "Operation not permitted";
     os_path_normpath := fun p => p |}.

End Isolation.

(** ** The disk identifier in the MBR *)

Module Mbr.

(** A write at an offset into a file. *)
Definition is_raw_write (ev : event) : bool :=
  match ev with
  | File_write_at _ _ _ _ => true
  | _ => false
  end.

(** The write of the disk identifier [d] into the MBR of [target]: its
    four bytes, at offset 440. *)
Definition writes_disk_id (target : string) (d : disk_id) (ev : event) : Prop :=
  match ev with
  | File_write_at path offset content _ =>
      path = target /\ offset = 440 /\ content = byte_sequence d
      /\ length content = 4%nat
  | _ => False
  end.

Definition engine1 : engine :=
  __init__ "host1" "amd64" None None "/etc/resolv.conf"
           (Some {| byte_sequence := [0x12; 0x34; 0x56; 0x78]; disk_id_str := "0x78563412" |})
           None None None None "/dev/sda" None BOOTLOADER__NONE false.

Definition start : state := Mock.start engine1 Mock.environ0.

End Mbr.

(** ** The root password *)

Module Passwd.

(** [chroot <mountpoint> chpasswd] *)
Definition cmd (mountpoint : string) : list string :=
  [COMMAND_CHROOT; mountpoint; "chpasswd"].

(** What [chpasswd] comes to: an exit code other than 0 is raised. *)
Definition ended (mountpoint : string) (r : result Z) : result unit :=
  match r with
  | Ok returncode =>
      if returncode =? 0 then Ok tt
      else Raise (CalledProcessError returncode (cmd mountpoint))
  | Raise e => Raise e
  end.

Definition engine1 : engine :=
  set__abs_mountpoint (Some "/mnt/tmp0")
    (__init__ "host1" "amd64" (Some "secret") None "/etc/resolv.conf" None None
              None None None "/dev/sda" None BOOTLOADER__NONE false).

Definition start : state := Mock.start engine1 Mock.environ0.

End Passwd.

(** ** The scripts of the chroot phase *)

Module Chroot.

(** The directory of the scripts below the mountpoint, a script in it,
    and the same script as the chroot sees it. *)
Definition parent (mountpoint : string) : string :=
  Py.join mountpoint _CHROOT_SCRIPT_TARGET_DIR.

Definition target (mountpoint basename : string) : string :=
  Py.join (Py.join mountpoint _CHROOT_SCRIPT_TARGET_DIR) basename.

Definition inside (basename : string) : string :=
  Py.join (Py.join "/" _CHROOT_SCRIPT_TARGET_DIR) basename.

(** The commands of the three steps for the listing [names]. *)
Definition copied (mountpoint dir : string) (names : list string) : list (list string) :=
  [_COMMAND_MKDIR; parent mountpoint]
  :: flat_map (fun b => [[_COMMAND_CP; Py.join dir b; target mountpoint b];
                         [_COMMAND_CHMOD; "a+x"; target mountpoint b]])
       (Scripts.eligible names).

Definition executed (mountpoint : string) (names : list string) : list (list string) :=
  (fun b => [COMMAND_CHROOT; mountpoint; inside b]) <$> Scripts.eligible names.

Definition removed (mountpoint : string) (names : list string) : list (list string) :=
  ((fun b => [_COMMAND_RM; target mountpoint b]) <$> Scripts.eligible names)
  ++ [[_COMMAND_RMDIR; parent mountpoint]].

(** [runs e cmds m]: with the engine [e], [m] leaves the engine as it is,
    only adds events to the history, and the commands it has the
    Executor run are the first of [cmds], in order: all of them, and all
    with success, when [m] returns normally. *)
Definition runs (e : engine) (cmds : list (list string)) {A} (m : M A) : Prop :=
  forall s, self s = e ->
    exists l,
      log (snd (m s)) = log s ++ l
      /\ self (snd (m s)) = e
      /\ Scripts.commands l `prefix_of` cmds
      /\ (forall a, fst (m s) = Ok a ->
          Scripts.commands l = cmds /\ Forall Scripts.succeeded (Scripts.calls l)).

End Chroot.

(** ** Mounting and unmounting *)

Module Mounts.

(** [unmounted paths l r]: unmounting [paths] one after the other, each
    under the retry loop, gives the events [l] and ends with [r]: the
    loop of a path that ends normally (unmounted, or given up after three
    attempts) is followed by the next path; a loop that raises ends it
    all. *)
Inductive unmounted : list string -> list event -> result unit -> Prop :=
| unmounted_all : unmounted [] [] (Ok tt)
| unmounted_next p ps l1 l2 r :
    Activation.retried (Retry.cmd_umount p) 3 l1 (Ok tt) ->
    unmounted ps l2 r ->
    unmounted (p :: ps) (l1 ++ l2) r
| unmounted_raised p ps l e :
    Activation.retried (Retry.cmd_umount p) 3 l (Raise e) ->
    unmounted (p :: ps) l (Raise e).

(** The non-disk mounts below [mountpoint], in the order they are made. *)
Definition non_disk (mountpoint : string) : list (list string) :=
  [[_COMMAND_MOUNT; "/dev"; "-o"; "bind"; Py.join mountpoint "dev"];
   [_COMMAND_MOUNT; "/dev/pts"; "-o"; "bind"; Py.join mountpoint "dev/pts"];
   [_COMMAND_MOUNT; "PROC"; "-t"; "proc"; Py.join mountpoint "proc"];
   [_COMMAND_MOUNT; "/sys"; "-o"; "bind"; Py.join mountpoint "sys"]].

(** Where a [mount] command mounts: its last word. *)
Definition mounted_at (cmd : list string) : string := default EmptyString (last cmd).

(** The bootstrap has left two mounts behind. *)
Definition leftovers : world :=
  Mock.make (fun _ _ _ => Ok tt) (Mock.outputs Mock.sda1 Mock.uuid1)
            (fun _ _ => true) (fun _ _ => Ok [])
            (fun _ _ => Ok ["/mnt/tmp0/proc"; "/mnt/tmp0/dev"]).

End Mounts.

(** ** Runs without a bootloader *)

Module Bootloader.

(** What only the installation of the bootloader and the generation of
    its configuration do: resolving the target path, writing and
    removing the device map, asking the distribution for its
    grub2-install, generating grub.cfg, and post-processing it with
    [sed ... -i ...]. *)
Definition is_step (ev : event) : bool :=
  match ev with
  | Os_path_realpath _ _ => true
  | Os_remove _ _ => true
  | Distro_get_chroot_command_grub2_install _ => true
  | Distro_call method _ _ _ => String.eqb method "generate_grub_cfg_from_inside_chroot"
  | Executor_check_call [c; _; flag; _] _ _ =>
      String.eqb c _COMMAND_SED && String.eqb flag "-i"
  | File_write path _ _ => Py.endswith "device.map" path
  | _ => false
  end.

(** The approach is "none". *)
Definition none (e : engine) : Prop := _bootloader_approach e = BOOTLOADER__NONE.

End Bootloader.

(** ** The environment of the process *)

Module Environ.

(** [keeps environ m]: started with [environ] as [os.environ], [m] ends
    with [environ] as [os.environ]. *)
Definition keeps (environ : dict) {A} (m : M A) : Prop :=
  forall s, heap s !! os_environ = Some environ ->
            heap (snd (m s)) !! os_environ = Some environ.

End Environ.

(** ** The root password, before the pipeline *)

Module PasswordFile.

Definition warning : event :=
  Messenger_warn
    ("Using --password PASSWORD is a security risk more often than not; "
     +:+ "please consider using --password-file FILE, instead.").

(** The first line of a file, without its line end. *)
Definition first_line (lines : list string) : string :=
  Py.split_head newline (String.concat EmptyString lines).

(** The password file holds two lines; a password is given as well. *)
Definition two_lines : world :=
  {| executor_check_call := fun _ _ _ => Ok tt;
     executor_env_left := fun _ _ d => d;
     executor_check_output := fun _ _ => Ok EmptyString;
     subprocess_check_output := fun _ _ => Ok EmptyString;
     subprocess_Popen := fun _ _ _ _ => Ok 0;
     os_path_exists := fun _ _ => true;
     os_path_realpath := fun _ p => p;
     os_mkdir := fun _ _ _ => Ok tt;
     os_rmdir := fun _ _ => Ok tt;
     os_remove := fun _ _ => Ok tt;
     os_listdir := fun _ _ => Ok [];
     tempfile_mkdtemp := fun _ dir => Ok (dir +:+ "/tmpAbCdEf");
     file_write := fun _ _ _ => Ok tt;
     file_write_at := fun _ _ _ _ => Ok tt;
     file_readlines := fun _ _ => Ok ["secret" +:+ newline; "more" +:+ newline];
     libc_unshare := fun _ _ => (0, 0);
     libc_sethostname := fun _ _ _ => (0, 0);
     require_valid_uuid := fun _ _ => Ok tt;
     mountfinder_below := fun _ _ => Ok [];
     distro_call := fun _ _ _ _ => Ok tt;
     distro_env_left := fun _ _ d => d;
     distro_get_chroot_command_grub2_install := fun _ => Ok "grub-install";
     os_strerror := fun _ => "Operation not permitted";
     os_path_normpath := fun p => p |}.

Definition engine1 : engine :=
  __init__ "host1" "amd64" (Some "given") (Some "/root/pw") "/etc/resolv.conf" None None
           None None None "/dev/sda" None BOOTLOADER__NONE false.

Definition start : state := Mock.start engine1 Mock.environ0.

End PasswordFile.

(** ** Scopes and their release steps *)

Module Cleanup.

(** *** What the pipeline takes hold of: the calls *)

(** The file system is made on the first partition device, with whatever
    result: the first call inside the outermost [try] of [run]. *)
Definition formatted (x : string * result unit) : event :=
  Executor_check_call [_COMMAND_MKFS_EXT4; "-F"; x.1] None x.2.

(** The mountpoint directory is made. *)
Definition made (mountpoint : string) : event :=
  Tempfile_mkdtemp _MOUNTPOINT_PARENT_DIR (Ok mountpoint).

(** The partition is mounted on the mountpoint. *)
Definition mounted (mountpoint device : string) : event :=
  Executor_check_call [_COMMAND_MOUNT; device; mountpoint] None (Ok tt).

(** The last of the four non-disk mounts is made. *)
Definition mounted_sys (mountpoint : string) (_ : unit) : event :=
  Executor_check_call [_COMMAND_MOUNT; "/sys"; "-o"; "bind"; Py.join mountpoint "sys"]
    None (Ok tt).

(** An event of one of these kinds: a directory that is made, a call of
    mkfs.ext4, a mount of a partition that went through, a mount of /sys
    that went through. *)
Definition acquires (ev : event) : bool :=
  match ev with
  | Tempfile_mkdtemp _ (Ok _) => true
  | Executor_check_call [c; _; _] _ r =>
      String.eqb c _COMMAND_MKFS_EXT4
      || String.eqb c _COMMAND_MOUNT && match r with Ok _ => true | Raise _ => false end
  | Executor_check_call [c; source; _; _; _] _ (Ok _) =>
      String.eqb c _COMMAND_MOUNT && String.eqb source "/sys"
  | _ => false
  end.

(** Events that are of none of these kinds. *)
Definition idle (l : list event) : Prop := Forall (fun ev => acquires ev = false) l.

(** *** The release steps: their events *)

(** [kpartx -d -p p target], under the retry loop. *)
Definition deactivated (target : string) (l : list event) : Prop :=
  exists attempts r,
    l = Messenger_info "Deactivating partition devices..." :: attempts
    /\ Activation.retried (Retry.cmd_kpartx_d target) 3 attempts r.

(** [os.rmdir(mountpoint)], tried again while the directory is busy. *)
Definition directory_removed (mountpoint : string) (l : list event) : Prop :=
  exists attempts r,
    l = Messenger_info
          ("Removing directory " +:+ dquote +:+ mountpoint +:+ dquote +:+ "...") :: attempts
    /\ Rmdir.tried mountpoint 3 attempts r.

(** [umount mountpoint], under the retry loop. *)
Definition partition_unmounted (mountpoint : string) (l : list event) : Prop :=
  exists attempts r,
    l = Messenger_info "Unmounting partitions..." :: attempts
    /\ Activation.retried (Retry.cmd_umount mountpoint) 3 attempts r.

(** The umounts of sys, proc, dev/pts and dev below the mountpoint, each
    under the retry loop, up to the first one that raises. *)
Definition non_disk_unmounted (mountpoint : string) (l : list event) : Prop :=
  exists attempts r,
    l = Messenger_info "Unmounting non-disk file systems..." :: attempts
    /\ Mounts.unmounted
         [Py.join mountpoint "sys"; Py.join mountpoint "proc";
          Py.join mountpoint "dev/pts"; Py.join mountpoint "dev"] attempts r.

(** *** Scopes *)

(** [scoped acq rel inner l]: either nothing is taken hold of in [l]; or
    [l] has, after events that take hold of nothing, the event [acq x],
    then what is done inside the scope ([inner x]), and at its end the
    release step [rel x]. *)
Inductive scoped {A} (acq : A -> event) (rel inner : A -> list event -> Prop) :
    list event -> Prop :=
| scoped_idle l : idle l -> scoped acq rel inner l
| scoped_held x l0 l1 l2 :
    idle l0 -> inner x l1 -> rel x l2 ->
    scoped acq rel inner (l0 ++ acq x :: l1 ++ l2).

(** [P], followed by events that take hold of nothing. *)
Definition then_idle (P : list event -> Prop) (l : list event) : Prop :=
  exists l1 l2, l = l1 ++ l2 /\ P l1 /\ idle l2.

(** The scopes of [run] on [target]: formatting and the deactivation of
    the partition devices; inside it the mountpoint directory and its
    removal; inside it the mount of the partition and its umount; inside
    it the non-disk mounts and their umounts. *)
Definition unwound (target : string) : list event -> Prop :=
  scoped formatted (fun _ => deactivated target)
    (fun _ =>
       scoped made directory_removed
         (fun mountpoint =>
            scoped (mounted mountpoint) (fun _ => partition_unmounted mountpoint)
              (fun _ =>
                 then_idle
                   (scoped (mounted_sys mountpoint)
                      (fun _ => non_disk_unmounted mountpoint)
                      (fun _ => idle))))).

(** The target is [t]; the mountpoint is [mountpoint]. *)
Definition target_is (t : string) (e : engine) : Prop := _abs_target_path e = t.

Definition mountpoint_is (t mountpoint : string) (e : engine) : Prop :=
  _abs_target_path e = t /\ _abs_mountpoint e = Some mountpoint.

(** [m] only adds events that satisfy [P], and keeps [I]. *)
Definition emits (I : engine -> Prop) (P : list event -> Prop) {A} (m : M A) : Prop :=
  sat I (fun _ => P) m.

(** [P] holds of idle events, and idle events may stand in front. *)
Definition lenient (P : list event -> Prop) : Prop :=
  (forall l, idle l -> P l) /\ (forall l1 l2, idle l1 -> P l2 -> P (l1 ++ l2)).

(** An acquiring step: when it returns normally, one of its events is
    [acq x], the others are idle, and the engine satisfies [J x]; when it
    raises, either all its events are idle, or the last one is [acq x]
    (when [failing] allows it). *)
Definition acquiring {A} (I : engine -> Prop) (acq : A -> event)
    (J : A -> engine -> Prop) (failing : bool) (m : M unit) : Prop :=
  forall s, I (self s) ->
    exists l,
      log (snd (m s)) = log s ++ l
      /\ I (self (snd (m s)))
      /\ match fst (m s) with
         | Ok _ =>
             exists x l0 l1,
               l = l0 ++ acq x :: l1 /\ idle l0 /\ idle l1 /\ J x (self (snd (m s)))
         | Raise _ =>
             idle l
             \/ (failing = true
                 /\ exists x l0, l = l0 ++ [acq x] /\ idle l0 /\ J x (self (snd (m s))))
         end.

(** *** Runs with a fault *)

(** The calls that make or remove the mountpoint directory, and the
    commands kpartx, mount and umount. *)
Definition resource_call (ev : event) : bool :=
  match ev with
  | Tempfile_mkdtemp _ _ | Os_rmdir _ _ => true
  | Executor_check_call (c :: _) _ _ =>
      existsb (String.eqb c) [_COMMAND_KPARTX; _COMMAND_MOUNT; _COMMAND_UMOUNT]
  | _ => false
  end.

(** The second non-disk mount fails ([mount /dev/pts ...] exits with 32);
    everything else succeeds. *)
Definition second_mount_fails
    (h : list event) (cmd : list string) (env : option dict) : result unit :=
  match cmd with
  | [c; source; _; _; _] =>
      if String.eqb c _COMMAND_MOUNT && String.eqb source "/dev/pts"
      then Raise (CalledProcessError 32 cmd) else Ok tt
  | _ => Ok tt
  end.

Definition fault : world :=
  Mock.make second_mount_fails (Mock.outputs Mock.sda1 Mock.uuid1)
            (fun _ _ => true) (fun _ _ => Ok []) (fun _ _ => Ok []).

Definition start : state :=
  Mock.start (Mock.engine0 BOOTLOADER__NONE None None) Mock.environ0.

(** The umount of sys is not found (exit 127); everything else
    succeeds. *)
Definition umount_sys_not_found
    (h : list event) (cmd : list string) (env : option dict) : result unit :=
  match cmd with
  | [c; path] =>
      if String.eqb c _COMMAND_UMOUNT && Py.endswith "/sys" path
      then Raise (CalledProcessError 127 cmd) else Ok tt
  | _ => Ok tt
  end.

Definition release_fails : world :=
  Mock.make umount_sys_not_found (Mock.outputs Mock.sda1 Mock.uuid1)
            (fun _ _ => true) (fun _ _ => Ok []) (fun _ _ => Ok []).

(** The target is a loop device whose partition node never shows up. *)
Definition no_node : world :=
  Mock.make (fun _ _ _ => Ok tt) (Mock.outputs Mock.loop0p1 Mock.uuid1)
            (fun _ _ => false) (fun _ _ => Ok []) (fun _ _ => Ok []).

End Cleanup.

(** * Properties *)

(** ** Basic facts about states and histories *)

Lemma log_more_nil s : log_more [] s = s.
Proof. destruct s; unfold log_more; simpl; by rewrite app_nil_r. Qed.

Lemma log_more_more l1 l2 s : log_more l2 (log_more l1 s) = log_more (l1 ++ l2) s.
Proof. unfold log_more; simpl; by rewrite app_assoc. Qed.

Lemma with_event_log_more ev s : with_event ev s = log_more [ev] s.
Proof. reflexivity. Qed.

(** Unfolding of the monad and of the calls. *)
Ltac unfold_calls :=
  unfold bind, ret, raise, try_except, try_finally, assert, attr, assign, attr_str,
    attr_path, emit, messenger_info, messenger_announce_command, time_sleep,
    check_call, check_output, subprocess_check_output_, popen_communicate,
    path_exists, path_realpath, mkdir, rmdir, remove, listdir, mkdtemp, write_file,
    write_file_at, readlines, unshare, sethostname, require_valid_uuid_,
    mounts_below, distro, distro_get_chroot_command_grub2_install_,
    dict_copy, dict_pop, dict_update, dict_getitem in *.

(** ** Symbolic execution: one equation per call, in front of a
    continuation and at the end of a method *)

Section Exec.

Variable w : world.
Context {A B : Type}.
Implicit Types (s : state) (k : A -> M B).

Lemma exec_ret (a : A) k s : bind (ret a) k s = k a s.
Proof. reflexivity. Qed.

Lemma exec_raise (e : exn) k s : bind (raise e) k s = (Raise e, s).
Proof. reflexivity. Qed.

Lemma exec_attr (f : engine -> A) k s : bind (attr f) k s = k (f (self s)) s.
Proof. reflexivity. Qed.

Lemma exec_bind {C} (m : M C) (g : C -> M A) k s :
  bind (bind m g) k s = bind m (fun c => bind (g c) k) s.
Proof. unfold bind. by destruct (m s) as [[c|e] s1]. Qed.

End Exec.

Section ExecCalls.

Variable w : world.
Context {B : Type}.
Implicit Types (s : state).

Lemma exec_assign f (k : unit -> M B) s : bind (assign f) k s = k tt (with_self f s).
Proof. reflexivity. Qed.

Lemma exec_attr_str f (k : string -> M B) s :
  bind (attr_str f) k s
  = match f (self s) with Some v => k v s | None => (Raise TypeError, s) end.
Proof. unfold bind, attr_str. by destruct (f (self s)). Qed.

Lemma exec_attr_path f (k : string -> M B) s :
  bind (attr_path f) k s
  = match f (self s) with Some v => k v s | None => (Raise AttributeError, s) end.
Proof. unfold bind, attr_path. by destruct (f (self s)). Qed.

Lemma exec_assert b (k : unit -> M B) s :
  bind (assert b) k s = if b then k tt s else (Raise AssertionError, s).
Proof. by destruct b. Qed.

Lemma exec_emit ev (k : unit -> M B) s : bind (emit ev) k s = k tt (with_event ev s).
Proof. reflexivity. Qed.

Lemma exec_messenger_info msg (k : unit -> M B) s :
  bind (messenger_info msg) k s = k tt (with_event (Messenger_info msg) s).
Proof. reflexivity. Qed.

Lemma exec_messenger_announce_command cmd (k : unit -> M B) s :
  bind (messenger_announce_command cmd) k s
  = k tt (with_event (Messenger_announce_command cmd) s).
Proof. reflexivity. Qed.

Lemma exec_time_sleep n (k : unit -> M B) s :
  bind (time_sleep n) k s = k tt (with_event (Time_sleep n) s).
Proof. reflexivity. Qed.

Lemma exec_check_call cmd (k : unit -> M B) s :
  bind (check_call w cmd None) k s
  = match executor_check_call w (log s) cmd None with
    | Ok a => k a (with_event (Executor_check_call cmd None (Ok a)) s)
    | Raise e => (Raise e, with_event (Executor_check_call cmd None (Raise e)) s)
    end.
Proof. unfold bind, check_call; simpl. by destruct (executor_check_call _ _ _ _). Qed.

Lemma exec_check_call_env cmd l (k : unit -> M B) s :
  bind (check_call w cmd (Some l)) k s
  = let s1 r :=
      with_heap (<[l := executor_env_left w (log s) cmd (deref s l)]> (heap s))
        (with_event (Executor_check_call cmd (Some (deref s l)) r) s) in
    match executor_check_call w (log s) cmd (Some (deref s l)) with
    | Ok a => k a (s1 (Ok a))
    | Raise e => (Raise e, s1 (Raise e))
    end.
Proof. unfold bind, check_call; simpl. by destruct (executor_check_call _ _ _ _). Qed.

Lemma exec_check_output cmd (k : string -> M B) s :
  bind (check_output w cmd) k s
  = match executor_check_output w (log s) cmd with
    | Ok a => k a (with_event (Executor_check_output cmd (Ok a)) s)
    | Raise e => (Raise e, with_event (Executor_check_output cmd (Raise e)) s)
    end.
Proof. unfold bind, check_output. by destruct (executor_check_output _ _ _). Qed.

Lemma exec_subprocess_check_output cmd (k : string -> M B) s :
  bind (subprocess_check_output_ w cmd) k s
  = match subprocess_check_output w (log s) cmd with
    | Ok a => k a (with_event (Subprocess_check_output cmd (Ok a)) s)
    | Raise e => (Raise e, with_event (Subprocess_check_output cmd (Raise e)) s)
    end.
Proof.
  unfold bind, subprocess_check_output_. by destruct (subprocess_check_output _ _ _).
Qed.

Lemma exec_popen_communicate cmd env input (k : Z -> M B) s :
  bind (popen_communicate w cmd env input) k s
  = match subprocess_Popen w (log s) cmd (deref s env) input with
    | Ok a => k a (with_event (Subprocess_Popen cmd (deref s env) input (Ok a)) s)
    | Raise e =>
        (Raise e, with_event (Subprocess_Popen cmd (deref s env) input (Raise e)) s)
    end.
Proof. unfold bind, popen_communicate. by destruct (subprocess_Popen _ _ _ _ _). Qed.

Lemma exec_path_exists p (k : bool -> M B) s :
  bind (path_exists w p) k s
  = k (os_path_exists w (log s) p)
      (with_event (Os_path_exists p (os_path_exists w (log s) p)) s).
Proof. reflexivity. Qed.

Lemma exec_path_realpath p (k : string -> M B) s :
  bind (path_realpath w p) k s
  = k (os_path_realpath w (log s) p)
      (with_event (Os_path_realpath p (os_path_realpath w (log s) p)) s).
Proof. reflexivity. Qed.

Lemma exec_mkdir p mode (k : unit -> M B) s :
  bind (mkdir w p mode) k s
  = match os_mkdir w (log s) p mode with
    | Ok a => k a (with_event (Os_mkdir p mode (Ok a)) s)
    | Raise e => (Raise e, with_event (Os_mkdir p mode (Raise e)) s)
    end.
Proof. unfold bind, mkdir. by destruct (os_mkdir _ _ _ _). Qed.

Lemma exec_rmdir p (k : unit -> M B) s :
  bind (rmdir w p) k s
  = match os_rmdir w (log s) p with
    | Ok a => k a (with_event (Os_rmdir p (Ok a)) s)
    | Raise e => (Raise e, with_event (Os_rmdir p (Raise e)) s)
    end.
Proof. unfold bind, rmdir. by destruct (os_rmdir _ _ _). Qed.

Lemma exec_remove p (k : unit -> M B) s :
  bind (remove w p) k s
  = match os_remove w (log s) p with
    | Ok a => k a (with_event (Os_remove p (Ok a)) s)
    | Raise e => (Raise e, with_event (Os_remove p (Raise e)) s)
    end.
Proof. unfold bind, remove. by destruct (os_remove _ _ _). Qed.

Lemma exec_listdir p (k : list string -> M B) s :
  bind (listdir w p) k s
  = match os_listdir w (log s) p with
    | Ok a => k a (with_event (Os_listdir p (Ok a)) s)
    | Raise e => (Raise e, with_event (Os_listdir p (Raise e)) s)
    end.
Proof. unfold bind, listdir. by destruct (os_listdir _ _ _). Qed.

Lemma exec_mkdtemp dir (k : string -> M B) s :
  bind (mkdtemp w dir) k s
  = match tempfile_mkdtemp w (log s) dir with
    | Ok a => k a (with_event (Tempfile_mkdtemp dir (Ok a)) s)
    | Raise e => (Raise e, with_event (Tempfile_mkdtemp dir (Raise e)) s)
    end.
Proof. unfold bind, mkdtemp. by destruct (tempfile_mkdtemp _ _ _). Qed.

Lemma exec_write_file p c (k : unit -> M B) s :
  bind (write_file w p c) k s
  = match file_write w (log s) p c with
    | Ok a => k a (with_event (File_write p c (Ok a)) s)
    | Raise e => (Raise e, with_event (File_write p c (Raise e)) s)
    end.
Proof. unfold bind, write_file. by destruct (file_write _ _ _ _). Qed.

Lemma exec_write_file_at p o c (k : unit -> M B) s :
  bind (write_file_at w p o c) k s
  = match file_write_at w (log s) p o c with
    | Ok a => k a (with_event (File_write_at p o c (Ok a)) s)
    | Raise e => (Raise e, with_event (File_write_at p o c (Raise e)) s)
    end.
Proof. unfold bind, write_file_at. by destruct (file_write_at _ _ _ _ _). Qed.

Lemma exec_readlines p (k : list string -> M B) s :
  bind (readlines w p) k s
  = match file_readlines w (log s) p with
    | Ok a => k a (with_event (File_readlines p (Ok a)) s)
    | Raise e => (Raise e, with_event (File_readlines p (Raise e)) s)
    end.
Proof. unfold bind, readlines. by destruct (file_readlines _ _ _). Qed.

Lemma exec_unshare flags (k : Z * Z -> M B) s :
  bind (unshare w flags) k s
  = k (libc_unshare w (log s) flags)
      (with_event (Libc_unshare flags (libc_unshare w (log s) flags).1
                     (libc_unshare w (log s) flags).2) s).
Proof. unfold bind, unshare. by destruct (libc_unshare _ _ _). Qed.

Lemma exec_sethostname name len (k : Z * Z -> M B) s :
  bind (sethostname w name len) k s
  = k (libc_sethostname w (log s) name len)
      (with_event (Libc_sethostname name len (libc_sethostname w (log s) name len).1
                     (libc_sethostname w (log s) name len).2) s).
Proof. unfold bind, sethostname. by destruct (libc_sethostname _ _ _ _). Qed.

Lemma exec_require_valid_uuid c (k : unit -> M B) s :
  bind (require_valid_uuid_ w c) k s
  = match require_valid_uuid w (log s) c with
    | Ok a => k a (with_event (Require_valid_uuid c (Ok a)) s)
    | Raise e => (Raise e, with_event (Require_valid_uuid c (Raise e)) s)
    end.
Proof. unfold bind, require_valid_uuid_. by destruct (require_valid_uuid _ _ _). Qed.

Lemma exec_mounts_below p (k : list string -> M B) s :
  bind (mounts_below w p) k s
  = match mountfinder_below w (log s) p with
    | Ok a => k a (with_event (MountFinder_below p (Ok a)) s)
    | Raise e => (Raise e, with_event (MountFinder_below p (Raise e)) s)
    end.
Proof. unfold bind, mounts_below. by destruct (mountfinder_below _ _ _). Qed.

Lemma exec_distro method args (k : unit -> M B) s :
  bind (distro w method args None) k s
  = match distro_call w (log s) method args None with
    | Ok a => k a (with_event (Distro_call method args None (Ok a)) s)
    | Raise e => (Raise e, with_event (Distro_call method args None (Raise e)) s)
    end.
Proof. unfold bind, distro; simpl. by destruct (distro_call _ _ _ _ _). Qed.

Lemma exec_distro_env method args l (k : unit -> M B) s :
  bind (distro w method args (Some l)) k s
  = let s1 r :=
      with_heap (<[l := distro_env_left w (log s) method (deref s l)]> (heap s))
        (with_event (Distro_call method args (Some (deref s l)) r) s) in
    match distro_call w (log s) method args (Some (deref s l)) with
    | Ok a => k a (s1 (Ok a))
    | Raise e => (Raise e, s1 (Raise e))
    end.
Proof. unfold bind, distro; simpl. by destruct (distro_call _ _ _ _ _). Qed.

Lemma exec_distro_get_chroot_command_grub2_install (k : string -> M B) s :
  bind (distro_get_chroot_command_grub2_install_ w) k s
  = match distro_get_chroot_command_grub2_install w (log s) with
    | Ok a => k a (with_event (Distro_get_chroot_command_grub2_install (Ok a)) s)
    | Raise e =>
        (Raise e, with_event (Distro_get_chroot_command_grub2_install (Raise e)) s)
    end.
Proof.
  unfold bind, distro_get_chroot_command_grub2_install_.
  by destruct (distro_get_chroot_command_grub2_install _ _).
Qed.

Lemma exec_dict_copy l (k : nat -> M B) s :
  bind (dict_copy l) k s = k (length (heap s)) (with_heap (heap s ++ [deref s l]) s).
Proof. reflexivity. Qed.

Lemma exec_dict_pop l key (k : unit -> M B) s :
  bind (dict_pop l key) k s
  = k tt (with_heap (<[l := delete key (deref s l)]> (heap s)) s).
Proof. reflexivity. Qed.

Lemma exec_dict_update l key v (k : unit -> M B) s :
  bind (dict_update l key v) k s
  = k tt (with_heap (<[l := <[key := v]> (deref s l)]> (heap s)) s).
Proof. reflexivity. Qed.

Lemma exec_dict_getitem l key (k : string -> M B) s :
  bind (dict_getitem l key) k s
  = match deref s l !! key with
    | Some v => k v s
    | None => (Raise (KeyError key), s)
    end.
Proof. unfold bind, dict_getitem. by destruct (deref s l !! key). Qed.

End ExecCalls.

(** A method ends with the call [m]: [m s = bind m ret s]. *)
Lemma exec_tail {A} (m : M A) s : m s = bind m ret s.
Proof. unfold bind, ret. by destruct (m s) as [[a|e] s1]. Qed.

Lemma self_with_event ev s : self (with_event ev s) = self s.
Proof. reflexivity. Qed.
Lemma self_with_heap h s : self (with_heap h s) = self s.
Proof. reflexivity. Qed.
Lemma self_with_self f s : self (with_self f s) = f (self s).
Proof. reflexivity. Qed.
Lemma self_log_more l s : self (log_more l s) = self s.
Proof. reflexivity. Qed.
Lemma log_with_event ev s : log (with_event ev s) = log s ++ [ev].
Proof. reflexivity. Qed.
Lemma log_with_heap h s : log (with_heap h s) = log s.
Proof. reflexivity. Qed.
Lemma log_with_self f s : log (with_self f s) = log s.
Proof. reflexivity. Qed.
Lemma log_log_more l s : log (log_more l s) = log s ++ l.
Proof. reflexivity. Qed.
Lemma heap_with_event ev s : heap (with_event ev s) = heap s.
Proof. reflexivity. Qed.
Lemma heap_with_self f s : heap (with_self f s) = heap s.
Proof. reflexivity. Qed.
Lemma heap_with_heap h s : heap (with_heap h s) = h.
Proof. reflexivity. Qed.
Lemma heap_log_more l s : heap (log_more l s) = heap s.
Proof. reflexivity. Qed.

Lemma with_self_log_more f l s : with_self f (log_more l s) = log_more l (with_self f s).
Proof. reflexivity. Qed.
Lemma with_heap_log_more h l s : with_heap h (log_more l s) = log_more l (with_heap h s).
Proof. reflexivity. Qed.

Lemma get_set_device v e :
  _abs_first_partition_device (set__abs_first_partition_device v e) = v.
Proof. reflexivity. Qed.
Lemma get_set_mountpoint v e : _abs_mountpoint (set__abs_mountpoint v e) = v.
Proof. reflexivity. Qed.
Lemma get_set_uuid v e : _first_partition_uuid (set__first_partition_uuid v e) = v.
Proof. reflexivity. Qed.
Lemma get_set_command v e : _command_grub2_install (set__command_grub2_install v e) = v.
Proof. reflexivity. Qed.

Create Rewrite HintDb exec.
Create Rewrite HintDb state.
#[global] Hint Rewrite
  @exec_ret @exec_raise @exec_attr @exec_bind @exec_assign @exec_attr_str
  @exec_attr_path @exec_assert @exec_emit @exec_messenger_info
  @exec_messenger_announce_command @exec_time_sleep @exec_check_call
  @exec_check_call_env @exec_check_output @exec_subprocess_check_output
  @exec_popen_communicate @exec_path_exists @exec_path_realpath @exec_mkdir
  @exec_rmdir @exec_remove @exec_listdir @exec_mkdtemp @exec_write_file
  @exec_write_file_at @exec_readlines @exec_unshare @exec_sethostname
  @exec_require_valid_uuid @exec_mounts_below @exec_distro @exec_distro_env
  @exec_distro_get_chroot_command_grub2_install @exec_dict_copy @exec_dict_pop
  @exec_dict_update @exec_dict_getitem : exec.

#[global] Hint Rewrite
  self_with_event self_with_heap self_with_self self_log_more
  log_with_event log_with_heap log_with_self log_log_more
  heap_with_event heap_with_self heap_with_heap heap_log_more
  with_event_log_more log_more_more with_self_log_more with_heap_log_more
  get_set_device get_set_mountpoint get_set_uuid get_set_command : state.

(** Run the calls in front of the hypothesis [H : m s = (r, s')]. *)
Ltac exec_in H :=
  repeat (progress (autorewrite with exec in H;
                    autorewrite with state in H;
                    cbv beta iota zeta in H)).

Ltac exec_goal :=
  repeat (progress (autorewrite with exec;
                    autorewrite with state;
                    cbv beta iota zeta)).

(** ** Script phases (C3) *)

Lemma insert_sorted_perm x l : Py.insert_sorted x l ≡ₚ x :: l.
Proof.
  induction l as [|y l IH]; simpl; [done|].
  destruct (String.leb x y); [done|].
  rewrite IH. apply Permutation_swap.
Qed.

(** [sorted] rearranges the names and nothing else. *)
Lemma sorted_perm l : Py.sorted l ≡ₚ l.
Proof.
  induction l as [|x l IH]; simpl; [done|].
  unfold Py.sorted in *; simpl. rewrite insert_sorted_perm. by rewrite IH.
Qed.

Lemma insert_sorted_sorted x l :
  Sorted (fun a b => String.leb a b = true) l ->
  Sorted (fun a b => String.leb a b = true) (Py.insert_sorted x l).
Proof.
  induction 1 as [|y l Hs IH Hhd]; simpl; [repeat constructor|].
  destruct (String.leb x y) eqn:E.
  - constructor; [by constructor|by constructor].
  - constructor; [exact IH|].
    destruct l as [|z l]; simpl.
    + constructor. destruct (String.leb_total x y) as [H|H]; congruence.
    + destruct (String.leb x z).
      * constructor. destruct (String.leb_total x y) as [H|H]; congruence.
      * constructor. by inversion Hhd.
Qed.

(** [sorted] puts the names in ascending byte order. *)
Lemma sorted_sorted l : Sorted (fun a b => String.leb a b = true) (Py.sorted l).
Proof.
  induction l as [|x l IH]; simpl; [constructor|].
  unfold Py.sorted in *; simpl. by apply insert_sorted_sorted.
Qed.

Lemma calls_app l1 l2 : Scripts.calls (l1 ++ l2) = Scripts.calls l1 ++ Scripts.calls l2.
Proof. apply omap_app. Qed.

Lemma calls_cons_call cmd env r l :
  Scripts.calls (Executor_check_call cmd env r :: l) = (cmd, r) :: Scripts.calls l.
Proof. reflexivity. Qed.

(** The loop of [_run_scripts_from]: the scripts of [names] that are
    eligible are run one after the other, each with a single-element
    command; the loop stops at the first one that fails and raises its
    error. *)
Lemma run_scripts_loop w dir env names s r s' :
  for_each names
    (fun basename =>
       if negb (_script_should_be_run basename) then ret tt
       else env' <- dict_copy env ;; check_call w [Py.join dir basename] (Some env')) s
  = (r, s') ->
  exists l,
    log s' = log s ++ l
    /\ match r with
       | Ok _ =>
           (Scripts.calls l).*1 = (fun b => [Py.join dir b]) <$> Scripts.eligible names
           /\ Forall Scripts.succeeded (Scripts.calls l)
       | Raise e =>
           exists before c,
           Scripts.calls l = before ++ [(c, Raise e)]
           /\ Forall Scripts.succeeded before
           /\ (Scripts.calls l).*1
              `prefix_of` ((fun b => [Py.join dir b]) <$> Scripts.eligible names)
       end.
Proof.
  revert s.
  induction names as [|b names IH]; intros s; simpl.
  - intros [= <- <-]. exists []. rewrite app_nil_r. repeat split; constructor.
  - unfold Scripts.eligible; simpl.
    destruct (_script_should_be_run b) eqn:Eb; simpl.
    + unfold bind at 1. unfold bind at 1. unfold dict_copy at 1.
      unfold check_call at 1. cbn [fst snd log heap with_event with_heap fmap option_fmap option_map].
      match goal with
      | |- context [executor_check_call w ?h ?c ?d] =>
          destruct (executor_check_call w h c d) as [[]|e] eqn:Ecall
      end.
      * intros H. apply IH in H. destruct H as (l & Hlog & Hres).
        cbn [log with_heap with_event] in Hlog.
        eexists (_ :: l).
        split; [rewrite Hlog; by rewrite <- app_assoc|].
        rewrite calls_cons_call, fmap_cons.
        destruct r as [[]|e'].
        -- destruct Hres as [H1 H2]. split; [by rewrite H1|].
           constructor; [reflexivity|exact H2].
        -- destruct Hres as (before & c & H1 & H2 & H3).
           eexists (_ :: before), c. rewrite H1. split; [reflexivity|].
           split; [constructor; [reflexivity|exact H2]|].
           rewrite H1 in H3. by apply prefix_cons.
      * intros [= <- <-]. eexists [_]. split; [reflexivity|].
        exists [], [Py.join dir b]. split; [reflexivity|]. split; [constructor|].
        simpl. apply prefix_cons, prefix_nil.
    + unfold bind at 1. simpl. apply IH.
Qed.

(** Pre- and post-chroot scripts, in every world: [_run_scripts_from]
    lists the directory, runs the eligible scripts in ascending order of
    basename, and raises the error of the first script that fails, without
    running the ones behind it. *)
Lemma run_scripts_from_sorted w dir env s r s' :
  _run_scripts_from w dir env s = (r, s') ->
  exists l,
    log s' = log s ++ Os_listdir dir (os_listdir w (log s) dir) :: l
    /\ match os_listdir w (log s) dir with
       | Raise e => r = Raise e /\ l = []
       | Ok names =>
           match r with
           | Ok _ =>
               Scripts.commands l
               = (fun b => [Py.join dir b]) <$> Scripts.eligible (Py.sorted names)
               /\ Forall Scripts.succeeded (Scripts.calls l)
           | Raise e =>
               exists before c,
               Scripts.calls l = before ++ [(c, Raise e)]
               /\ Forall Scripts.succeeded before
               /\ Scripts.commands l
                  `prefix_of` ((fun b => [Py.join dir b]) <$> Scripts.eligible (Py.sorted names))
           end
       end.
Proof.
  unfold _run_scripts_from. unfold bind at 1. unfold listdir at 1.
  cbn [fst snd log with_event].
  destruct (os_listdir w (log s) dir) as [names|e].
  - intros H. apply run_scripts_loop in H. destruct H as (l & Hlog & Hres).
    exists l. cbn [log with_event] in Hlog.
    split; [rewrite Hlog; by rewrite <- app_assoc|]. exact Hres.
  - intros [= <- <-]. exists []. done.
Qed.

(** C3 at the chroot phase.  For the directory of the example, listed by
    the file system as d, .hidden, b, c~, a: the pre-chroot phase runs a,
    b, d in this order, the chroot phase runs d, b, a, the order of the
    listing, because [_run_chroot_scripts] does not sort. *)
Theorem chroot_scripts_run_in_listing_order :
  Scripts.commands (new_events (_run_pre_scripts Scripts.directory) Scripts.start)
  = [["/scripts/pre/a"]; ["/scripts/pre/b"]; ["/scripts/pre/d"]]
  /\ Scripts.commands (new_events (_run_chroot_scripts Scripts.directory) Scripts.start)
     = [["chroot"; "/mnt/tmpAbCdEf"; "/root/chroot-scripts/d"];
        ["chroot"; "/mnt/tmpAbCdEf"; "/root/chroot-scripts/b"];
        ["chroot"; "/mnt/tmpAbCdEf"; "/root/chroot-scripts/a"]].
Proof. split; vm_compute; reflexivity. Qed.

(** ** Partition activation (C6, C7) *)

(** Stepping through [bind]. *)
Lemma bind_inv {A B} (m : M A) (k : A -> M B) s r s' :
  bind m k s = (r, s') ->
  (exists a s1, m s = (Ok a, s1) /\ k a s1 = (r, s'))
  \/ (exists e, m s = (Raise e, s') /\ r = Raise e).
Proof.
  unfold bind. destruct (m s) as [[a|e] s1]; intros H.
  - left. by exists a, s1.
  - right. exists e. by inversion H.
Qed.

(** The retry loop, as it is written in [_partition_device],
    [_kpartx_minus_a], [_try_unmounting] and [_kpartx_minus_d]. *)
Lemma retry_loop_retried w cmd (xs : list nat) s r s' :
  for_in xs
    (fun i =>
       try_except
         (check_call w cmd None ;; ret Break)
         (fun e =>
            match e with
            | CalledProcessError returncode _ =>
                if returncode =? _EXIT_COMMAND_NOT_FOUND then raise e
                else time_sleep 1 ;; ret Next
            | _ => raise e
            end))
    (ret tt) s = (r, s') ->
  exists l, s' = log_more l s /\ Activation.retried cmd (length xs) l r.
Proof.
  revert s. induction xs as [|x xs IH]; intros s; simpl.
  - intros [= <- <-]. exists []. by rewrite log_more_nil; split; [|constructor].
  - unfold bind at 1. unfold try_except at 1. unfold bind at 1.
    unfold check_call at 1. cbn [fmap option_fmap option_map].
    destruct (executor_check_call w (log s) cmd None) as [[]|e] eqn:E.
    + unfold ret. intros [= <- <-]. eexists [_]. split; [reflexivity|]. constructor.
    + destruct e as [code c| | | | | | | |];
        try (unfold raise; intros [= <- <-]; eexists [_];
             split; [reflexivity|]; by constructor).
      destruct (code =? _EXIT_COMMAND_NOT_FOUND) eqn:Ec.
      * unfold raise; intros [= <- <-]; eexists [_].
        split; [reflexivity|]. constructor. by apply Z.eqb_eq.
      * unfold bind at 1. unfold time_sleep, emit at 1. unfold ret at 1.
        intros H. apply IH in H. destruct H as (l & -> & Hl).
        eexists (_ :: _ :: l). rewrite !with_event_log_more, !log_more_more.
        split; [reflexivity|]. constructor; [by apply Z.eqb_neq|exact Hl].
Qed.

(** The polling loop of [_kpartx_minus_a]. *)
Lemma poll_loop_polled w device (xs : list nat) s r s' :
  _abs_first_partition_device (self s) = Some device ->
  for_in xs
    (fun i =>
       device <- attr_str _abs_first_partition_device ;;
       present <- path_exists w device ;;
       if present then ret Break
       else time_sleep 1 ;; ret Next)
    (device <- attr _abs_first_partition_device ;;
     raise (OSError ENOENT
              ("No such block device file: '" +:+ Py.str device +:+ "'"))) s
  = (r, s') ->
  exists l, s' = log_more l s /\ Activation.polled device (length xs) l r.
Proof.
  revert s. induction xs as [|x xs IH]; intros s Hdev; simpl.
  - unfold bind, attr, raise. rewrite Hdev. simpl. intros [= <- <-].
    exists []. rewrite log_more_nil. split; [done|constructor].
  - unfold bind at 1. unfold bind at 1. unfold attr_str at 1. rewrite Hdev.
    unfold bind at 1. unfold path_exists at 1.
    destruct (os_path_exists w (log s) device) eqn:E.
    + unfold ret. intros [= <- <-]. eexists [_]. split; [reflexivity|constructor].
    + unfold bind at 1. unfold time_sleep, emit at 1. unfold ret at 1.
      intros H. apply IH in H; [|exact Hdev].
      destruct H as (l & -> & Hl).
      eexists (_ :: _ :: l). rewrite !with_event_log_more, !log_more_more.
      split; [reflexivity|]. by constructor.
Qed.

Lemma polled_not_partprobe device n l r :
  Activation.polled device n l r -> Forall (fun ev => ~ Activation.is_partprobe ev) l.
Proof. induction 1; repeat constructor; auto. Qed.

Lemma with_self_same_device s :
  with_self (set__abs_first_partition_device (_abs_first_partition_device (self s))) s = s.
Proof. destruct s as [e lg hp]; by destruct e. Qed.

(** Partition activation does what the specification says, in every
    world. *)
Lemma kpartx_minus_a_activation w s :
  exists l device,
    snd (_kpartx_minus_a w s)
    = with_self (set__abs_first_partition_device
                   (Activation.recorded device (_abs_first_partition_device (self s))))
        (log_more l s)
    /\ Activation.activation (_abs_target_path (self s)) l
         (fst (_kpartx_minus_a w s)) device.
Proof.
  destruct (_kpartx_minus_a w s) as [r s'] eqn:H. simpl.
  unfold _kpartx_minus_a in H. exec_in H.
  destruct (executor_check_output w _ _) as [output|e] eqn:Eout.
  - exec_in H.
    set (dev := "/dev/mapper/" +:+ Py.split_head " : " (Py.split_head newline output)) in *.
    destruct (Py.startswith "loop" _) eqn:Eloop; exec_in H.
    + destruct (os_path_exists w _ _) eqn:Eex; exec_in H.
      * inversion H; subst. eexists _, (Some dev). split.
        { rewrite with_self_log_more. reflexivity. }
        by apply (Activation.loop_stale _ output).
      * destruct (executor_check_call w _ _ _) as [[]|e] eqn:Ecc; exec_in H.
        -- apply poll_loop_polled with (device := dev) in H; [|reflexivity].
           destruct H as (polls & -> & Hpolls).
           eexists _, (Some dev). split.
           { autorewrite with state. reflexivity. }
           rewrite <- !app_assoc.
           by apply (Activation.loop_added _ output polls r).
        -- inversion H; subst. eexists _, (Some dev). split.
           { rewrite with_self_log_more. reflexivity. }
           by apply (Activation.loop_add_fails _ output).
    + apply bind_inv in H. destruct H as [(a & s1 & Hact & Hpoll)|(e & Hact & ->)].
      * apply retry_loop_retried in Hact. destruct Hact as (probes & -> & Hprobes).
        apply poll_loop_polled with (device := dev) in Hpoll; [|reflexivity].
        destruct Hpoll as (polls & -> & Hpolls). destruct a.
        eexists _, (Some dev). split.
        { autorewrite with state. reflexivity. }
        rewrite <- !app_assoc.
        by apply (Activation.refreshed _ output probes polls r).
      * apply retry_loop_retried in Hact. destruct Hact as (probes & -> & Hprobes).
        eexists _, (Some dev). split.
        { autorewrite with state. reflexivity. }
        rewrite <- !app_assoc.
        by apply (Activation.refresh_fails _ output probes e).
  - exec_in H. inversion H; subst. eexists _, None. split.
    { simpl. rewrite with_self_log_more, with_self_same_device. reflexivity. }
    apply Activation.listing_fails.
Qed.

(** C6.  Partition activation on [target], in every world: it announces
    itself and runs [kpartx -l -p p target]; the first partition device is
    "/dev/mapper/" followed by the token before " : " on the first line of
    the output.  If the token begins with "loop": when the node is already
    there it raises the file-exists error, otherwise it runs
    [kpartx -a -p p -s target]; partprobe is never run.  Otherwise it
    sleeps 1 s and runs [partprobe target] under the retry loop (at most 3
    attempts, a sleep of 1 s after a failed one, exit 127 raised at once).
    In both branches it then looks for the device node at most 3 times, with
    a sleep of 1 s after each look that fails, and raises the
    no-such-device error when the node is still absent. *)
Theorem partition_activation (w : world) (s : state) :
  exists l device,
    log (snd (_kpartx_minus_a w s)) = log s ++ l
    /\ Activation.activation (_abs_target_path (self s)) l
         (fst (_kpartx_minus_a w s)) device
    /\ _abs_first_partition_device (self (snd (_kpartx_minus_a w s)))
       = Activation.recorded device (_abs_first_partition_device (self s))
    /\ (forall output,
           l !! 1%nat = Some (Activation.listed (_abs_target_path (self s)) output) ->
           Py.startswith "loop" (Activation.device_name output) = true ->
           Forall (fun ev => ~ Activation.is_partprobe ev) l).
Proof.
  destruct (kpartx_minus_a_activation w s) as (l & device & Hs & Hact).
  exists l, device. rewrite Hs. split; [reflexivity|]. split; [exact Hact|].
  split; [reflexivity|].
  intros output Hl Hloop.
  inversion Hact as [e|o|o e|o polls r0 Ho Hp|o probes e Ho|o probes polls r0 Ho];
    subst; simpl in Hl; try discriminate;
    injection Hl as ->.
  - repeat constructor; simpl; auto; discriminate.
  - repeat constructor; simpl; auto; discriminate.
  - repeat (apply Forall_cons; split; [simpl; auto; discriminate|]).
    eapply polled_not_partprobe; eauto.
  - congruence.
  - congruence.
Qed.

(** ** The retry loop (C2) *)

Section RetryLoop.

Variable w : world.
Variable code : Z.

Lemma try_unmounting_outcome p s :
  Retry.always_exits w (Retry.cmd_umount p) code ->
  _try_unmounting w p s = Retry.outcome (Retry.cmd_umount p) code [] s.
Proof.
  intros H. unfold Retry.always_exits, Retry.cmd_umount in H.
  unfold _try_unmounting, Retry.outcome, Retry.exhausted, Retry.attempt,
    Retry.cmd_umount, Py.range; simpl.
  unfold_calls; simpl. rewrite !H.
  destruct (code =? _EXIT_COMMAND_NOT_FOUND) eqn:E; simpl; [reflexivity|].
  rewrite !H, !E; simpl. rewrite !H, !E; simpl.
  unfold log_more, with_event; simpl. by rewrite <- !app_assoc.
Qed.

Lemma kpartx_minus_d_outcome s :
  Retry.always_exits w (Retry.cmd_kpartx_d (_abs_target_path (self s))) code ->
  _kpartx_minus_d w s =
  Retry.outcome (Retry.cmd_kpartx_d (_abs_target_path (self s))) code
    [Messenger_info "Deactivating partition devices..."] s.
Proof.
  intros H. unfold Retry.always_exits, Retry.cmd_kpartx_d in H.
  unfold _kpartx_minus_d, Retry.outcome, Retry.exhausted, Retry.attempt,
    Retry.cmd_kpartx_d, Py.range; simpl.
  unfold_calls; simpl. rewrite !H.
  destruct (code =? _EXIT_COMMAND_NOT_FOUND) eqn:E; simpl;
    [unfold log_more, with_event; simpl; by rewrite <- !app_assoc|].
  rewrite !H, !E; simpl. rewrite !H, !E; simpl.
  unfold log_more, with_event; simpl. by rewrite <- !app_assoc.
Qed.

Lemma partition_device_outcome s :
  let target := _abs_target_path (self s) in
  (forall h, executor_check_call w h (Retry.cmd_mklabel target) None = Ok tt) ->
  (forall h, executor_check_call w h (Retry.cmd_mkpart target) None = Ok tt) ->
  Retry.always_exits w (Retry.cmd_boot_flag target) code ->
  _partition_device w s =
  Retry.outcome (Retry.cmd_boot_flag target) code
    [Messenger_info ("Partitioning " +:+ dquote +:+ target +:+ dquote +:+ "...");
     Executor_check_call (Retry.cmd_mklabel target) None (Ok tt);
     Executor_check_call (Retry.cmd_mkpart target) None (Ok tt);
     Time_sleep 1] s.
Proof.
  intros target H1 H2 H. subst target.
  unfold Retry.always_exits, Retry.cmd_boot_flag in H.
  unfold Retry.cmd_mklabel in H1. unfold Retry.cmd_mkpart in H2.
  unfold _partition_device, Retry.outcome, Retry.exhausted, Retry.attempt,
    Retry.cmd_boot_flag, Retry.cmd_mklabel, Retry.cmd_mkpart, Py.range; simpl.
  unfold_calls; simpl. rewrite !H1; simpl. rewrite !H2; simpl. rewrite !H.
  destruct (code =? _EXIT_COMMAND_NOT_FOUND) eqn:E; simpl;
    [unfold log_more, with_event; simpl; by rewrite <- !app_assoc|].
  rewrite !H, !E; simpl. rewrite !H, !E; simpl.
  unfold log_more, with_event; simpl. by rewrite <- !app_assoc.
Qed.

Lemma retry_loop_exhausted cmd s :
  Retry.always_exits w cmd code ->
  (code =? _EXIT_COMMAND_NOT_FOUND) = false ->
  for_in (Py.range 3)
    (fun i =>
       try_except
         (check_call w cmd None ;; ret Break)
         (fun e =>
            match e with
            | CalledProcessError returncode _ =>
                if returncode =? _EXIT_COMMAND_NOT_FOUND then raise e
                else time_sleep 1 ;; ret Next
            | _ => raise e
            end))
    (ret tt) s
  = (Ok tt, log_more (Retry.exhausted cmd code) s).
Proof.
  intros H E. unfold Retry.always_exits in H.
  unfold Retry.exhausted, Retry.attempt, Py.range; simpl.
  unfold_calls; simpl. rewrite !H, !E; simpl. rewrite !H, !E; simpl.
  rewrite !H, !E; simpl.
  unfold log_more, with_event; simpl. by rewrite <- !app_assoc.
Qed.

Lemma kpartx_minus_a_outcome s output :
  let target := _abs_target_path (self s) in
  let device_name := Py.split_head " : " (Py.split_head newline output) in
  let before :=
    [Messenger_info "Activating partition devices...";
     Executor_check_output (Retry.cmd_kpartx_l target) (Ok output);
     Time_sleep 1] in
  let s1 :=
    with_self (set__abs_first_partition_device (Some ("/dev/mapper/" +:+ device_name))) s in
  executor_check_output w (log s ++ [Messenger_info "Activating partition devices..."])
    (Retry.cmd_kpartx_l target) = Ok output ->
  Py.startswith "loop" device_name = false ->
  Retry.always_exits w (Retry.cmd_partprobe target) code ->
  if code =? _EXIT_COMMAND_NOT_FOUND
  then _kpartx_minus_a w s = Retry.outcome (Retry.cmd_partprobe target) code before s1
  else exists polls r,
      Activation.polled ("/dev/mapper/" +:+ device_name) 3 polls r
      /\ _kpartx_minus_a w s
         = (r, log_more
                 (before ++ Retry.exhausted (Retry.cmd_partprobe target) code ++ polls) s1).
Proof.
  intros target device_name before s1 Hout Hloop H.
  destruct (code =? _EXIT_COMMAND_NOT_FOUND) eqn:E.
  - subst target device_name before s1.
    unfold Retry.always_exits, Retry.cmd_partprobe in H.
    unfold Retry.cmd_kpartx_l in Hout.
    unfold _kpartx_minus_a, Retry.outcome, Retry.exhausted, Retry.attempt,
      Retry.cmd_partprobe, Retry.cmd_kpartx_l, Py.range; simpl.
    unfold_calls; simpl. rewrite Hout; simpl. rewrite Hloop; simpl. rewrite !H.
    rewrite E; simpl.
    unfold log_more, with_event, with_self; simpl; by rewrite <- !app_assoc.
  - destruct (_kpartx_minus_a w s) as [r s'] eqn:Hrun.
    unfold _kpartx_minus_a in Hrun. exec_in Hrun.
    unfold Retry.cmd_kpartx_l in Hout. fold target in Hrun.
    rewrite Hout in Hrun. exec_in Hrun.
    fold device_name in Hrun. rewrite Hloop in Hrun. exec_in Hrun.
    apply bind_inv in Hrun. destruct Hrun as [(a & s2 & Hact & Hpoll)|(e & Hact & ->)];
      rewrite (retry_loop_exhausted _ _ H E) in Hact; [|discriminate].
    injection Hact as <- <-.
    apply poll_loop_polled with (device := "/dev/mapper/" +:+ device_name) in Hpoll;
      [|reflexivity].
    destruct Hpoll as (polls & -> & Hpolls).
    exists polls, r. split; [exact Hpolls|]. f_equal.
    subst before s1. autorewrite with state. reflexivity.
Qed.

End RetryLoop.

(** C2, as amended.  For each of the four commands under the retry loop
    (umount, kpartx -d, the boot flag, partprobe): when the command exits
    with the same code at every attempt, then
    - for code 127 the step raises [CalledProcessError] right after the
      first attempt, without a sleep and without a second attempt;
    - for any other code (1, say) the command is attempted exactly three
      times, each failed attempt is followed by a sleep of 1 s, and
      nothing is raised for it: unmounting, deactivation and partitioning
      return normally with exactly these events; after partprobe the step
      goes on with looking for the device node, at most three times, and
      what it returns and how it ends is what that look gives (normally
      when the node is there, [ENOENT] when it never shows up). *)
Theorem retry_policy (w : world) (code : Z) :
  (forall p s,
      Retry.always_exits w (Retry.cmd_umount p) code ->
      _try_unmounting w p s = Retry.outcome (Retry.cmd_umount p) code [] s)
  /\ (forall s,
      Retry.always_exits w (Retry.cmd_kpartx_d (_abs_target_path (self s))) code ->
      _kpartx_minus_d w s =
      Retry.outcome (Retry.cmd_kpartx_d (_abs_target_path (self s))) code
        [Messenger_info "Deactivating partition devices..."] s)
  /\ (forall s,
      let target := _abs_target_path (self s) in
      (forall h, executor_check_call w h (Retry.cmd_mklabel target) None = Ok tt) ->
      (forall h, executor_check_call w h (Retry.cmd_mkpart target) None = Ok tt) ->
      Retry.always_exits w (Retry.cmd_boot_flag target) code ->
      _partition_device w s =
      Retry.outcome (Retry.cmd_boot_flag target) code
        [Messenger_info ("Partitioning " +:+ dquote +:+ target +:+ dquote +:+ "...");
         Executor_check_call (Retry.cmd_mklabel target) None (Ok tt);
         Executor_check_call (Retry.cmd_mkpart target) None (Ok tt);
         Time_sleep 1] s)
  /\ (forall s output,
      let target := _abs_target_path (self s) in
      let device_name := Py.split_head " : " (Py.split_head newline output) in
      let before :=
        [Messenger_info "Activating partition devices...";
         Executor_check_output (Retry.cmd_kpartx_l target) (Ok output);
         Time_sleep 1] in
      let s1 :=
        with_self
          (set__abs_first_partition_device (Some ("/dev/mapper/" +:+ device_name))) s in
      executor_check_output w (log s ++ [Messenger_info "Activating partition devices..."])
        (Retry.cmd_kpartx_l target) = Ok output ->
      Py.startswith "loop" device_name = false ->
      Retry.always_exits w (Retry.cmd_partprobe target) code ->
      if code =? _EXIT_COMMAND_NOT_FOUND
      then _kpartx_minus_a w s = Retry.outcome (Retry.cmd_partprobe target) code before s1
      else exists polls r,
          Activation.polled ("/dev/mapper/" +:+ device_name) 3 polls r
          /\ _kpartx_minus_a w s
             = (r, log_more
                     (before ++ Retry.exhausted (Retry.cmd_partprobe target) code ++ polls)
                     s1)).
Proof.
  split; [|split; [|split]].
  - apply try_unmounting_outcome.
  - apply kpartx_minus_d_outcome.
  - apply partition_device_outcome.
  - apply kpartx_minus_a_outcome.
Qed.

Lemma retry_policy_witness :
  Retry.always_exits Retry.umount_exits_1 (Retry.cmd_umount "/mnt/tmpAbCdEf") 1
  /\ _try_unmounting Retry.umount_exits_1 "/mnt/tmpAbCdEf" Retry.start
     = (Ok tt, log_more (Retry.exhausted (Retry.cmd_umount "/mnt/tmpAbCdEf") 1) Retry.start).
Proof.
  assert (H : Retry.always_exits Retry.umount_exits_1 (Retry.cmd_umount "/mnt/tmpAbCdEf") 1)
    by (intros h; reflexivity).
  split; [exact H|].
  exact (proj1 (retry_policy Retry.umount_exits_1 1) "/mnt/tmpAbCdEf" Retry.start H).
Defined.

(** C2 as stated fails: with [umount] exiting with 1 at every attempt,
    [_try_unmounting] makes its three attempts, sleeps three times (also
    after the last attempt) and returns; nothing aborts, and the whole
    pipeline ends without an error. *)
Lemma retry_exhaustion_does_not_abort :
  let '(r, s) := _try_unmounting Retry.umount_exits_1 "/mnt/tmpAbCdEf" Retry.start in
  r = Ok tt
  /\ Retry.attempts (Retry.cmd_umount "/mnt/tmpAbCdEf") (log s) = 3%nat
  /\ Retry.sleeps (log s) = 3%nat
  /\ fst (run Retry.umount_exits_1 Retry.start) = Ok tt.
Proof. vm_compute. repeat split. Qed.

(** ** Rules for [sat] *)

#[global] Instance all_events_closed Q : Closed (all_events Q).
Proof.
  split; unfold all_events.
  - constructor.
  - intros l1 l2 _ H1 H2. by apply Forall_app.
  - intros l1 l2 _ _ H1 H2. by apply Forall_app.
Qed.

#[global] Instance closed_sequential Φ `{!Closed Φ} : Sequential Φ.
Proof.
  split; [apply closed_nil|].
  intros l1 l2 [e|] H1 H2; [by eapply closed_then_raise|by apply closed_then_ok].
Qed.

Section SatRules.

Variable w : world.
Variable I : engine -> Prop.
Variable Φ : option exn -> list event -> Prop.
Context `{!Sequential Φ}.

Local Abbreviation sat := (sat I Φ).

Lemma sat_intro {A} (m : M A) :
  (forall s r s', I (self s) -> m s = (r, s') ->
     exists l, log s' = log s ++ l /\ Φ (outcome r) l /\ I (self s')) ->
  sat m.
Proof. intros H s Hs. destruct (m s) as [r s'] eqn:E. by apply (H s). Qed.

Lemma sat_elim {A} (m : M A) s r s' :
  sat m -> I (self s) -> m s = (r, s') ->
  exists l, log s' = log s ++ l /\ Φ (outcome r) l /\ I (self s').
Proof. intros H Hs E. specialize (H s Hs). by rewrite E in H. Qed.

Lemma sat_ret {A} (a : A) : sat (ret a).
Proof.
  intros s Hs. exists []. simpl. rewrite app_nil_r.
  split; [done|]. split; [apply seq_nil|done].
Qed.

Lemma sat_raise {A} e : Φ (Some e) [] -> sat (@raise A e).
Proof. intros H s Hs. exists []. simpl. by rewrite app_nil_r. Qed.

Lemma sat_bind {A B} (m : M A) (k : A -> M B) :
  sat m -> (forall a, sat (k a)) -> sat (bind m k).
Proof.
  intros Hm Hk. apply sat_intro. intros s r s' Hs E.
  apply bind_inv in E. destruct E as [(a & s1 & E1 & E2)|(e & E1 & ->)].
  - destruct (sat_elim _ _ _ _ Hm Hs E1) as (l1 & Hl1 & HΦ1 & Hs1).
    destruct (sat_elim _ _ _ _ (Hk a) Hs1 E2) as (l2 & Hl2 & HΦ2 & Hs2).
    exists (l1 ++ l2). rewrite Hl2, Hl1, app_assoc. split; [done|]. split; [|done].
    simpl in HΦ1. by apply seq_app.
  - by apply (sat_elim _ _ _ _ Hm Hs E1).
Qed.

(** An attribute is read: its value is that of an engine that
    satisfies [I]. *)
Lemma sat_bind_attr {A B} (f : engine -> A) (k : A -> M B) :
  (forall e, I e -> sat (k (f e))) -> sat (bind (attr f) k).
Proof.
  intros Hk s Hs. unfold bind, attr. apply (Hk (self s) Hs s Hs).
Qed.

Lemma sat_bind_attr_str {B} (f : engine -> option string) (k : string -> M B) :
  Φ (Some TypeError) [] ->
  (forall e v, I e -> f e = Some v -> sat (k v)) ->
  sat (bind (attr_str f) k).
Proof.
  intros Hraise Hk s Hs. rewrite exec_attr_str.
  destruct (f (self s)) as [v|] eqn:E.
  - apply (Hk (self s) v Hs E s Hs).
  - exists []. simpl. by rewrite app_nil_r.
Qed.

Lemma sat_bind_attr_path {B} (f : engine -> option string) (k : string -> M B) :
  Φ (Some AttributeError) [] ->
  (forall e v, I e -> f e = Some v -> sat (k v)) ->
  sat (bind (attr_path f) k).
Proof.
  intros Hraise Hk s Hs. rewrite exec_attr_path.
  destruct (f (self s)) as [v|] eqn:E.
  - apply (Hk (self s) v Hs E s Hs).
  - exists []. simpl. by rewrite app_nil_r.
Qed.

Lemma sat_attr {A} (f : engine -> A) : sat (attr f).
Proof.
  intros s Hs. exists []. simpl. rewrite app_nil_r.
  split; [done|]. split; [apply seq_nil|done].
Qed.

Lemma sat_attr_str f : Φ (Some TypeError) [] -> sat (attr_str f).
Proof.
  intros Hraise s Hs. exists []. unfold attr_str.
  destruct (f (self s)); simpl; rewrite app_nil_r;
    (split; [done|]); (split; [|done]); [apply seq_nil|done].
Qed.

Lemma sat_attr_path f : Φ (Some AttributeError) [] -> sat (attr_path f).
Proof.
  intros Hraise s Hs. exists []. unfold attr_path.
  destruct (f (self s)); simpl; rewrite app_nil_r;
    (split; [done|]); (split; [|done]); [apply seq_nil|done].
Qed.

Lemma sat_assign f : (forall e, I e -> I (f e)) -> sat (assign f).
Proof.
  intros Hf s Hs. exists []. simpl. rewrite app_nil_r.
  split; [done|]. split; [apply seq_nil|by apply Hf].
Qed.

Lemma sat_assert b : Φ (Some AssertionError) [] -> sat (assert b).
Proof. intros H. destruct b; [apply sat_ret|by apply sat_raise]. Qed.

Lemma sat_for_each {A} (xs : list A) (body : A -> M unit) :
  (forall x, sat (body x)) -> sat (for_each xs body).
Proof.
  intros Hb. induction xs as [|x xs IH]; simpl.
  - apply sat_ret.
  - apply sat_bind; [apply Hb|intros _; apply IH].
Qed.

Lemma sat_for_in {A} (xs : list A) (body : A -> M flow) (orelse : M unit) :
  (forall x, sat (body x)) -> sat orelse -> sat (for_in xs body orelse).
Proof.
  intros Hb Ho. induction xs as [|x xs IH]; simpl.
  - exact Ho.
  - apply sat_bind; [apply Hb|]. intros [|]; [apply IH|apply sat_ret].
Qed.

(** *** Calls *)

(** A call whose result the world decides: [m] adds the one event
    [ev r]. *)
Lemma sat_call {A} (m : M A) (ev : result A -> event) :
  (forall s, exists r, m s = (r, with_event (ev r) s)) ->
  (forall r, Φ (outcome r) [ev r]) ->
  sat m.
Proof.
  intros Hm HΦ s Hs. destruct (Hm s) as [r ->]. exists [ev r]. simpl.
  split; [done|]. split; [apply HΦ|done].
Qed.

Lemma sat_emit ev : Φ None [ev] -> sat (emit ev).
Proof. intros H s Hs. by exists [ev]. Qed.

Lemma sat_messenger_info msg : Φ None [Messenger_info msg] -> sat (messenger_info msg).
Proof. apply sat_emit. Qed.

Lemma sat_messenger_announce_command cmd :
  Φ None [Messenger_announce_command cmd] -> sat (messenger_announce_command cmd).
Proof. apply sat_emit. Qed.

Lemma sat_time_sleep n : Φ None [Time_sleep n] -> sat (time_sleep n).
Proof. apply sat_emit. Qed.

Lemma sat_check_call cmd :
  (forall r, Φ (outcome r) [Executor_check_call cmd None r]) ->
  sat (check_call w cmd None).
Proof. apply sat_call. intros s. by eexists. Qed.

Lemma sat_check_call_env cmd l :
  (forall d r, Φ (outcome r) [Executor_check_call cmd (Some d) r]) ->
  sat (check_call w cmd (Some l)).
Proof.
  intros H s Hs. eexists [_]. unfold check_call. simpl.
  split; [done|]. split; [apply H|done].
Qed.

Lemma sat_check_call_any cmd env :
  (forall d r, Φ (outcome r) [Executor_check_call cmd d r]) ->
  sat (check_call w cmd env).
Proof.
  intros H s Hs. unfold check_call.
  destruct env; eexists [_]; simpl; (split; [done|]); (split; [apply H|done]).
Qed.

Lemma sat_check_output cmd :
  (forall r, Φ (outcome r) [Executor_check_output cmd r]) ->
  sat (check_output w cmd).
Proof. apply sat_call. intros s. by eexists. Qed.

Lemma sat_subprocess_check_output cmd :
  (forall r, Φ (outcome r) [Subprocess_check_output cmd r]) ->
  sat (subprocess_check_output_ w cmd).
Proof. apply sat_call. intros s. by eexists. Qed.

Lemma sat_popen_communicate cmd env input :
  (forall d r, Φ (outcome r) [Subprocess_Popen cmd d input r]) ->
  sat (popen_communicate w cmd env input).
Proof.
  intros H s Hs. eexists [_]. unfold popen_communicate. simpl.
  split; [done|]. split; [apply H|done].
Qed.

Lemma sat_path_exists p :
  (forall b, Φ None [Os_path_exists p b]) -> sat (path_exists w p).
Proof.
  intros H s Hs. eexists [_]. unfold path_exists. simpl.
  split; [done|]. split; [apply H|done].
Qed.

Lemma sat_path_realpath p :
  (forall q, Φ None [Os_path_realpath p q]) -> sat (path_realpath w p).
Proof.
  intros H s Hs. eexists [_]. unfold path_realpath. simpl.
  split; [done|]. split; [apply H|done].
Qed.

Lemma sat_mkdir p mode :
  (forall r, Φ (outcome r) [Os_mkdir p mode r]) -> sat (mkdir w p mode).
Proof. apply sat_call. intros s. by eexists. Qed.

Lemma sat_rmdir p :
  (forall r, Φ (outcome r) [Os_rmdir p r]) -> sat (rmdir w p).
Proof. apply sat_call. intros s. by eexists. Qed.

Lemma sat_remove p :
  (forall r, Φ (outcome r) [Os_remove p r]) -> sat (remove w p).
Proof. apply sat_call. intros s. by eexists. Qed.

Lemma sat_listdir p :
  (forall r, Φ (outcome r) [Os_listdir p r]) -> sat (listdir w p).
Proof. apply sat_call. intros s. by eexists. Qed.

Lemma sat_mkdtemp dir :
  (forall r, Φ (outcome r) [Tempfile_mkdtemp dir r]) -> sat (mkdtemp w dir).
Proof. apply sat_call. intros s. by eexists. Qed.

Lemma sat_write_file p c :
  (forall r, Φ (outcome r) [File_write p c r]) -> sat (write_file w p c).
Proof. apply sat_call. intros s. by eexists. Qed.

Lemma sat_write_file_at p o c :
  (forall r, Φ (outcome r) [File_write_at p o c r]) -> sat (write_file_at w p o c).
Proof. apply sat_call. intros s. by eexists. Qed.

Lemma sat_readlines p :
  (forall r, Φ (outcome r) [File_readlines p r]) -> sat (readlines w p).
Proof. apply sat_call. intros s. by eexists. Qed.

Lemma sat_unshare flags :
  (forall r e, Φ None [Libc_unshare flags r e]) -> sat (unshare w flags).
Proof.
  intros H s Hs. unfold unshare. destruct (libc_unshare w (log s) flags) as [r e].
  eexists [_]. simpl. split; [done|]. split; [apply H|done].
Qed.

Lemma sat_sethostname name len :
  (forall r e, Φ None [Libc_sethostname name len r e]) -> sat (sethostname w name len).
Proof.
  intros H s Hs. unfold sethostname.
  destruct (libc_sethostname w (log s) name len) as [r e].
  eexists [_]. simpl. split; [done|]. split; [apply H|done].
Qed.

Lemma sat_require_valid_uuid c :
  (forall r, Φ (outcome r) [Require_valid_uuid c r]) -> sat (require_valid_uuid_ w c).
Proof. apply sat_call. intros s. by eexists. Qed.

Lemma sat_mounts_below p :
  (forall r, Φ (outcome r) [MountFinder_below p r]) -> sat (mounts_below w p).
Proof. apply sat_call. intros s. by eexists. Qed.

Lemma sat_distro method args :
  (forall r, Φ (outcome r) [Distro_call method args None r]) ->
  sat (distro w method args None).
Proof. apply sat_call. intros s. by eexists. Qed.

Lemma sat_distro_env method args l :
  (forall d r, Φ (outcome r) [Distro_call method args (Some d) r]) ->
  sat (distro w method args (Some l)).
Proof.
  intros H s Hs. eexists [_]. unfold distro. simpl.
  split; [done|]. split; [apply H|done].
Qed.

Lemma sat_distro_get_chroot_command_grub2_install :
  (forall r, Φ (outcome r) [Distro_get_chroot_command_grub2_install r]) ->
  sat (distro_get_chroot_command_grub2_install_ w).
Proof. apply sat_call. intros s. by eexists. Qed.

Lemma sat_silent {A} (m : M A) :
  (forall s, exists a h, m s = (Ok a, with_heap h s)) -> sat m.
Proof.
  intros Hm s Hs. destruct (Hm s) as (a & h & ->). exists []. simpl.
  rewrite app_nil_r. split; [done|]. split; [apply seq_nil|done].
Qed.

Lemma sat_dict_copy l : sat (dict_copy l).
Proof. apply sat_silent. intros s. by eexists _, _. Qed.

Lemma sat_dict_pop l key : sat (dict_pop l key).
Proof. apply sat_silent. intros s. by eexists _, _. Qed.

Lemma sat_dict_update l key v : sat (dict_update l key v).
Proof. apply sat_silent. intros s. by eexists _, _. Qed.

Lemma sat_dict_getitem l key : Φ (Some (KeyError key)) [] -> sat (dict_getitem l key).
Proof.
  intros H s Hs. exists []. unfold dict_getitem.
  destruct (deref s l !! key); simpl; rewrite app_nil_r;
    (split; [done|]); (split; [|done]); [apply seq_nil|done].
Qed.

End SatRules.

Section SatFinally.

Variable I : engine -> Prop.
Variable Φ Ψ : option exn -> list event -> Prop.

(** [try: body finally: final], where the events of [final] satisfy [Ψ]:
    after a [final] that returned normally the outcome is that of [body],
    an exception of [final] replaces it. *)
Lemma sat_try_finally_with {A} (body : M A) (final : M unit) :
  (forall l1 l2 o, Φ o l1 -> Ψ None l2 -> Φ o (l1 ++ l2)) ->
  (forall l1 l2 o e, Φ o l1 -> Ψ (Some e) l2 -> Φ (Some e) (l1 ++ l2)) ->
  sat I Φ body -> sat I Ψ final -> sat I Φ (try_finally body final).
Proof.
  intros Hok Hraise Hb Hf s Hs. unfold try_finally.
  destruct (Hb s Hs) as (l1 & Hl1 & HΦ1 & Hs1).
  destruct (body s) as [r1 s1]; simpl in *.
  destruct (Hf s1 Hs1) as (l2 & Hl2 & HΦ2 & Hs2).
  exists (l1 ++ l2).
  destruct (final s1) as [[[]|e] s2]; simpl in *; rewrite Hl2, Hl1, app_assoc;
    (split; [done|]); (split; [|done]).
  - by apply Hok.
  - by eapply Hraise.
Qed.

End SatFinally.

Lemma sat_try_finally I Φ `{!Closed Φ} {A} (body : M A) (final : M unit) :
  sat I Φ body -> sat I Φ final -> sat I Φ (try_finally body final).
Proof.
  apply sat_try_finally_with; [apply closed_then_ok|apply closed_then_raise].
Qed.
Section SatLoops.

Variable w : world.
Variable I : engine -> Prop.
Variable Φ : option exn -> list event -> Prop.
Context `{!Sequential Φ}.

(** Events of a step that succeeded, in front of what follows. *)
Lemma closed_seq l1 l2 o : Φ None l1 -> Φ o l2 -> Φ o (l1 ++ l2).
Proof.
  apply seq_app.
Qed.

Lemma retried_sat cmd n l r :
  Φ None [Executor_check_call cmd None (Ok tt)] ->
  (forall e, Activation.fatal e -> Φ (Some e) [Executor_check_call cmd None (Raise e)]) ->
  (forall code c, code <> _EXIT_COMMAND_NOT_FOUND ->
     Φ None [Executor_check_call cmd None (Raise (CalledProcessError code c)); Time_sleep 1]) ->
  Activation.retried cmd n l r -> Φ (outcome r) l.
Proof.
  intros Hok Hfatal Hagain. induction 1 as [|n|n e He|n code c l r Hc Hl IH]; simpl.
  - apply seq_nil.
  - exact Hok.
  - by apply Hfatal.
  - apply (closed_seq [_; _] l); [by apply Hagain|exact IH].
Qed.

(** The retry loop around a command. *)
Lemma sat_retry_loop cmd (xs : list nat) :
  Φ None [Executor_check_call cmd None (Ok tt)] ->
  (forall e, Activation.fatal e -> Φ (Some e) [Executor_check_call cmd None (Raise e)]) ->
  (forall code c, code <> _EXIT_COMMAND_NOT_FOUND ->
     Φ None [Executor_check_call cmd None (Raise (CalledProcessError code c)); Time_sleep 1]) ->
  sat I Φ
    (for_in xs
       (fun i =>
          try_except
            (check_call w cmd None ;; ret Break)
            (fun e =>
               match e with
               | CalledProcessError returncode _ =>
                   if returncode =? _EXIT_COMMAND_NOT_FOUND then raise e
                   else time_sleep 1 ;; ret Next
               | _ => raise e
               end))
       (ret tt)).
Proof.
  intros Hok Hfatal Hagain. apply sat_intro. intros s r s' Hs E.
  apply retry_loop_retried in E. destruct E as (l & -> & Hl).
  exists l. split; [done|]. split; [|done].
  by apply (retried_sat cmd (length xs)).
Qed.

(** The loop of [_rmdir_mountpount]. *)
Lemma sat_rmdir_loop (xs : list nat) :
  Φ (Some TypeError) [] ->
  (forall p, Φ None [Os_rmdir p (Ok tt)]) ->
  (forall p e, (forall m, e <> OSError EBUSY m) -> Φ (Some e) [Os_rmdir p (Raise e)]) ->
  (forall p m, Φ None [Os_rmdir p (Raise (OSError EBUSY m)); Time_sleep 1]) ->
  sat I Φ
    (for_in xs
       (fun i =>
          try_except
            (mountpoint <- attr_str _abs_mountpoint ;;
             rmdir w mountpoint ;;
             ret Break)
            (fun e =>
               match e with
               | OSError errno _ =>
                   if negb (errno =? EBUSY) then raise e
                   else time_sleep 1 ;; ret Next
               | _ => raise e
               end))
       (ret tt)).
Proof.
  intros Htype Hok Hfatal Hagain.
  induction xs as [|x xs IH]; simpl; [apply (sat_ret I Φ)|].
  apply sat_intro. intros s r s' Hs E.
  unfold bind at 1, try_except at 1 in E.
  rewrite exec_attr_str in E.
  destruct (_abs_mountpoint (self s)) as [mp|] eqn:Emp.
  - rewrite exec_rmdir in E.
    destruct (os_rmdir w (log s) mp) as [[]|e] eqn:Er.
    + unfold ret at 1 in E. cbv beta iota in E. unfold ret at 1 in E.
      inversion E; subst.
      eexists [_]. split; [done|]. split; [apply Hok|done].
    + cbv beta iota in E.
      destruct e as [? ?|errno m| | | | | | |];
        try (unfold raise at 1 in E; inversion E; subst; eexists [_];
             split; [done|]; split; [|done];
             apply Hfatal; intros m'; discriminate).
      destruct (errno =? EBUSY) eqn:Eb; cbn [negb] in E; cbv beta iota in E.
      * apply Z.eqb_eq in Eb. subst errno.
        rewrite exec_time_sleep in E. unfold ret at 1 in E. cbv beta iota in E.
        assert (Hs1 : I (self (with_event (Time_sleep 1)
                                 (with_event (Os_rmdir mp (Raise (OSError EBUSY m))) s))))
          by done.
        destruct (sat_elim _ _ _ _ _ _ IH Hs1 E) as (l & Hl & HΦ & Hs').
        eexists (_ :: _ :: l). rewrite Hl. simpl. rewrite <- !app_assoc.
        split; [done|]. split; [|done].
        apply (closed_seq [_; _] l); [apply Hagain|exact HΦ].
      * unfold raise at 1 in E. inversion E; subst.
        eexists [_]. split; [done|]. split; [|done].
        apply Hfatal. intros m' [= -> _]. by rewrite Z.eqb_refl in Eb.
  - unfold raise at 1 in E. inversion E; subst. exists []. rewrite app_nil_r. done.
Qed.

End SatLoops.
(** ** Automation for [sat] *)

Section SatFlow.

Variable I : engine -> Prop.
Variable Φ : option exn -> list event -> Prop.
Context `{!Sequential Φ}.

Lemma sat_ext {A} (m m' : M A) : (forall s, m s = m' s) -> sat I Φ m' -> sat I Φ m.
Proof. intros E H s Hs. rewrite E. by apply H. Qed.

Lemma sat_bind_assoc {A B C} (m : M C) (g : C -> M A) (k : A -> M B) :
  sat I Φ (bind m (fun c => bind (g c) k)) -> sat I Φ (bind (bind m g) k).
Proof. apply sat_ext. intros s. apply exec_bind. Qed.

Lemma sat_bind_ret {A B} (a : A) (k : A -> M B) : sat I Φ (k a) -> sat I Φ (bind (ret a) k).
Proof. by apply sat_ext. Qed.

Lemma sat_bind_raise {A B} e (k : A -> M B) : Φ (Some e) [] -> sat I Φ (bind (raise e) k).
Proof. intros H. apply (sat_ext _ (raise e)); [done|by apply sat_raise]. Qed.

End SatFlow.

Ltac head_of t :=
  lazymatch t with
  | ?f _ => head_of f
  | _ => t
  end.

(** The calls and the control structures: what [sat] has a rule for. *)
Ltac is_call m :=
  let h := head_of m in
  lazymatch h with
  | @for_each => idtac
  | @for_in => idtac
  | @try_finally => idtac
  | @try_except => idtac
  | @assert => idtac
  | @assign => idtac
  | @emit => idtac
  | @messenger_info => idtac
  | @messenger_announce_command => idtac
  | @time_sleep => idtac
  | @check_call => idtac
  | @check_output => idtac
  | @subprocess_check_output_ => idtac
  | @popen_communicate => idtac
  | @path_exists => idtac
  | @path_realpath => idtac
  | @mkdir => idtac
  | @rmdir => idtac
  | @remove => idtac
  | @listdir => idtac
  | @mkdtemp => idtac
  | @write_file => idtac
  | @write_file_at => idtac
  | @readlines => idtac
  | @unshare => idtac
  | @sethostname => idtac
  | @require_valid_uuid_ => idtac
  | @mounts_below => idtac
  | @distro => idtac
  | @distro_get_chroot_command_grub2_install_ => idtac
  | @dict_copy => idtac
  | @dict_pop => idtac
  | @dict_update => idtac
  | @dict_getitem => idtac
  end.

(** One step of a proof of [sat I Φ m], by the shape of [m]; [side] proves
    the facts about single events.  Methods are unfolded; a value that a
    method hands to its continuation stays visible. *)
Ltac sat_step side :=
  cbn [fst snd];
  lazymatch goal with
  | |- sat ?I ?Φ (ret _) => apply (sat_ret I Φ)
  | |- sat ?I ?Φ (raise _) => apply (sat_raise I Φ); try solve [side]
  | |- sat ?I ?Φ (assert _) => apply (sat_assert I Φ); try solve [side]
  | |- sat ?I ?Φ (assign _) => apply (sat_assign I Φ); try solve [side]
  | |- sat ?I ?Φ (attr _) => apply (sat_attr I Φ)
  | |- sat ?I ?Φ (attr_str _) => apply (sat_attr_str I Φ); try solve [side]
  | |- sat ?I ?Φ (attr_path _) => apply (sat_attr_path I Φ); try solve [side]
  | |- sat ?I ?Φ (bind (attr _) _) =>
      apply (sat_bind_attr I Φ); intros ? ?
  | |- sat ?I ?Φ (bind (attr_str _) _) =>
      apply (sat_bind_attr_str I Φ); [try solve [side]|intros ? ? ? ?]
  | |- sat ?I ?Φ (bind (attr_path _) _) =>
      apply (sat_bind_attr_path I Φ); [try solve [side]|intros ? ? ? ?]
  | |- sat ?I ?Φ (bind (ret _) _) => apply (sat_bind_ret I Φ); cbv beta
  | |- sat ?I ?Φ (bind (raise _) _) => apply (sat_bind_raise I Φ); try solve [side]
  | |- sat ?I ?Φ (@bind unit _ _ _) => apply (sat_bind I Φ); [|intros _]
  | |- sat ?I ?Φ (bind (bind _ _) _) => apply (sat_bind_assoc I Φ)
  | |- sat _ _ (bind (if ?b then _ else _) _) => destruct b
  | |- sat _ _ (bind (match ?x with _ => _ end) _) => destruct x
  | |- sat ?I ?Φ (bind ?m _) =>
      first [is_call m; apply (sat_bind I Φ); [|intros ?]
            |let h := head_of m in unfold h]
  | |- sat ?I ?Φ (try_finally _ _) => apply (sat_try_finally I Φ)
  | |- sat ?I ?Φ (for_each _NON_DISK_MOUNT_TASKS _) =>
      unfold _NON_DISK_MOUNT_TASKS; cbn [for_each]
  | |- sat ?I ?Φ (for_each (rev _NON_DISK_MOUNT_TASKS) _) =>
      unfold _NON_DISK_MOUNT_TASKS; cbn [for_each rev app]
  | |- sat ?I ?Φ (for_each _ _) => apply (sat_for_each I Φ); intros ?
  | |- sat ?I ?Φ (for_in _ (fun _ => try_except (bind (check_call _ _ None) _) _) _) =>
      apply (sat_retry_loop _ I Φ); try solve [side]
  | |- sat ?I ?Φ (for_in _ (fun _ => try_except (bind (attr_str _) _) _) _) =>
      apply (sat_rmdir_loop _ I Φ); try solve [side]
  | |- sat ?I ?Φ (for_in _ _ _) => apply (sat_for_in I Φ); [intros ?|]
  | |- sat _ _ (if ?b then _ else _) => destruct b
  | |- sat _ _ (match ?x with _ => _ end) => destruct x
  | |- sat ?I ?Φ (emit _) => apply (sat_emit I Φ); try solve [side]
  | |- sat ?I ?Φ (messenger_info _) => apply (sat_messenger_info I Φ); try solve [side]
  | |- sat ?I ?Φ (messenger_announce_command _) =>
      apply (sat_messenger_announce_command I Φ); try solve [side]
  | |- sat ?I ?Φ (time_sleep _) => apply (sat_time_sleep I Φ); try solve [side]
  | |- sat ?I ?Φ (check_call _ _ None) => apply (sat_check_call _ I Φ); try solve [side]
  | |- sat ?I ?Φ (check_call _ _ (Some _)) =>
      apply (sat_check_call_env _ I Φ); try solve [side]
  | |- sat ?I ?Φ (check_call _ _ _) => apply (sat_check_call_any _ I Φ); try solve [side]
  | |- sat ?I ?Φ (check_output _ _) => apply (sat_check_output _ I Φ); try solve [side]
  | |- sat ?I ?Φ (subprocess_check_output_ _ _) =>
      apply (sat_subprocess_check_output _ I Φ); try solve [side]
  | |- sat ?I ?Φ (popen_communicate _ _ _ _) =>
      apply (sat_popen_communicate _ I Φ); try solve [side]
  | |- sat ?I ?Φ (path_exists _ _) => apply (sat_path_exists _ I Φ); try solve [side]
  | |- sat ?I ?Φ (path_realpath _ _) => apply (sat_path_realpath _ I Φ); try solve [side]
  | |- sat ?I ?Φ (mkdir _ _ _) => apply (sat_mkdir _ I Φ); try solve [side]
  | |- sat ?I ?Φ (rmdir _ _) => apply (sat_rmdir _ I Φ); try solve [side]
  | |- sat ?I ?Φ (remove _ _) => apply (sat_remove _ I Φ); try solve [side]
  | |- sat ?I ?Φ (listdir _ _) => apply (sat_listdir _ I Φ); try solve [side]
  | |- sat ?I ?Φ (mkdtemp _ _) => apply (sat_mkdtemp _ I Φ); try solve [side]
  | |- sat ?I ?Φ (write_file _ _ _) => apply (sat_write_file _ I Φ); try solve [side]
  | |- sat ?I ?Φ (write_file_at _ _ _ _) =>
      apply (sat_write_file_at _ I Φ); try solve [side]
  | |- sat ?I ?Φ (readlines _ _) => apply (sat_readlines _ I Φ); try solve [side]
  | |- sat ?I ?Φ (unshare _ _) => apply (sat_unshare _ I Φ); try solve [side]
  | |- sat ?I ?Φ (sethostname _ _ _) => apply (sat_sethostname _ I Φ); try solve [side]
  | |- sat ?I ?Φ (require_valid_uuid_ _ _) =>
      apply (sat_require_valid_uuid _ I Φ); try solve [side]
  | |- sat ?I ?Φ (mounts_below _ _) => apply (sat_mounts_below _ I Φ); try solve [side]
  | |- sat ?I ?Φ (distro _ _ _ None) => apply (sat_distro _ I Φ); try solve [side]
  | |- sat ?I ?Φ (distro _ _ _ (Some _)) => apply (sat_distro_env _ I Φ); try solve [side]
  | |- sat ?I ?Φ (distro_get_chroot_command_grub2_install_ _) =>
      apply (sat_distro_get_chroot_command_grub2_install _ I Φ); try solve [side]
  | |- sat ?I ?Φ (dict_copy _) => apply (sat_dict_copy I Φ)
  | |- sat ?I ?Φ (dict_pop _ _) => apply (sat_dict_pop I Φ)
  | |- sat ?I ?Φ (dict_update _ _ _) => apply (sat_dict_update I Φ)
  | |- sat ?I ?Φ (dict_getitem _ _) => apply (sat_dict_getitem I Φ); try solve [side]
  | |- sat _ _ ?m => let h := head_of m in unfold h
  end.

Ltac sat_auto side := repeat sat_step side.

(** Side conditions of [all_events Q], for a [Q] that computes. *)
Ltac all_events_side :=
  intros; unfold all_events; repeat constructor; simpl; try done.

(** The engine never reports anything through [messenger.error] while it
    runs the pipeline. *)
Lemma run_never_calls_messenger_error w :
  sat (fun _ => True)
    (all_events (fun ev => match ev with Messenger_error _ => False | _ => True end))
    (run w).
Proof. sat_auto all_events_side. Qed.

(** ** Comparisons with unknown strings, and the events of a run *)

(** Case analysis on what is left of a comparison with an unknown
    string. *)
Ltac case_strings :=
  repeat match goal with
         | |- context [String.eqb ?a ?b] => destruct (String.eqb a b); simpl
         | |- context [Py.startswith ?a ?b] => destruct (Py.startswith a b); simpl
         | |- context [String.prefix ?a ?b] => destruct (String.prefix a b); simpl
         end.

Lemma string_prefix_empty s : String.prefix EmptyString s = true.
Proof. by destruct s. Qed.

Lemma new_events_app {A} (m : M A) s l :
  log (snd (m s)) = log s ++ l -> new_events m s = l.
Proof. intros H. unfold new_events. rewrite H. apply drop_app_length. Qed.

(** ** The first partition device (C7) *)

Lemma existsb_false_Forall {A} (f : A -> bool) l :
  Forall (fun x => f x = false) l -> existsb f l = false.
Proof. induction 1 as [|x l Hx _ IH]; simpl; [done|by rewrite Hx, IH]. Qed.

Lemma mapper_is_set name e :
  Device.is_set (set__abs_first_partition_device (Some ("/dev/mapper/" +:+ name)) e).
Proof. reflexivity. Qed.

(** Once partition activation has read the listing, the field is set;
    before that, the kernel has not been told and no node has been
    looked for. *)
Lemma kpartx_minus_a_sets_device w s :
  exists l,
    log (snd (_kpartx_minus_a w s)) = log s ++ l
    /\ (Device.is_set (self (snd (_kpartx_minus_a w s)))
        \/ (Forall (fun ev => Device.told ev = false /\ Device.observed ev = false) l
            /\ exists e, fst (_kpartx_minus_a w s) = Raise e)).
Proof.
  destruct (kpartx_minus_a_activation w s) as (l & device & Hs & Hact).
  exists l. rewrite Hs. split; [reflexivity|].
  destruct device as [d|]; simpl.
  - left. inversion Hact; subst; apply mapper_is_set.
  - right. inversion Hact; subst. split; [repeat constructor|by eexists].
Qed.

(** C7, as amended.  [first_partition_device] is set to
    "/dev/mapper/<token>" as soon as partition activation has parsed the
    output of kpartx -l, before the kernel is told about the partitions
    and before the node is looked for, and it is not cleared afterwards.
    So, in every world and wherever the run stops: if the kernel has been
    told about the partitions and the device node has been observed, the
    field is non-empty.  (The converse does not hold.) *)
Theorem first_partition_device_is_set_when_activated (w : world) (s : state) :
  (Device.activated (new_events (_kpartx_minus_a w) s) = true ->
   Device.is_set (self (snd (_kpartx_minus_a w s))))
  /\ (Device.activated (new_events (run w) s) = true ->
      Device.is_set (self (snd (run w s)))).
Proof.
  split.
  - destruct (kpartx_minus_a_sets_device w s) as (l & Hl & [H|[H _]]); [done|].
    rewrite (new_events_app _ _ _ Hl). unfold Device.activated.
    rewrite (existsb_false_Forall Device.told); [done|].
    eapply Forall_impl; [exact H|]. by intros ev [? ?].
  - destruct (run w s) as [r s'] eqn:E. simpl.
    unfold new_events. rewrite E. simpl.
    unfold run in E. rewrite <- !exec_bind in E.
    apply bind_inv in E. destruct E as [(a & s1 & E1 & E2)|(e & E1 & ->)];
      (apply bind_inv in E1; destruct E1 as [(a0 & s0 & E0 & E1)|(e' & E0 & E1)]);
      try discriminate;
      (match type of E0 with
       | ?m s = _ =>
           assert (Hpre : sat (fun _ => True)
                            (all_events (fun ev => Device.told ev = false
                                                   /\ Device.observed ev = false)) m)
             by sat_auto all_events_side
       end;
       destruct (sat_elim _ _ _ _ _ _ Hpre I E0) as (l0 & Hl0 & HQ0 & _)).
    + (* activation has returned *)
      destruct (kpartx_minus_a_sets_device w s0) as (l1 & Hl1 & Hset).
      rewrite E1 in Hl1, Hset. simpl in Hl1, Hset.
      destruct Hset as [Hset|[_ [e [=]]]].
      match type of E2 with
      | ?m s1 = _ =>
          assert (Hrest : sat Device.is_set (all_events (fun _ => True)) m)
            by sat_auto all_events_side
      end.
      destruct (sat_elim _ _ _ _ _ _ Hrest Hset E2) as (l2 & Hl2 & _ & Hset').
      intros _. exact Hset'.
    + (* activation has raised *)
      destruct (kpartx_minus_a_sets_device w s0) as (l1 & Hl1 & Hset).
      rewrite E1 in Hl1, Hset. simpl in Hl1, Hset.
      destruct Hset as [Hset|[HQ1 _]]; [done|].
      rewrite Hl1, Hl0, <- app_assoc, drop_app_length. unfold Device.activated.
      rewrite (existsb_false_Forall Device.told); [done|].
      apply Forall_app. split; (eapply Forall_impl; [eassumption|]); by intros ev [? ?].
    + (* a step in front of activation has raised *)
      rewrite Hl0, drop_app_length. unfold Device.activated.
      rewrite (existsb_false_Forall Device.told); [done|].
      eapply Forall_impl; [eassumption|]. by intros ev [? ?].
Qed.

(** C7 as stated fails: partprobe goes through, the node never shows up,
    activation gives up with the no-such-device error, and the field stays
    set although no node was ever observed. *)
Lemma first_partition_device_set_without_node :
  let '(r, s) := _kpartx_minus_a Device.never_there Device.start in
  _abs_first_partition_device (self s) = Some "/dev/mapper/sda1"
  /\ Device.activated (log s) = false
  /\ existsb Device.observed (log s) = false
  /\ r = Raise (OSError ENOENT "No such block device file: '/dev/mapper/sda1'").
Proof. vm_compute. repeat split. Qed.
(** ** /etc/fstab (C5) *)

Lemma last_char_cons c s :
  s <> EmptyString -> Fstab.last_char (String c s) = Fstab.last_char s.
Proof. by destruct s. Qed.

Lemma last_char_append a b :
  b <> EmptyString -> Fstab.last_char (a +:+ b) = Fstab.last_char b.
Proof.
  intros Hb. induction a as [|c a IH]; simpl; [done|].
  destruct (a +:+ b) eqn:E; [|exact IH].
  destruct a; simpl in E; [done|discriminate].
Qed.

Lemma endswith_last_char suffix s :
  suffix <> EmptyString -> Py.endswith suffix s = true ->
  Fstab.last_char s = Fstab.last_char suffix.
Proof.
  intros Hsuf. induction s as [|c s IH]; simpl; intros H.
  - apply orb_true_iff in H. destruct H as [H|H]; [|done].
    apply String.eqb_eq in H. by subst.
  - apply orb_true_iff in H. destruct H as [H|H].
    + apply String.eqb_eq in H. by subst.
    + rewrite <- (IH H). apply last_char_cons.
      intros ->. simpl in H. rewrite orb_false_r in H.
      apply String.eqb_eq in H. done.
Qed.

(** A path joined from a relative name ends like the name. *)
Lemma last_char_join a b :
  b <> EmptyString -> Py.startswith "/" b = false ->
  Fstab.last_char (Py.join a b) = Fstab.last_char b.
Proof.
  intros Hb Hrel. unfold Py.join. rewrite Hrel.
  destruct (_ || _); [by apply last_char_append|].
  rewrite last_char_append; [|by destruct b].
  simpl. destruct b; [done|reflexivity].
Qed.

Lemma try_finally_inv {A} (body : M A) (final : M unit) s r s' :
  try_finally body final s = (r, s') ->
  exists r1 s1 rf,
    body s = (r1, s1) /\ final s1 = (rf, s')
    /\ (r = r1 \/ exists e, r = Raise e).
Proof.
  unfold try_finally. destruct (body s) as [r1 s1].
  destruct (final s1) as [[[]|e] s2] eqn:E; intros [= <- <-]; eauto 10.
Qed.

(** *** The fstab is written *)

Lemma append_assoc (a b c : string) : (a +:+ b) +:+ c = a +:+ b +:+ c.
Proof.
  induction a as [|x a IH]; [done|].
  change (String x ((a +:+ b) +:+ c) = String x (a +:+ b +:+ c)). by rewrite IH.
Qed.

Lemma endswith_append suffix a : Py.endswith suffix (a +:+ suffix) = true.
Proof.
  induction a as [|x a IH].
  - change (Py.endswith suffix suffix = true).
    destruct suffix; simpl; [done|]. by rewrite Ascii.eqb_refl, String.eqb_refl.
  - change (Py.endswith suffix (String x (a +:+ suffix)) = true).
    simpl. by rewrite IH, orb_true_r.
Qed.

Section MustRules.

Variable P : event -> Prop.

Lemma sat_grows {A} (m : M A) :
  sat (fun _ => True) (all_events (fun _ => True)) m -> grows m.
Proof. intros H s. destruct (H s I) as (l & Hl & _). by exists l. Qed.

Lemma must_bind_l {A B} (m : M A) (k : A -> M B) :
  must P m -> (forall a, grows (k a)) -> must P (bind m k).
Proof.
  intros Hm Hk s. destruct (Hm s) as (l1 & Hl1 & H1). unfold bind.
  destruct (m s) as [[a|e] s1]; simpl in *.
  - destruct (Hk a s1) as (l2 & Hl2). exists (l1 ++ l2).
    split; [by rewrite Hl2, Hl1, app_assoc|].
    intros _ _. apply Exists_app. left. by apply (H1 a).
  - exists l1. split; [done|]. intros b [=].
Qed.

Lemma must_bind_r {A B} (m : M A) (k : A -> M B) :
  grows m -> (forall a, must P (k a)) -> must P (bind m k).
Proof.
  intros Hm Hk s. destruct (Hm s) as (l1 & Hl1). unfold bind.
  destruct (m s) as [[a|e] s1]; simpl in *.
  - destruct (Hk a s1) as (l2 & Hl2 & H2). exists (l1 ++ l2).
    split; [by rewrite Hl2, Hl1, app_assoc|].
    intros b Hb. apply Exists_app. right. by apply (H2 b).
  - exists l1. split; [done|]. intros b [=].
Qed.

Lemma must_try_finally {A} (body : M A) (final : M unit) :
  must P body -> grows final -> must P (try_finally body final).
Proof.
  intros Hb Hf s. destruct (Hb s) as (l1 & Hl1 & H1). unfold try_finally.
  destruct (body s) as [r1 s1]; simpl in *.
  destruct (Hf s1) as (l2 & Hl2).
  destruct (final s1) as [[[]|e] s2]; simpl in *;
    (exists (l1 ++ l2); split; [by rewrite Hl2, Hl1, app_assoc|]).
  - intros a ->. apply Exists_app. left. by apply (H1 a).
  - intros a [=].
Qed.

End MustRules.

Lemma prefix_append a b : String.prefix a (a +:+ b) = true.
Proof.
  induction a as [|c a IH]; simpl; [by destruct b|].
  destruct (ascii_dec c c); [exact IH|done].
Qed.

Lemma prefix_append_r a x y : String.prefix a x = true -> String.prefix a (x +:+ y) = true.
Proof.
  revert x. induction a as [|c a IH]; intros x H; simpl; [by destruct (x +:+ y)|].
  destruct x as [|c' x]; [discriminate|]. simpl in *.
  destruct (ascii_dec c c'); [by apply IH|done].
Qed.

(** A path joined from a relative name is below the directory. *)
Lemma startswith_join a x b :
  Py.startswith "/" b = false ->
  Py.startswith a x = true -> Py.startswith a (Py.join x b) = true.
Proof.
  intros Hrel H. unfold Py.join. rewrite Hrel. unfold Py.startswith in *.
  destruct (_ || _); by repeat apply prefix_append_r.
Qed.

Lemma startswith_refl a : Py.startswith a a = true.
Proof.
  unfold Py.startswith. induction a as [|c a IH]; simpl; [done|].
  destruct (ascii_dec c c); [exact IH|done].
Qed.

(** A path that ends in another name than fstab is not an fstab. *)
Lemma join_is_not_path a b m :
  b <> EmptyString -> Py.startswith "/" b = false ->
  Fstab.last_char b <> Some "b"%char ->
  Py.join a b <> Fstab.path m.
Proof.
  intros Hb Hrel Hlast E. apply (f_equal Fstab.last_char) in E.
  unfold Fstab.path in E. rewrite !last_char_join in E by done. simpl in E. congruence.
Qed.

Ltac fs_side :=
  intros;
  first
    [ assumption
    | unfold all_events; repeat constructor;
      unfold Fstab.early, Fstab.idle, Fstab.is_blkid, Fstab.is_tune2fs, Fstab.is_write, Fstab.formats;
      repeat match goal with
             | r : result _ |- _ => destruct r
             | |- context [if ?b then _ else _] => destruct b eqn:?
             end;
      simpl; case_strings; done ].

Ltac within_side :=
  intros;
  first
    [ assumption
    | unfold all_events;
      repeat match goal with
             | H : Fstab.mounted _ _ _ |- _ => destruct H
             end;
      repeat match goal with
             | H1 : _abs_mountpoint ?e = Some ?a, H2 : _abs_mountpoint ?e = Some ?b |- _ =>
                 assert (a = b) by congruence; subst a; clear H1
             end;
      lazymatch goal with
      | |- Forall _ [File_write _ _ _] =>
          constructor; [|constructor];
          split; [reflexivity|]; split; [reflexivity|];
          split;
          [repeat (apply startswith_join; [reflexivity|]); apply startswith_refl
          |intros [m Hm];
           first [ exfalso; revert Hm; apply join_is_not_path;
                   [done|reflexivity|simpl; congruence]
                 | split; [reflexivity|];
                   match goal with
                   | H : _first_partition_uuid ?e = Some _ |- _ => rewrite H; reflexivity
                   end ]]
      | |- _ =>
          repeat constructor;
          unfold Fstab.within, Fstab.is_blkid, Fstab.is_tune2fs;
          repeat match goal with
                 | r : result _ |- _ => destruct r
                 | |- context [if ?b then _ else _] => destruct b eqn:?
                 end;
          simpl; case_strings; done
      end ].

Lemma Forall_early_idle l : Forall Fstab.early l -> Forall Fstab.idle l.
Proof. intros H. eapply Forall_impl; [exact H|]. by intros ev [? ?]. Qed.

Lemma create_etc_fstab_writes w : must Fstab.writes (_create_etc_fstab w).
Proof.
  intros s. destruct (_create_etc_fstab w s) as [r s'] eqn:E. simpl.
  unfold _create_etc_fstab in E. rewrite exec_tail in E. exec_in E.
  destruct (_abs_mountpoint (self s)) as [mp|]; exec_in E.
  - destruct (file_write w _ _ _) as [[]|e] eqn:Ew; exec_in E; inversion E; subst;
      eexists [_; _]; (split; [reflexivity|]); [|by intros a [=]].
    intros _ _. apply Exists_cons_tl, Exists_cons_hd. simpl. by exists mp.
  - inversion E; subst. exists []. rewrite app_nil_r.
    split; [reflexivity|]. intros a [=].
Qed.

Ltac grows_side := apply sat_grows; sat_auto all_events_side.

Ltac must_step :=
  lazymatch goal with
  | |- must _ (bind (_create_etc_fstab _) _) =>
      apply must_bind_l; [apply create_etc_fstab_writes|intros ?; grows_side]
  | |- must _ (bind _ _) => apply must_bind_r; [grows_side|intros ?]
  | |- must _ (try_finally _ _) => apply must_try_finally; [|grows_side]
  end.

(** The file system is made on the device that activation has recorded. *)
Lemma format_partitions_formats w s dev r s' :
  _abs_first_partition_device (self s) = Some dev ->
  _format_partitions w s = (r, s') ->
  exists msg res,
    s' = log_more [Messenger_info msg; Executor_check_call (Fstab.cmd_mkfs dev) None res] s
    /\ match r with Ok _ => res = Ok tt | Raise e => res = Raise e end.
Proof.
  intros Hdev E. unfold _format_partitions in E. rewrite exec_tail in E. exec_in E.
  rewrite Hdev in E. exec_in E.
  destruct (executor_check_call w _ _ _) as [[]|e]; exec_in E; inversion E; subst;
    eexists _, _; (split; [reflexivity|]); done.
Qed.

(** What activation leaves when it returns normally. *)
Lemma kpartx_minus_a_listed w s a s' :
  _kpartx_minus_a w s = (Ok a, s') ->
  exists l output,
    log s' = log s ++ l
    /\ In (Activation.listed (_abs_target_path (self s)) output) l
    /\ _abs_first_partition_device (self s')
       = Some (Activation.first_partition_device output)
    /\ _first_partition_uuid (self s') = _first_partition_uuid (self s)
    /\ _abs_target_path (self s') = _abs_target_path (self s).
Proof.
  intros E. destruct (kpartx_minus_a_activation w s) as (l & device & Hs & Hact).
  rewrite E in Hs, Hact. simpl in Hs, Hact. subst s'.
  inversion Hact as [e|o|o e|o polls r0 Ho Hp|o probes e Ho|o probes polls r0 Ho];
    subst; eexists _, o; (split; [reflexivity|]);
    (split; [simpl; auto|]); done.
Qed.

Lemma run_writes_fstab w : must Fstab.writes (run w).
Proof. unfold run. repeat must_step. Qed.

Lemma idle_within u mp ev : Fstab.idle ev -> Fstab.within u mp ev.
Proof. intros (? & ? & ?). destruct ev; try done. Qed.

Lemma settled_idle configured dev lu o :
  Fstab.settled configured dev lu o -> Forall (fun ev => Fstab.is_write ev = false) lu.
Proof. destruct 1; repeat constructor. Qed.

Lemma writes_after l1 l2 :
  Forall (fun ev => Fstab.is_write ev = false) l1 ->
  Exists Fstab.writes (l1 ++ l2) -> Exists Fstab.writes l2.
Proof.
  intros H1 H. apply Exists_app in H. destruct H as [H|H]; [|done].
  apply Exists_exists in H. destruct H as (ev & Hin & Hev).
  rewrite Forall_forall in H1. apply H1 in Hin. by destruct ev.
Qed.

Lemma writes_within u mp l :
  Forall (Fstab.within u mp) l -> Exists Fstab.writes l ->
  In (File_write (Fstab.path mp) (Fstab.line u) (Ok tt)) l.
Proof.
  intros H1 H. apply Exists_exists in H. destruct H as (ev & Hin & Hev).
  rewrite Forall_forall in H1. pose proof (H1 _ Hin) as (_ & _ & Hw).
  destruct ev as [| | | | | | | | | | | | | | | |p c [[]|]| | | | | | | |]; try done.
  simpl in Hev. destruct Hw as [_ Hw]. destruct (Hw Hev) as [-> ->].
  by apply list_elem_of_In.
Qed.

(** The UUID step of [run]. *)
Lemma uuid_step w s configured dev r s' :
  _first_partition_uuid (self s) = configured ->
  _abs_first_partition_device (self s) = Some dev ->
  ((if Py.truthy configured then _set_first_partition_uuid w
    else _gather_first_partition_uuid w) ;;
   uuid <- attr _first_partition_uuid ;;
   assert (Py.truthy uuid)) s = (r, s') ->
  exists lu o,
    log s' = log s ++ lu
    /\ Fstab.settled configured dev lu o
    /\ match r with
       | Ok _ =>
           exists u, o = Some u /\ _first_partition_uuid (self s') = Some u
       | Raise _ => o = None
       end.
Proof.
  intros Hu Hdev E. destruct (Py.truthy configured) eqn:Ht.
  - destruct configured as [u|]; [|done].
    assert (Hne : u <> EmptyString) by (intros ->; done).
    unfold _set_first_partition_uuid in E. exec_in E.
    rewrite Hu, Ht in E. simpl negb in E. exec_in E.
    rewrite Hu in E. exec_in E. rewrite Hdev in E. exec_in E.
    destruct (executor_check_call w _ _ _) as [[]|e]; exec_in E.
    + rewrite Hu, Ht in E. inversion E; subst. eexists [_; _], _.
      split; [by autorewrite with state|]. split; [by apply Fstab.imposed|]. eauto.
    + inversion E; subst. eexists [_; _], _.
      split; [by autorewrite with state|]. split; [by apply Fstab.not_imposed|]. done.
  - unfold _gather_first_partition_uuid in E. exec_in E.
    rewrite Hdev in E. exec_in E.
    destruct (executor_check_output w _ _) as [output|e]; exec_in E.
    + destruct (require_valid_uuid w _ _) as [[]|e]; exec_in E.
      * eexists [_; _], _. split; [|split; [by apply (Fstab.gathered _ _ output)|]].
        { destruct (Py.truthy (Some (Py.rstrip output))); inversion E; subst;
            by autorewrite with state. }
        destruct (Py.truthy (Some (Py.rstrip output))); inversion E; subst; [|done].
        eexists. split; [reflexivity|]. by autorewrite with state.
      * inversion E; subst. eexists [_; _], _.
        split; [by autorewrite with state|]. split; [by apply Fstab.not_valid|]. done.
    + inversion E; subst. eexists [_], _.
      split; [by autorewrite with state|]. split; [by apply Fstab.not_read|]. done.
Qed.


(** The runs of the mock world, with and without a configured UUID: the
    calls of mkfs.ext4, tune2fs and blkid, and the fstab written. *)
Example fstab_of_the_mock_runs :
  let uuid_events (uuid : option string) :=
    List.filter
      (fun ev =>
         Fstab.formats ev || Fstab.is_tune2fs ev || Fstab.is_blkid ev
         || match ev with
            | File_write path _ _ => String.eqb path (Fstab.path "/mnt/tmpAbCdEf")
            | _ => false
            end)
      (log (snd (run Mock.happy
                   (Mock.start (Mock.engine0 BOOTLOADER__NONE uuid None) Mock.environ0)))) in
  uuid_events (Some "abcd")
  = [Executor_check_call ["mkfs.ext4"; "-F"; "/dev/mapper/sda1"] None (Ok tt);
     Executor_check_call ["tune2fs"; "-U"; "abcd"; "/dev/mapper/sda1"] None (Ok tt);
     File_write "/mnt/tmpAbCdEf/etc/fstab"
       ("/dev/disk/by-uuid/abcd / auto defaults 0 1" +:+ newline) (Ok tt)]
  /\ uuid_events None
     = [Executor_check_call ["mkfs.ext4"; "-F"; "/dev/mapper/sda1"] None (Ok tt);
        Executor_check_output ["blkid"; "-o"; "value"; "-s"; "UUID"; "/dev/mapper/sda1"]
          (Ok (Mock.uuid1 +:+ newline));
        File_write "/mnt/tmpAbCdEf/etc/fstab"
          ("/dev/disk/by-uuid/" +:+ Mock.uuid1 +:+ " / auto defaults 0 1" +:+ newline)
          (Ok tt)].
Proof. vm_compute. split; reflexivity. Qed.

(** ** The device map (C8) *)

#[global] Instance no_events_closed : Closed no_events.
Proof.
  split; unfold no_events.
  - reflexivity.
  - by intros l1 l2 _ -> ->.
  - by intros l1 l2 _ _ -> ->.
Qed.

Ltac no_events_side := intros; unfold no_events; try reflexivity; try done.

(** [make_environment] is silent: it only allocates and fills a
    dictionary. *)
Lemma make_environment_silent tell s :
  exists r h, make_environment tell s = (r, with_heap h s).
Proof.
  assert (H : sat (fun e => e = self s) no_events (make_environment tell))
    by sat_auto no_events_side.
  destruct (H s eq_refl) as (l & Hl & -> & Hs). rewrite app_nil_r in Hl.
  destruct (make_environment tell s) as [r [e l' h]]. simpl in *. subst.
  exists r, h. by destruct s.
Qed.

Lemma exec_make_environment {B} tell (k : nat -> M B) s :
  exists r h,
    bind (make_environment tell) k s
    = match r with
      | Ok l => k l (with_heap h s)
      | Raise e => (Raise e, with_heap h s)
      end.
Proof.
  destruct (make_environment_silent tell s) as (r & h & H).
  exists r, h. unfold bind. rewrite H. by destruct r.
Qed.

(** The events of a finished execution [E], as a list. *)
Ltac events_of E :=
  inversion E; subst; clear E; autorewrite with state;
  rewrite <- ?app_assoc; rewrite drop_app_length; simpl app.

(** C8.  In drive mode, with the mountpoint in place, in every world:
    [_install_bootloader__grub2] resolves the target path, then writes
    "(hd0)<TAB><resolved path><newline>" to
    <mountpoint>/boot/grub/device.map; when the write has gone through,
    the install command for "(hd0)" is the only command run, nothing
    touches the device map before it, and the device map is removed
    exactly when the install command has returned normally: it is left in
    place when the command fails or is never run. *)
Theorem device_map_is_there_for_grub2_install (w : world) (s : state) (mountpoint : string) :
  DeviceMap.drive_mode (_bootloader_approach (self s)) = true ->
  _abs_mountpoint (self s) = Some mountpoint ->
  DeviceMap.installed (_abs_target_path (self s)) (DeviceMap.path mountpoint)
    (new_events (_install_bootloader__grub2 w) s)
    (fst (_install_bootloader__grub2 w s)).
Proof.
  intros Hdrive Hmp. unfold new_events.
  destruct (_install_bootloader__grub2 w s) as [r s'] eqn:E. simpl.
  unfold _install_bootloader__grub2, _create_bootloader_install_message in E.
  rewrite exec_tail in E. exec_in E.
  set (real := os_path_realpath w (log s) (_abs_target_path (self s))) in *.
  unfold DeviceMap.drive_mode in Hdrive. rewrite Hdrive in E.
  rewrite exec_bind in E. exec_in E. rewrite Hmp in E. exec_in E.
  fold (DeviceMap.path mountpoint) in E. fold (DeviceMap.content real) in E.
  destruct (file_write w _ _ _) as [[]|e]; exec_in E.
  2:{ events_of E. apply DeviceMap.write_fails. }
  destruct (_ || _) eqn:Hchroot in E; exec_in E.
  - (* the install command runs in the chroot *)
    rewrite Hmp in E. exec_in E. unfold get_chroot_command_grub2_install in E.
    destruct (distro_get_chroot_command_grub2_install w _) as [command|e]; exec_in E.
    2:{ events_of E. by apply (DeviceMap.command_not_run _ _ real _ [_; _]). }
    match type of E with
    | bind (make_environment _) ?k ?s0 = _ =>
        destruct (exec_make_environment false k s0) as (rm & h & Hme);
        rewrite Hme in E; clear Hme
    end.
    destruct rm as [env|e]; exec_in E.
    2:{ events_of E. by apply (DeviceMap.command_not_run _ _ real _ [_; _]). }
    unfold fst, snd in E. exec_in E.
    destruct (executor_check_call w _ _ _) as [[]|e]; exec_in E.
    2:{ events_of E. apply (DeviceMap.command_fails _ _ real _ [_; _]); [done|].
        by destruct (_bootloader_force _). }
    destruct (os_remove w _ _) as [[]|e]; events_of E;
      (apply (DeviceMap.command_succeeds _ _ real _ [_; _]);
       [done|by destruct (_bootloader_force _)]).
  - (* the install command of the host runs *)
    destruct (_command_grub2_install (self s)) as [command|]; exec_in E.
    2:{ events_of E. by apply (DeviceMap.command_not_run _ _ real _ [_]). }
    rewrite Hmp in E. exec_in E. unfold fst, snd in E. exec_in E.
    destruct (executor_check_call w _ _ _) as [[]|e]; exec_in E.
    2:{ events_of E. apply (DeviceMap.command_fails _ _ real _ [_]); [done|].
        by destruct (_bootloader_force _). }
    destruct (os_remove w _ _) as [[]|e]; events_of E;
      (apply (DeviceMap.command_succeeds _ _ real _ [_]);
       [done|by destruct (_bootloader_force _)]).
Qed.

Lemma device_map_is_there_for_grub2_install_witness :
  DeviceMap.installed "/dev/sda" (DeviceMap.path "/mnt/tmp0")
    (new_events (_install_bootloader__grub2 DeviceMap.install_fails) DeviceMap.start)
    (fst (_install_bootloader__grub2 DeviceMap.install_fails DeviceMap.start)).
Proof.
  apply (device_map_is_there_for_grub2_install
           DeviceMap.install_fails DeviceMap.start "/mnt/tmp0"); reflexivity.
Defined.

(** grub-install exits with 1: the device map stays where it was
    written.  When it succeeds, the device map is removed. *)
Example device_map_is_left_when_the_install_fails :
  let file_events (w : world) :=
    List.filter (fun ev => negb (DeviceMap.quiet ev))
      (log (snd (_install_bootloader__grub2 w DeviceMap.start))) in
  file_events DeviceMap.install_fails
  = [File_write "/mnt/tmp0/boot/grub/device.map"
       ("(hd0)" +:+ tab +:+ "/dev/sda" +:+ newline) (Ok tt);
     Executor_check_call
       ["grub-install"; "--boot-directory"; "/mnt/tmp0/boot"; "(hd0)"] None
       (Raise (CalledProcessError 1
                 ["grub-install"; "--boot-directory"; "/mnt/tmp0/boot"; "(hd0)"]))]
  /\ file_events Mock.happy
     = [File_write "/mnt/tmp0/boot/grub/device.map"
          ("(hd0)" +:+ tab +:+ "/dev/sda" +:+ newline) (Ok tt);
        Executor_check_call
          ["grub-install"; "--boot-directory"; "/mnt/tmp0/boot"; "(hd0)"] None (Ok tt);
        Os_remove "/mnt/tmp0/boot/grub/device.map" (Ok tt)].
Proof. vm_compute. split; reflexivity. Qed.


(** ** Detection of grub2-install (C9) *)

Lemma find_command_in_searched w command dirs s :
  exists l r,
    _find_command_in w dirs command s
    = (match r with
       | Some p => Ok p
       | None =>
           Raise (OSError _EXIT_COMMAND_NOT_FOUND
                    ("Command " +:+ dquote +:+ command +:+ dquote
                     +:+ " not found in PATH."))
       end, log_more l s)
    /\ Detect.searched command dirs l r.
Proof.
  revert s. induction dirs as [|d ds IH]; intros s.
  - exists [], None. rewrite log_more_nil. split; [reflexivity|constructor].
  - cbn [_find_command_in]. rewrite exec_path_exists.
    destruct (os_path_exists w (log s) (Py.join d command)).
    + exists [Os_path_exists (Py.join d command) true], (Some (Py.join d command)).
      split; [reflexivity|constructor].
    + destruct (IH (with_event (Os_path_exists (Py.join d command) false) s))
        as (l & r & -> & Hsearched).
      exists (Os_path_exists (Py.join d command) false :: l), r.
      split; [|by constructor].
      by rewrite with_event_log_more, log_more_more.
Qed.

Lemma find_command_searched w command path s :
  deref s os_environ !! "PATH" = Some path ->
  exists l r,
    _find_command w command s
    = (match r with
       | Some p => Ok p
       | None =>
           Raise (OSError _EXIT_COMMAND_NOT_FOUND
                    ("Command " +:+ dquote +:+ command +:+ dquote
                     +:+ " not found in PATH."))
       end, log_more l s)
    /\ Detect.searched command (Py.split_char ":" path) l r.
Proof.
  intros Hpath. unfold _find_command. rewrite exec_dict_getitem, Hpath.
  apply find_command_in_searched.
Qed.

(** C9.  With a host approach, no explicit grub2-install command and a
    PATH in the environment, in every world: detection records
    "grub2-install" and looks for it in the directories of PATH, in order;
    when it is found, detection returns and nothing is probed.  When it is
    not, detection records "grub-install" and looks for that; when that is
    not found either, detection returns normally with the fallback name
    recorded; when it is found, [grub-install --version] is run, and
    detection raises the GRUB legacy error exactly when the output contains
    "GRUB GRUB 0.". *)
Theorem grub2_install_is_detected (w : world) (s : state) (path : string) :
  Detect.host_grub2 (_bootloader_approach (self s)) = true ->
  Py.truthy (_command_grub2_install (self s)) = false ->
  deref s os_environ !! "PATH" = Some path ->
  Detect.detected (Py.split_char ":" path)
    (new_events (detect_grub2_install w) s)
    (fst (detect_grub2_install w s))
    (_command_grub2_install (self (snd (detect_grub2_install w s)))).
Proof.
  intros Hhost Hnone Hpath. unfold new_events.
  destruct (detect_grub2_install w s) as [r s'] eqn:E. simpl.
  unfold detect_grub2_install in E. unfold Detect.host_grub2 in Hhost.
  rewrite exec_tail in E. exec_in E. rewrite Hnone in E. exec_in E.
  rewrite Hhost in E. simpl negb in E. exec_in E.
  rewrite <- exec_tail in E. unfold try_except at 1 in E. exec_in E.
  destruct (find_command_searched w "grub2-install" path
              (with_self (set__command_grub2_install (Some "grub2-install")) s) Hpath)
    as (l1 & [p1|] & Hf1 & Hs1).
  - (* grub2-install is on the PATH *)
    unfold bind at 1 in E. rewrite Hf1 in E. exec_in E. events_of E.
    by apply Detect.grub2_install_found with p1.
  - (* it is not: fall back to grub-install *)
    unfold bind at 1 in E. rewrite Hf1 in E. cbv beta iota in E.
    change (negb (_EXIT_COMMAND_NOT_FOUND =? _EXIT_COMMAND_NOT_FOUND)) with false in E.
    cbv iota in E. rewrite exec_tail in E. exec_in E.
    match type of E with
    | _ ?s2 = _ =>
        destruct (find_command_searched w "grub-install" path s2 Hpath)
          as (l2 & [p2|] & Hf2 & Hs2)
    end.
    + (* grub-install is on the PATH: probe it *)
      unfold bind at 1, try_except at 1 in E. exec_in E.
      unfold bind at 1 in E. rewrite Hf2 in E. exec_in E.
      unfold _protect_against_grub_legacy in E. exec_in E.
      unfold ret at 1 in E. cbv beta iota in E. exec_in E.
      destruct (subprocess_check_output w _ _) as [output|e] eqn:Hanswer; exec_in E.
      * destruct (Py.contains "GRUB GRUB 0." output) eqn:Hlegacy; exec_in E;
          events_of E.
        all: match goal with
             | |- Detect.detected _ _ ?r _ =>
                 replace r with (Detect.probed "grub-install" (Ok output))
                   by (unfold Detect.probed; by rewrite Hlegacy)
             end.
        all: by apply Detect.grub_install_found with p2.
      * events_of E.
        by apply (Detect.grub_install_found _ l1 l2 p2 (Raise e)).
    + (* neither is: the fallback name stays recorded *)
      unfold bind at 1, try_except at 1 in E. exec_in E.
      unfold bind at 1 in E. rewrite Hf2 in E. cbv beta iota in E.
      change (negb (_EXIT_COMMAND_NOT_FOUND =? _EXIT_COMMAND_NOT_FOUND)) with false in E.
      cbv iota in E. unfold ret at 1 in E. cbv beta iota in E. exec_in E.
      events_of E. rewrite app_nil_r || idtac.
      by apply Detect.nothing_found.
Qed.

Lemma grub2_install_is_detected_witness :
  Detect.detected ["/usr/sbin"; "/usr/bin"]
    (new_events (detect_grub2_install Detect.grub_legacy) Detect.start)
    (fst (detect_grub2_install Detect.grub_legacy Detect.start))
    (_command_grub2_install
       (self (snd (detect_grub2_install Detect.grub_legacy Detect.start)))).
Proof.
  apply (grub2_install_is_detected Detect.grub_legacy Detect.start "/usr/sbin:/usr/bin");
    reflexivity.
Defined.

(** GRUB legacy as the only grub-install of the host: detection refuses. *)
Example grub_legacy_is_refused :
  detect_grub2_install Detect.grub_legacy Detect.start
  = (Raise (Detect.legacy "grub-install"),
     {| self := set__command_grub2_install (Some "grub-install") Detect.engine1;
        log := [Os_path_exists "/usr/sbin/grub2-install" false;
                Os_path_exists "/usr/bin/grub2-install" false;
                Os_path_exists "/usr/sbin/grub-install" true;
                Subprocess_check_output ["grub-install"; "--version"]
                  (Ok ("grub-install (GRUB GRUB 0.93)" +:+ newline))];
        heap := [Mock.environ0] |}).
Proof. vm_compute. reflexivity. Qed.


(** ** The environments of scripts and commands (C10) *)

Lemma lookup_last {A} (h : list A) (d : A) : (h ++ [d]) !! length h = Some d.
Proof. by rewrite list_lookup_middle. Qed.

Lemma insert_last {A} (h : list A) (d d' : A) : <[length h := d']> (h ++ [d]) = h ++ [d'].
Proof.
  replace (length h) with (length h + 0)%nat by lia. by rewrite insert_app_r.
Qed.

Section DictLast.

Context {B : Type}.
Implicit Types (s : state) (h : list dict) (d : dict).

Lemma exec_dict_pop_last key h d (k : unit -> M B) s :
  bind (dict_pop (length h) key) k (with_heap (h ++ [d]) s)
  = k tt (with_heap (h ++ [delete key d]) s).
Proof.
  unfold bind, dict_pop, deref, with_heap. simpl.
  by rewrite lookup_last, insert_last.
Qed.

Lemma exec_dict_update_last key v h d (k : unit -> M B) s :
  bind (dict_update (length h) key v) k (with_heap (h ++ [d]) s)
  = k tt (with_heap (h ++ [<[key := v]> d]) s).
Proof.
  unfold bind, dict_update, deref, with_heap. simpl.
  by rewrite lookup_last, insert_last.
Qed.

End DictLast.

(** [make_environment] allocates one dictionary, the copy of [os.environ]
    it has changed, and returns its location. *)
Lemma make_environment_made tell s environ :
  heap s !! os_environ = Some environ ->
  exists d,
    snd (make_environment tell s) = with_heap (heap s ++ [d]) s
    /\ (forall l, fst (make_environment tell s) = Ok l ->
        l = length (heap s)
        /\ d = Env.made environ (_hostname (self s))
                 (if tell then _abs_mountpoint (self s) else None)).
Proof.
  intros Henv. unfold make_environment. rewrite exec_dict_copy.
  unfold deref. rewrite Henv. simpl default. simpl for_each. cbv beta.
  rewrite !exec_bind, exec_dict_pop_last, !exec_bind, exec_dict_pop_last, exec_ret.
  rewrite exec_attr, !exec_dict_update_last. simpl self.
  destruct tell.
  - rewrite !exec_bind, exec_attr_str. simpl self.
    destruct (_abs_mountpoint (self s)) as [mp|].
    + rewrite ?exec_bind, !exec_dict_update_last.
      eexists. split; [reflexivity|]. by intros l [= <-].
    + eexists. split; [reflexivity|]. intros l [=].
  - rewrite exec_ret. eexists. split; [reflexivity|]. by intros l [= <-].
Qed.

Section Framed.

Variable w : world.
Variable d : dict.
Variable env : nat.

Local Abbreviation framed := (Env.framed d env).

Lemma framed_quiet {A} (m : M A) :
  (forall s, exists l,
      snd (m s) = log_more l s /\ Forall (Env.handed d) l) ->
  framed m.
Proof.
  intros H s _. destruct (H s) as (l & -> & Hl). exists l, []. simpl.
  by rewrite app_nil_r.
Qed.

Lemma framed_ret {A} (a : A) : framed (ret a).
Proof. apply framed_quiet. intros s. exists []. by rewrite log_more_nil. Qed.

Lemma framed_attr {A} (f : engine -> A) : framed (attr f).
Proof. apply framed_quiet. intros s. exists []. by rewrite log_more_nil. Qed.

Lemma framed_attr_str f : framed (attr_str f).
Proof.
  apply framed_quiet. intros s. exists []. rewrite log_more_nil.
  unfold attr_str. by destruct (f (self s)).
Qed.

Lemma framed_messenger_info msg : framed (messenger_info msg).
Proof. apply framed_quiet. intros s. exists [Messenger_info msg]. by repeat constructor. Qed.

Lemma framed_listdir p : framed (listdir w p).
Proof. apply framed_quiet. intros s. eexists [_]. by repeat constructor. Qed.

Lemma framed_bind {A B} (m : M A) (k : A -> M B) :
  framed m -> (forall a, framed (k a)) -> framed (bind m k).
Proof.
  intros Hm Hk s Hs. destruct (Hm s Hs) as (l1 & x1 & Hl1 & Hh1 & Hx1 & Hs1).
  unfold bind. destruct (m s) as [[a|e] s1]; simpl in *.
  - assert (Hs1' : heap s1 !! env = Some d)
      by (rewrite Hx1; by apply lookup_app_l_Some).
    destruct (Hk a s1 Hs1') as (l2 & x2 & Hl2 & Hh2 & Hx2 & Hs2).
    exists (l1 ++ l2), (x1 ++ x2).
    rewrite Hl2, Hl1, Hx2, Hx1, Hs2, Hs1, !app_assoc.
    split; [done|]. split; [by apply Forall_app|done].
  - by exists l1, x1.
Qed.

Lemma framed_for_each {A} (xs : list A) (body : A -> M unit) :
  (forall x, framed (body x)) -> framed (for_each xs body).
Proof.
  intros Hbody. induction xs as [|x xs IH]; simpl.
  - apply framed_ret.
  - apply framed_bind; [apply Hbody|by intros _].
Qed.

(** The command gets a copy of the dictionary at [env]: whatever it does
    to that copy, the dictionary at [env] stays as it is. *)
Lemma framed_copy_call cmd :
  framed (env' <- dict_copy env ;; check_call w cmd (Some env')).
Proof.
  intros s Hs. rewrite exec_dict_copy. unfold check_call, deref. simpl.
  rewrite Hs, lookup_last, insert_last. simpl.
  eexists [_], [_]. split; [reflexivity|]. by repeat constructor.
Qed.

Lemma run_scripts_from_framed dir : framed (_run_scripts_from w dir env).
Proof.
  unfold _run_scripts_from. apply framed_bind; [apply framed_listdir|intros names].
  apply framed_for_each. intros basename.
  destruct (negb _); [apply framed_ret|apply framed_copy_call].
Qed.

Lemma run_chroot_scripts_loop_framed names :
  framed
    (for_each names
       (fun basename =>
          if negb (_script_should_be_run basename) then ret tt
          else
            mountpoint <- attr_str _abs_mountpoint ;;
            let cmd_run :=
              [COMMAND_CHROOT; mountpoint;
               Py.join (Py.join "/" _CHROOT_SCRIPT_TARGET_DIR) basename] in
            env' <- dict_copy env ;;
            check_call w cmd_run (Some env'))).
Proof.
  apply framed_for_each. intros basename.
  destruct (negb _); [apply framed_ret|].
  apply framed_bind; [apply framed_attr_str|intros mountpoint].
  apply framed_copy_call.
Qed.

End Framed.

(** A phase: the announcement, [make_environment], and what is run with
    the environment made. *)
Lemma phase_framed tell msg (rest : nat -> M unit) s environ :
  (forall d env, Env.framed d env (rest env)) ->
  heap s !! os_environ = Some environ ->
  let m := (messenger_info msg ;; env <- make_environment tell ;; rest env) in
  exists l extra,
    log (snd (m s)) = log s ++ l
    /\ Forall (Env.handed
                 (Env.made environ (_hostname (self s))
                    (if tell then _abs_mountpoint (self s) else None))) l
    /\ heap (snd (m s)) = heap s ++ extra
    /\ self (snd (m s)) = self s.
Proof.
  intros Hrest Henv m. subst m. rewrite exec_messenger_info.
  set (s1 := with_event (Messenger_info msg) s).
  destruct (make_environment_made tell s1 environ Henv) as (d & Hs2 & Hd).
  unfold bind. destruct (make_environment tell s1) as [[env|e] s2]; simpl in *.
  - destruct (Hd env eq_refl) as [-> ->]. subst s2.
    set (made := Env.made _ _ _).
    destruct (Hrest made (length (heap s)) (with_heap (heap s ++ [made]) s1)
                (lookup_last _ _))
      as (l & extra & Hl & Hh & Hx & Hs).
    eexists (_ :: l), (_ :: extra). rewrite Hl, Hx, Hs. simpl.
    rewrite <- !app_assoc. split; [done|]. split; [|done].
    constructor; [done|exact Hh].
  - subst s2. eexists [_], [_]. simpl. split; [done|]. by repeat constructor.
Qed.

Lemma kept_app s s' extra : heap s' = heap s ++ extra -> Env.kept s s'.
Proof. intros H l d Hl. rewrite H. by apply lookup_app_l_Some. Qed.



(** Two scripts that empty their environment: both are handed the
    environment of the phase, and [os.environ] is as it was. *)
Example wrecked_environments_are_not_handed_on :
  let s' := snd (_run_pre_scripts Env.wrecking Env.start) in
  let made := Env.made Mock.environ0 "host1" (Some "/mnt/tmp0") in
  log s'
  = [Messenger_info "Running pre-chroot scripts...";
     Os_listdir "/scripts/pre" (Ok ["b"; "a"]);
     Executor_check_call ["/scripts/pre/a"] (Some made) (Ok tt);
     Executor_check_call ["/scripts/pre/b"] (Some made) (Ok tt)]
  /\ heap s' = [Mock.environ0; made; ∅; ∅].
Proof. split; vm_compute; reflexivity. Qed.

(** * Further properties of the engine *)

(** ** Scripts outside the chroot *)

Lemma string_leb_trans (a b c : string) :
  String.leb a b = true -> String.leb b c = true -> String.leb a c = true.
Proof.
  unfold String.leb. revert b c.
  induction a as [|x a IH]; intros [|y b] [|z c]; simpl; try done.
  destruct (Ascii.compare x y) eqn:Exy; try done;
    destruct (Ascii.compare y z) eqn:Eyz; try done.
  - apply Ascii.compare_eq_iff in Exy, Eyz. subst.
    assert (Hzz : Ascii.compare z z = Eq) by apply N.compare_refl.
    rewrite Hzz. apply IH.
  - apply Ascii.compare_eq_iff in Exy. subst. by rewrite Eyz.
  - apply Ascii.compare_eq_iff in Eyz. subst. by rewrite Exy.
  - intros _ _. unfold Ascii.compare in *.
    rewrite N.compare_lt_iff in Exy, Eyz.
    replace (_ ?= _)%N with Lt; [done|].
    symmetry. apply N.compare_lt_iff. lia.
Qed.

Lemma filter_sorted (f : string -> bool) l :
  Sorted (fun a b => String.leb a b = true) l ->
  Sorted (fun a b => String.leb a b = true) (List.filter f l).
Proof.
  intros Hs. apply Sorted_StronglySorted in Hs.
  2:{ intros a b c Hab Hbc. eapply string_leb_trans; eassumption. }
  apply StronglySorted_Sorted.
  induction Hs as [|x xs Hs IH Hx]; simpl; [constructor|].
  destruct (f x); [|exact IH].
  constructor; [exact IH|].
  rewrite Forall_forall in *. intros y Hy. apply Hx.
  apply list_elem_of_In in Hy. apply filter_In in Hy. apply list_elem_of_In. tauto.
Qed.

(** X1.  [_run_scripts_from], for every directory listing and in every
    world: when the directory cannot be listed, the error of the listing
    is raised and nothing is run.  Otherwise the scripts that may run,
    in ascending order of basename, are what is run: each as the
    single-word command <directory>/<basename>; when all of them succeed
    all of them have been run, and when one fails its error is raised and
    the scripts behind it are not run. *)
Theorem scripts_run_in_ascending_order_until_one_fails
    (w : world) (dir : string) (env : nat) (s : state) :
  let r := fst (_run_scripts_from w dir env s) in
  let l := new_events (_run_scripts_from w dir env) s in
  match os_listdir w (log s) dir with
  | Raise e => r = Raise e /\ l = [Os_listdir dir (Raise e)]
  | Ok names =>
      let scripts := Scripts.eligible (Py.sorted names) in
      Sorted (fun a b => String.leb a b = true) scripts
      /\ (forall b, In b scripts <-> In b names /\ _script_should_be_run b = true)
      /\ match r with
         | Ok _ =>
             Scripts.commands l = (fun b => [Py.join dir b]) <$> scripts
             /\ Forall Scripts.succeeded (Scripts.calls l)
         | Raise e =>
             exists before c,
               Scripts.calls l = before ++ [(c, Raise e)]
               /\ Forall Scripts.succeeded before
               /\ Scripts.commands l `prefix_of` ((fun b => [Py.join dir b]) <$> scripts)
         end
  end.
Proof.
  intros r l. subst r l.
  destruct (_run_scripts_from w dir env s) as [r s'] eqn:E.
  destruct (run_scripts_from_sorted w dir env s r s' E) as (l & Hl & H).
  unfold new_events. rewrite E. simpl. rewrite Hl, drop_app_length.
  destruct (os_listdir w (log s) dir) as [names|e].
  - split; [|split].
    + apply filter_sorted, sorted_sorted.
    + intros b. unfold Scripts.eligible. rewrite filter_In.
      assert (Hp := sorted_perm names).
      split; intros [H1 H2]; (split; [|done]).
      * apply list_elem_of_In. rewrite <- Hp. by apply list_elem_of_In.
      * apply list_elem_of_In. rewrite Hp. by apply list_elem_of_In.
    + unfold Scripts.commands, Scripts.calls in *. simpl. exact H.
  - destruct H as [-> ->]. done.
Qed.

(** ** The retry loops, in every world *)

Lemma new_events_log_more {A} (m : M A) s r l :
  m s = (r, log_more l s) -> new_events m s = l /\ fst (m s) = r.
Proof.
  intros H. unfold new_events. rewrite H. simpl. by rewrite drop_app_length.
Qed.

(** X2.  The retry loop of [_try_unmounting] and of [_kpartx_minus_d],
    in every world, whatever the command does from one attempt to the
    next: the command is attempted at most three times; an attempt that
    succeeds ends the loop; exit code 127, and any error that is not a
    [CalledProcessError], is raised at once; an attempt that fails with
    another code is followed by a sleep of 1 s; after the third such
    failure the step returns normally. *)
Theorem unmounting_is_retried (w : world) (s : state) :
  (forall abs_path,
     Activation.retried (Retry.cmd_umount abs_path) 3
       (new_events (_try_unmounting w abs_path) s)
       (fst (_try_unmounting w abs_path s)))
  /\ exists l,
       new_events (_kpartx_minus_d w) s
       = Messenger_info "Deactivating partition devices..." :: l
       /\ Activation.retried (Retry.cmd_kpartx_d (_abs_target_path (self s))) 3 l
            (fst (_kpartx_minus_d w s)).
Proof.
  split.
  - intros abs_path. destruct (_try_unmounting w abs_path s) as [r s'] eqn:E.
    pose proof E as E'. unfold _try_unmounting in E'. apply retry_loop_retried in E'.
    destruct E' as (l & -> & Hl).
    destruct (new_events_log_more _ _ _ _ E) as [-> _]. exact Hl.
  - destruct (_kpartx_minus_d w s) as [r s'] eqn:E.
    pose proof E as E'. unfold _kpartx_minus_d in E'.
    rewrite exec_messenger_info, exec_attr in E'.
    apply retry_loop_retried in E'. destruct E' as (l & -> & Hl).
    exists l. split; [|exact Hl].
    rewrite with_event_log_more, log_more_more in E.
    by destruct (new_events_log_more _ _ _ _ E) as [-> _].
Qed.

(** The loop of [_rmdir_mountpount]. *)
Lemma rmdir_loop_tried w path (xs : list nat) s r s' :
  _abs_mountpoint (self s) = Some path ->
  for_in xs
    (fun i =>
       try_except
         (mountpoint <- attr_str _abs_mountpoint ;;
          rmdir w mountpoint ;;
          ret Break)
         (fun e =>
            match e with
            | OSError errno _ =>
                if negb (errno =? EBUSY) then raise e
                else time_sleep 1 ;; ret Next
            | _ => raise e
            end))
    (ret tt) s = (r, s') ->
  exists l, s' = log_more l s /\ Rmdir.tried path (length xs) l r.
Proof.
  revert s. induction xs as [|x xs IH]; intros s Hmp; simpl.
  - intros [= <- <-]. exists []. by rewrite log_more_nil; split; [|constructor].
  - unfold bind at 1. unfold try_except at 1. rewrite exec_attr_str, Hmp.
    unfold bind at 1. unfold rmdir at 1.
    destruct (os_rmdir w (log s) path) as [[]|e] eqn:E.
    + unfold ret. intros [= <- <-]. eexists [_]. split; [reflexivity|]. constructor.
    + destruct e as [|errno msg| | | | | | |];
        try (unfold raise; intros [= <- <-]; eexists [_];
             split; [reflexivity|]; by constructor).
      destruct (errno =? EBUSY) eqn:Ec; simpl negb; cbv iota.
      * apply Z.eqb_eq in Ec. subst errno.
        unfold bind at 1. unfold time_sleep, emit at 1. unfold ret at 1.
        intros H. apply IH in H; [|exact Hmp]. destruct H as (l & -> & Hl).
        eexists (_ :: _ :: l). rewrite !with_event_log_more, !log_more_more.
        split; [reflexivity|]. by constructor.
      * unfold raise; intros [= <- <-]; eexists [_].
        split; [reflexivity|]. constructor. intros msg' [= -> _].
        by rewrite Z.eqb_refl in Ec.
Qed.

(** X3.  [_rmdir_mountpount], with the mountpoint set, in every world:
    after the announcement the directory is removed with at most three
    attempts; an attempt that fails with EBUSY is followed by a sleep of
    1 s, and after the third one the step returns normally, with the
    directory still there; every other error is raised at once. *)
Theorem rmdir_is_retried_while_busy (w : world) (s : state) (mountpoint : string) :
  _abs_mountpoint (self s) = Some mountpoint ->
  exists l,
    new_events (_rmdir_mountpount w) s
    = Messenger_info
        ("Removing directory " +:+ dquote +:+ mountpoint +:+ dquote +:+ "...") :: l
    /\ Rmdir.tried mountpoint 3 l (fst (_rmdir_mountpount w s)).
Proof.
  intros Hmp. destruct (_rmdir_mountpount w s) as [r s'] eqn:E.
  pose proof E as E'. unfold _rmdir_mountpount in E'.
  rewrite exec_attr, exec_messenger_info, Hmp in E'.
  apply rmdir_loop_tried with (path := mountpoint) in E'; [|exact Hmp].
  destruct E' as (l & -> & Hl). exists l. split; [|exact Hl].
  rewrite with_event_log_more, log_more_more in E.
  by destruct (new_events_log_more _ _ _ _ E) as [-> _].
Qed.

Lemma rmdir_is_retried_while_busy_witness :
  exists l,
    new_events (_rmdir_mountpount Rmdir.always_busy) Rmdir.start
    = Messenger_info
        ("Removing directory " +:+ dquote +:+ "/mnt/tmp0" +:+ dquote +:+ "...") :: l
    /\ Rmdir.tried "/mnt/tmp0" 3 l (fst (_rmdir_mountpount Rmdir.always_busy Rmdir.start)).
Proof.
  apply (rmdir_is_retried_while_busy Rmdir.always_busy Rmdir.start "/mnt/tmp0").
  reflexivity.
Defined.

(** A mountpoint that stays busy is left behind, and nothing is raised. *)
Example busy_mountpoint_is_left_behind :
  _rmdir_mountpount Rmdir.always_busy Rmdir.start
  = (Ok tt,
     log_more
       [Messenger_info ("Removing directory " +:+ dquote +:+ "/mnt/tmp0" +:+ dquote +:+ "...");
        Os_rmdir "/mnt/tmp0" (Raise (OSError EBUSY "Device or resource busy")); Time_sleep 1;
        Os_rmdir "/mnt/tmp0" (Raise (OSError EBUSY "Device or resource busy")); Time_sleep 1;
        Os_rmdir "/mnt/tmp0" (Raise (OSError EBUSY "Device or resource busy")); Time_sleep 1]
       Rmdir.start).
Proof. vm_compute. reflexivity. Qed.

(** ** Isolation comes first *)

Lemma unshare_begun w s :
  exists l,
    snd (_unshare w s) = log_more l s
    /\ match fst (_unshare w s) with
       | Ok _ =>
           exists e e',
             l = [Isolation.announced; Libc_unshare 0x04020000 0 e;
                  Libc_sethostname (_hostname (self s)) (Py.strlen (_hostname (self s))) 0 e']
       | Raise err => Isolation.begun w (_hostname (self s)) l (Raise err)
       end.
Proof.
  destruct (_unshare w s) as [r s'] eqn:E. simpl.
  unfold _unshare in E. rewrite exec_tail in E. exec_in E.
  change (Z.lor CLONE_NEWNS CLONE_NEWUTS) with 0x04020000 in E.
  destruct (libc_unshare w _ _) as [ret e] eqn:Eu. exec_in E. simpl fst in E. simpl snd in E.
  destruct (ret =? 0) eqn:Eret; simpl negb in E; cbv iota in E; exec_in E.
  - apply Z.eqb_eq in Eret. subst ret.
    destruct (libc_sethostname w _ _ _) as [ret' e'] eqn:Eh. exec_in E.
    simpl fst in E. simpl snd in E.
    destruct (ret' =? 0) eqn:Eret'; simpl negb in E; cbv iota in E; exec_in E;
      inversion E; subst; clear E; eexists; (split; [reflexivity|]).
    + apply Z.eqb_eq in Eret'. subst ret'. by exists e, e'.
    + apply Isolation.sethostname_failed. by apply Z.eqb_neq.
  - inversion E; subst; clear E. eexists. split; [reflexivity|].
    apply Isolation.unshare_failed. by apply Z.eqb_neq.
Qed.

(** X4.  Isolation comes first, in every world: a run begins with
    [unshare(CLONE_NEWNS | CLONE_NEWUTS)] and then [sethostname] with the
    configured hostname and its length.  When one of the two fails, the
    run ends there with an [OSError] that carries the errno of the call,
    or EPERM when the errno is 0, and nothing else has happened: no
    command is run, nothing is written, before the process is in its own
    mount and UTS namespaces under its own hostname. *)
Theorem nothing_happens_before_isolation (w : world) (s : state) :
  Isolation.begun w (_hostname (self s)) (new_events (run w) s) (fst (run w s)).
Proof.
  destruct (unshare_begun w s) as (l & Hs1 & Hl).
  destruct (run w s) as [r s'] eqn:E. pose proof E as E'.
  unfold run in E'. apply bind_inv in E'.
  destruct E' as [([] & s1 & E1 & E2)|(e & E1 & ->)]; rewrite E1 in Hs1, Hl; simpl in *.
  - destruct Hl as (e & e' & ->). subst s1.
    match type of E2 with
    | ?m _ = _ =>
        assert (Hrest : sat (fun _ => True) (all_events (fun _ => True)) m)
          by sat_auto all_events_side
    end.
    destruct (sat_elim _ _ _ _ _ _ Hrest I E2) as (rest & Hrest' & _).
    unfold new_events. rewrite E. simpl. rewrite Hrest'. simpl.
    rewrite <- app_assoc, drop_app_length. apply Isolation.isolated.
  - subst s'. destruct (new_events_log_more _ _ _ _ E) as [-> _]. exact Hl.
Qed.

(** Without the permission to unshare, and errno left at 0: EPERM. *)
Example unshare_without_permission :
  run Isolation.not_permitted Retry.start
  = (Raise (OSError EPERM "Unsharing Linux namespaces failed: Operation not permitted"),
     log_more [Isolation.announced; Libc_unshare 0x04020000 (-1) 0] Retry.start).
Proof. vm_compute. reflexivity. Qed.

(** ** The disk identifier in the MBR *)

Lemma set_disk_id_in_mbr_writes w s :
  exists l,
    snd (_set_disk_id_in_mbr w s) = log_more l s
    /\ match List.filter Mbr.is_raw_write l with
       | [] => True
       | [ev] =>
           exists d, _disk_id (self s) = Some d
                     /\ Mbr.writes_disk_id (_abs_target_path (self s)) d ev
       | _ => False
       end.
Proof.
  destruct (_set_disk_id_in_mbr w s) as [r s'] eqn:E. simpl.
  unfold _set_disk_id_in_mbr in E. rewrite exec_tail in E. exec_in E.
  destruct (_disk_id (self s)) as [d|] eqn:Ed; exec_in E.
  - destruct (Z.of_nat (length (byte_sequence d)) =? _DISK_ID_COUNT_BYTES) eqn:El;
      exec_in E.
    + apply Z.eqb_eq in El. unfold _DISK_ID_COUNT_BYTES in El.
      destruct (file_write_at w _ _ _ _) as [[]|e]; exec_in E; inversion E; subst;
        eexists [_; _]; (split; [reflexivity|]); simpl;
        exists d; (split; [reflexivity|]); repeat split; lia.
    + inversion E; subst. exists []. by rewrite log_more_nil.
  - inversion E; subst. exists []. by rewrite log_more_nil.
Qed.

Lemma no_raw_write_filter l :
  Forall (fun ev => Mbr.is_raw_write ev = false) l -> List.filter Mbr.is_raw_write l = [].
Proof.
  induction 1 as [|ev l Hev _ IH]; simpl; [done|]. by rewrite Hev.
Qed.

Ltac no_raw_write_side :=
  intros; unfold all_events; repeat constructor; simpl; try done.

(** X5.  The target device is written to directly at most once in a run,
    in every world: when a disk identifier is configured, its four bytes
    go to offset 440 of the target path; nothing else is ever written at
    an offset into a file, and nothing at all when no disk identifier is
    configured or when it is not four bytes long. *)
Theorem only_the_disk_id_is_written_to_the_device (w : world) (s : state) :
  match List.filter Mbr.is_raw_write (new_events (run w) s) with
  | [] => True
  | [ev] =>
      exists d, _disk_id (self s) = Some d
                /\ Mbr.writes_disk_id (_abs_target_path (self s)) d ev
  | _ => False
  end.
Proof.
  unfold new_events. destruct (run w s) as [r s'] eqn:E. simpl.
  unfold run in E.
  rewrite <- (exec_bind (_unshare w) (fun _ => _partition_device w)) in E.
  apply bind_inv in E. destruct E as [([] & s1 & E1 & E)|(e & E1 & ->)];
    (match type of E1 with
     | ?m s = _ =>
         assert (Hpre : sat (fun e => e = self s)
                          (all_events (fun ev => Mbr.is_raw_write ev = false)) m)
           by sat_auto no_raw_write_side
     end;
     destruct (sat_elim _ _ _ _ _ _ Hpre eq_refl E1) as (l0 & Hl0 & HQ0 & Hs1);
     unfold all_events in HQ0; apply no_raw_write_filter in HQ0).
  2:{ by rewrite Hl0, drop_app_length, HQ0. }
  destruct (set_disk_id_in_mbr_writes w s1) as (l1 & Hl1 & HQ1). rewrite Hs1 in HQ1.
  apply bind_inv in E. destruct E as [([] & s2 & E2 & E)|(e & E2 & ->)];
    rewrite E2 in Hl1; simpl in Hl1; subst.
  2:{ simpl. rewrite Hl0, <- app_assoc, drop_app_length, List.filter_app, HQ0. exact HQ1. }
  match type of E with
  | ?m _ = _ =>
      assert (Hrest : sat (fun _ => True)
                        (all_events (fun ev => Mbr.is_raw_write ev = false)) m)
        by sat_auto no_raw_write_side
  end.
  destruct (sat_elim _ _ _ _ _ _ Hrest I E) as (l2 & Hl2 & HQ2 & _).
  unfold all_events in HQ2. apply no_raw_write_filter in HQ2.
  rewrite Hl2. simpl. rewrite Hl0, <- !app_assoc, drop_app_length, !List.filter_app, HQ0, HQ2.
  rewrite app_nil_r. exact HQ1.
Qed.

(** With the identifier 0x78563412: one write of its four bytes. *)
Example disk_id_in_the_mock_run :
  List.filter Mbr.is_raw_write (log (snd (run Mock.happy Mbr.start)))
  = [File_write_at "/dev/sda" 440 [0x12; 0x34; 0x56; 0x78] (Ok tt)].
Proof. vm_compute. reflexivity. Qed.

(** ** The root password *)

Lemma make_environment_chroot s environ :
  heap s !! os_environ = Some environ ->
  make_environment false s
  = (Ok (length (heap s)),
     with_heap (heap s ++ [Env.made environ (_hostname (self s)) None]) s).
Proof.
  intros Henv. unfold make_environment. rewrite exec_dict_copy.
  unfold deref. rewrite Henv. simpl default. simpl for_each. cbv beta.
  rewrite !exec_bind, exec_dict_pop_last, !exec_bind, exec_dict_pop_last, exec_ret.
  rewrite exec_attr, !exec_dict_update_last. simpl self.
  by rewrite exec_ret.
Qed.

(** X6.  [_set_root_password_inside_chroot], with the mountpoint set and
    [os.environ] in the store, in every world.  Without a root password
    nothing is run.  With one, [chroot <mountpoint> chpasswd] is
    announced and started with the environment [make_environment]
    builds without the mountpoint; the password goes to the standard
    input of the process, as "root:<password>", and is part neither of
    the command line nor of what is announced; an exit code other than 0
    is raised as [CalledProcessError]; and [os.environ] stays as it is. *)
Theorem root_password_goes_to_stdin
    (w : world) (s : state) (mountpoint : string) (environ : dict) :
  _abs_mountpoint (self s) = Some mountpoint ->
  heap s !! os_environ = Some environ ->
  let l := new_events (_set_root_password_inside_chroot w) s in
  let r := fst (_set_root_password_inside_chroot w s) in
  Env.kept s (snd (_set_root_password_inside_chroot w s))
  /\ match _root_password (self s) with
     | None => l = [Messenger_info "Setting root password..."] /\ r = Ok tt
     | Some password =>
         exists answer,
           l = [Messenger_info "Setting root password...";
                Messenger_announce_command (Passwd.cmd mountpoint);
                Subprocess_Popen (Passwd.cmd mountpoint)
                  (Env.made environ (_hostname (self s)) None)
                  ("root:" +:+ password) answer]
           /\ r = Passwd.ended mountpoint answer
     end.
Proof.
  intros Hmp Henv l r. subst l r.
  destruct (_set_root_password_inside_chroot w s) as [r s'] eqn:E.
  pose proof E as E'. unfold _set_root_password_inside_chroot in E'.
  rewrite exec_tail in E'. exec_in E'.
  destruct (_root_password (self s)) as [password|]; exec_in E'.
  - rewrite Hmp in E'. exec_in E'.
    unfold bind at 1 in E'. rewrite (make_environment_chroot _ environ) in E' by exact Henv.
    exec_in E'. unfold deref in E'. autorewrite with state in E'.
    rewrite lookup_last in E'. simpl default in E'.
    fold (Passwd.cmd mountpoint) in E'.
    destruct (subprocess_Popen w _ _ _ _) as [rc|e] eqn:Ep in E'; exec_in E'.
    + destruct (rc =? 0) eqn:Erc; simpl negb in E'; cbv iota in E'; exec_in E';
        inversion E'; subst; clear E';
        (split; [by apply kept_app with [Env.made environ (_hostname (self s)) None]|]);
        unfold new_events; rewrite E; simpl; rewrite <- ?app_assoc, drop_app_length;
        eexists; (split; [reflexivity|]); simpl; by rewrite Erc.
    + inversion E'; subst; clear E'.
      split; [by apply kept_app with [Env.made environ (_hostname (self s)) None]|].
      unfold new_events; rewrite E; simpl; rewrite <- ?app_assoc, drop_app_length.
      eexists; (split; [reflexivity|]); done.
  - inversion E'; subst; clear E'.
    split; [apply kept_app with []; simpl; by rewrite app_nil_r|].
    unfold new_events. rewrite E. simpl. by rewrite drop_app_length.
Qed.

Lemma root_password_goes_to_stdin_witness :
  let m := _set_root_password_inside_chroot Mock.happy in
  Env.kept Passwd.start (snd (m Passwd.start))
  /\ exists answer,
       new_events m Passwd.start
       = [Messenger_info "Setting root password...";
          Messenger_announce_command (Passwd.cmd "/mnt/tmp0");
          Subprocess_Popen (Passwd.cmd "/mnt/tmp0")
            (Env.made Mock.environ0 "host1" None) ("root:" +:+ "secret") answer]
       /\ fst (m Passwd.start) = Passwd.ended "/mnt/tmp0" answer.
Proof.
  apply (root_password_goes_to_stdin Mock.happy Passwd.start "/mnt/tmp0" Mock.environ0);
    reflexivity.
Defined.

(** ** The scripts of the chroot phase *)

Lemma commands_app l1 l2 :
  Scripts.commands (l1 ++ l2) = Scripts.commands l1 ++ Scripts.commands l2.
Proof. unfold Scripts.commands. by rewrite calls_app, fmap_app. Qed.

Section Runs.

Variable w : world.
Variable e : engine.

Local Abbreviation runs := (Chroot.runs e).

Lemma runs_quiet {A} (m : M A) :
  (forall s, exists l, snd (m s) = log_more l s /\ Scripts.calls l = []) ->
  runs [] m.
Proof.
  intros H s Hs. destruct (H s) as (l & Hl & Hc). exists l. rewrite Hl. simpl.
  unfold Scripts.commands. rewrite Hc. simpl. by repeat split.
Qed.

Lemma runs_ret {A} (a : A) : runs [] (ret a).
Proof. apply runs_quiet. intros s. exists []. by rewrite log_more_nil. Qed.

Lemma runs_messenger_info msg : runs [] (messenger_info msg).
Proof. apply runs_quiet. intros s. by exists [Messenger_info msg]. Qed.

Lemma runs_make_environment tell : runs [] (make_environment tell).
Proof.
  intros s Hs. destruct (make_environment_silent tell s) as (r & h & H).
  exists []. rewrite H. simpl. rewrite app_nil_r. by repeat split.
Qed.

Lemma runs_check_call cmd env : runs [cmd] (check_call w cmd env).
Proof.
  intros s Hs. unfold check_call.
  destruct env; eexists [_]; simpl; (split; [reflexivity|]); (split; [done|]);
    (split; [done|]); intros [] H; (split; [done|]); by repeat constructor.
Qed.

Lemma runs_copy_call cmd env :
  runs [cmd] (env' <- dict_copy env ;; check_call w cmd (Some env')).
Proof.
  intros s Hs. rewrite exec_dict_copy. unfold check_call.
  eexists [_]. simpl. split; [reflexivity|]. split; [done|]. split; [done|].
  intros [] H. split; [done|]. by repeat constructor.
Qed.

Lemma runs_bind {A B} c1 c2 (m : M A) (k : A -> M B) :
  runs c1 m -> (forall a, runs c2 (k a)) -> runs (c1 ++ c2) (bind m k).
Proof.
  intros Hm Hk s Hs. destruct (Hm s Hs) as (l1 & Hl1 & Hs1 & Hp1 & Hok1).
  unfold bind. destruct (m s) as [[a|err] s1]; simpl in *.
  - destruct (Hok1 a eq_refl) as [Hc1 Hsucc1].
    destruct (Hk a s1 Hs1) as (l2 & Hl2 & Hs2 & Hp2 & Hok2).
    exists (l1 ++ l2). rewrite Hl2, Hl1, app_assoc. split; [done|]. split; [done|].
    rewrite commands_app, Hc1. split; [by apply prefix_app|].
    intros b Hb. destruct (Hok2 b Hb) as [Hc2 Hsucc2]. rewrite Hc2. split; [done|].
    rewrite calls_app. by apply Forall_app.
  - exists l1. split; [done|]. split; [done|].
    split; [by apply prefix_app_r|]. intros b [=].
Qed.

Lemma runs_bind_quiet {A B} c (m : M A) (k : A -> M B) :
  runs [] m -> (forall a, runs c (k a)) -> runs c (bind m k).
Proof. intros Hm Hk. by apply (runs_bind [] c). Qed.

Lemma runs_attr {A B} (f : engine -> A) c (k : A -> M B) :
  runs c (k (f e)) -> runs c (bind (attr f) k).
Proof. intros H s Hs. rewrite exec_attr, Hs. by apply H. Qed.

Lemma runs_attr_str {B} (f : engine -> option string) v c (k : string -> M B) :
  f e = Some v -> runs c (k v) -> runs c (bind (attr_str f) k).
Proof. intros Hf H s Hs. rewrite exec_attr_str, Hs, Hf. by apply H. Qed.

Lemma runs_attr_path {B} (f : engine -> option string) v c (k : string -> M B) :
  f e = Some v -> runs c (k v) -> runs c (bind (attr_path f) k).
Proof. intros Hf H s Hs. rewrite exec_attr_path, Hs, Hf. by apply H. Qed.

Lemma runs_listdir {B} dir names c (k : list string -> M B) :
  (forall h, os_listdir w h dir = Ok names) ->
  runs c (k names) -> runs c (bind (listdir w dir) k).
Proof.
  intros Hls H s Hs. rewrite exec_listdir, Hls.
  destruct (H (with_event (Os_listdir dir (Ok names)) s) Hs) as (l & Hl & Hs' & Hp & Hok).
  exists (Os_listdir dir (Ok names) :: l). rewrite Hl. simpl log.
  rewrite <- app_assoc. split; [done|]. split; [done|].
  change (Scripts.commands (Os_listdir dir (Ok names) :: l)) with (Scripts.commands l).
  change (Scripts.calls (Os_listdir dir (Ok names) :: l)) with (Scripts.calls l).
  by split.
Qed.

Lemma runs_for_each (c : string -> list (list string)) names (body : string -> M unit) :
  (forall b, _script_should_be_run b = true -> runs (c b) (body b)) ->
  runs (flat_map c (Scripts.eligible names))
    (for_each names
       (fun b => if negb (_script_should_be_run b) then ret tt else body b)).
Proof.
  intros Hbody. induction names as [|b names IH]; simpl; [apply runs_ret|].
  unfold Scripts.eligible in *. simpl.
  destruct (_script_should_be_run b) eqn:Eb; simpl.
  - apply runs_bind; [by apply Hbody|by intros _].
  - apply runs_bind_quiet; [apply runs_ret|by intros _].
Qed.

End Runs.

Lemma endswith_append_r suffix a b :
  Py.endswith suffix b = true -> Py.endswith suffix (a +:+ b) = true.
Proof.
  intros H. induction a as [|x a IH]; [exact H|].
  change (Py.endswith suffix (String x (a +:+ b)) = true).
  simpl. by rewrite IH, orb_true_r.
Qed.

(** A script below the mountpoint is where the chroot sees it. *)
Lemma target_is_inside mountpoint b :
  mountpoint <> EmptyString -> Py.endswith "/" mountpoint = false ->
  Py.startswith "/" b = false ->
  Chroot.target mountpoint b = mountpoint +:+ Chroot.inside b.
Proof.
  intros Hne Hslash Hb. unfold Chroot.target, Chroot.inside.
  assert (Hin : Py.join "/" _CHROOT_SCRIPT_TARGET_DIR = "/root/chroot-scripts/")
    by reflexivity.
  assert (Hout : Py.join mountpoint _CHROOT_SCRIPT_TARGET_DIR
                 = mountpoint +:+ "/root/chroot-scripts/").
  { unfold Py.join. simpl Py.startswith. cbv iota. rewrite Hslash.
    destruct (String.eqb_spec mountpoint EmptyString); [done|]. reflexivity. }
  rewrite Hin, Hout. unfold Py.join. rewrite Hb.
  rewrite (endswith_append_r "/" mountpoint "/root/chroot-scripts/") by reflexivity.
  change (Py.endswith "/" "/root/chroot-scripts/") with true.
  by rewrite !orb_true_r, append_assoc.
Qed.

Lemma fmap_flat_map {A B} (f : A -> B) (l : list A) :
  f <$> l = flat_map (fun x => [f x]) l.
Proof. induction l as [|x l IH]; [done|]. rewrite fmap_cons. simpl. by rewrite IH. Qed.

(** X7.  The three steps of the chroot scripts, with the mountpoint and
    the directory of the scripts set, in every world in which the
    directory lists the same names throughout: the scripts that may run
    are, in the order of the listing, copied below the mountpoint and
    made executable (after [mkdir] of their directory), run inside the
    chroot, and removed again (before [rmdir] of their directory).  Each
    step runs the first of its commands, in order, and all of them when
    it returns normally.  Below a mountpoint without a trailing slash, a
    script is copied to, and removed from, the path at which the chroot
    runs it. *)
Theorem chroot_scripts_are_copied_run_and_removed
    (w : world) (s : state) (mountpoint dir : string) (names : list string) :
  _abs_mountpoint (self s) = Some mountpoint ->
  _abs_scripts_dir_chroot (self s) = Some dir ->
  (forall h, os_listdir w h dir = Ok names) ->
  Chroot.runs (self s) (Chroot.copied mountpoint dir names) (_copy_chroot_scripts w)
  /\ Chroot.runs (self s) (Chroot.executed mountpoint names) (_run_chroot_scripts w)
  /\ Chroot.runs (self s) (Chroot.removed mountpoint names) (_remove_chroot_scripts w)
  /\ (mountpoint <> EmptyString -> Py.endswith "/" mountpoint = false ->
      forall b, Py.startswith "/" b = false ->
                Chroot.target mountpoint b = mountpoint +:+ Chroot.inside b).
Proof.
  intros Hmp Hdir Hls. split; [|split; [|split]].
  - unfold _copy_chroot_scripts, Chroot.copied.
    apply runs_bind_quiet; [apply runs_messenger_info|intros _].
    apply runs_attr_path with mountpoint; [done|].
    apply (runs_bind _ [_]); [apply runs_check_call|intros _].
    apply runs_attr_str with dir; [done|].
    apply runs_listdir with names; [done|].
    apply (runs_for_each _
             (fun b => [[_COMMAND_CP; Py.join dir b; Chroot.target mountpoint b];
                        [_COMMAND_CHMOD; "a+x"; Chroot.target mountpoint b]])).
    intros b _. apply (runs_bind _ [_] [_]); [apply runs_check_call|intros _].
    apply runs_check_call.
  - unfold _run_chroot_scripts, Chroot.executed.
    apply runs_bind_quiet; [apply runs_messenger_info|intros _].
    apply runs_bind_quiet; [apply runs_make_environment|intros env].
    apply runs_attr_str with dir; [done|].
    apply runs_listdir with names; [done|].
    replace ((fun b => [COMMAND_CHROOT; mountpoint; Chroot.inside b]) <$> Scripts.eligible names)
      with (flat_map (fun b => [[COMMAND_CHROOT; mountpoint; Chroot.inside b]])
              (Scripts.eligible names))
      by (symmetry; apply fmap_flat_map).
    apply (runs_for_each _ (fun b => [[COMMAND_CHROOT; mountpoint; Chroot.inside b]])).
    intros b _. apply runs_attr_str with mountpoint; [done|].
    apply runs_copy_call.
  - unfold _remove_chroot_scripts, Chroot.removed.
    apply runs_bind_quiet; [apply runs_messenger_info|intros _].
    apply runs_attr_str with dir; [done|].
    apply runs_listdir with names; [done|].
    replace ((fun b => [_COMMAND_RM; Chroot.target mountpoint b]) <$> Scripts.eligible names)
      with (flat_map (fun b => [[_COMMAND_RM; Chroot.target mountpoint b]])
              (Scripts.eligible names))
      by (symmetry; apply fmap_flat_map).
    apply runs_bind.
    + apply (runs_for_each _ (fun b => [[_COMMAND_RM; Chroot.target mountpoint b]])).
      intros b _. apply runs_attr_path with mountpoint; [done|].
      apply runs_check_call.
    + intros _. apply runs_attr_path with mountpoint; [done|]. apply runs_check_call.
  - intros Hne Hslash b Hb. by apply target_is_inside.
Qed.

Lemma chroot_scripts_are_copied_run_and_removed_witness :
  let e := self Scripts.start in
  Chroot.runs e (Chroot.copied "/mnt/tmpAbCdEf" "/scripts/chroot" Scripts.listing)
    (_copy_chroot_scripts Scripts.directory)
  /\ Chroot.runs e (Chroot.executed "/mnt/tmpAbCdEf" Scripts.listing)
       (_run_chroot_scripts Scripts.directory)
  /\ Chroot.runs e (Chroot.removed "/mnt/tmpAbCdEf" Scripts.listing)
       (_remove_chroot_scripts Scripts.directory)
  /\ ("/mnt/tmpAbCdEf" <> EmptyString -> Py.endswith "/" "/mnt/tmpAbCdEf" = false ->
      forall b, Py.startswith "/" b = false ->
                Chroot.target "/mnt/tmpAbCdEf" b = "/mnt/tmpAbCdEf" +:+ Chroot.inside b).
Proof.
  apply (chroot_scripts_are_copied_run_and_removed Scripts.directory Scripts.start
           "/mnt/tmpAbCdEf" "/scripts/chroot" Scripts.listing); reflexivity.
Defined.

(** The three steps on the directory of the example. *)
Example chroot_scripts_of_the_example :
  let commands (m : M unit) := Scripts.commands (new_events m Scripts.start) in
  commands (_copy_chroot_scripts Scripts.directory)
  = [["mkdir"; "/mnt/tmpAbCdEf/root/chroot-scripts/"];
     ["cp"; "/scripts/chroot/d"; "/mnt/tmpAbCdEf/root/chroot-scripts/d"];
     ["chmod"; "a+x"; "/mnt/tmpAbCdEf/root/chroot-scripts/d"];
     ["cp"; "/scripts/chroot/b"; "/mnt/tmpAbCdEf/root/chroot-scripts/b"];
     ["chmod"; "a+x"; "/mnt/tmpAbCdEf/root/chroot-scripts/b"];
     ["cp"; "/scripts/chroot/a"; "/mnt/tmpAbCdEf/root/chroot-scripts/a"];
     ["chmod"; "a+x"; "/mnt/tmpAbCdEf/root/chroot-scripts/a"]]
  /\ commands (_remove_chroot_scripts Scripts.directory)
     = [["rm"; "/mnt/tmpAbCdEf/root/chroot-scripts/d"];
        ["rm"; "/mnt/tmpAbCdEf/root/chroot-scripts/b"];
        ["rm"; "/mnt/tmpAbCdEf/root/chroot-scripts/a"];
        ["rmdir"; "/mnt/tmpAbCdEf/root/chroot-scripts/"]].
Proof. split; vm_compute; reflexivity. Qed.

(** ** Mounting and unmounting *)

Lemma unmount_loop w {A} (path : A -> string) (body : A -> M unit) e (xs : list A) :
  (forall x s, self s = e -> body x s = _try_unmounting w (path x) s) ->
  forall s r s',
    self s = e -> for_each xs body s = (r, s') ->
    exists l, s' = log_more l s /\ Mounts.unmounted (path <$> xs) l r.
Proof.
  intros Hbody. induction xs as [|x xs IH]; intros s r s' Hs; simpl.
  - intros [= <- <-]. exists []. rewrite log_more_nil. split; [done|constructor].
  - intros E. apply bind_inv in E. rewrite Hbody in E by exact Hs.
    destruct E as [([] & s1 & E1 & E)|(err & E1 & ->)];
      unfold _try_unmounting in E1; apply retry_loop_retried in E1;
      destruct E1 as (l1 & -> & Hl1).
    + apply IH in E; [|exact Hs]. destruct E as (l2 & -> & Hl2).
      exists (l1 ++ l2). rewrite log_more_more. split; [done|].
      by apply Mounts.unmounted_next.
    + exists l1. split; [done|]. by apply Mounts.unmounted_raised.
Qed.



(** X9.  [_unmount_directory_bootstrap_leftovers], with the mountpoint
    set, in every world: the mounts that [MountFinder] finds below the
    mountpoint are unmounted in the reverse order of the listing, each
    under the retry loop; when the mounts cannot be listed, the error is
    raised and nothing is unmounted. *)
Theorem bootstrap_leftovers_are_unmounted_in_reverse
    (w : world) (s : state) (mountpoint : string) :
  _abs_mountpoint (self s) = Some mountpoint ->
  let r := fst (_unmount_directory_bootstrap_leftovers w s) in
  let l := new_events (_unmount_directory_bootstrap_leftovers w) s in
  match mountfinder_below w (log s) mountpoint with
  | Ok mounts =>
      exists l', l = MountFinder_below mountpoint (Ok mounts) :: l'
                 /\ Mounts.unmounted (rev mounts) l' r
  | Raise e => l = [MountFinder_below mountpoint (Raise e)] /\ r = Raise e
  end.
Proof.
  intros Hmp r l. subst r l.
  destruct (_unmount_directory_bootstrap_leftovers w s) as [r s'] eqn:E.
  pose proof E as E'. unfold _unmount_directory_bootstrap_leftovers in E'.
  rewrite exec_attr_str, Hmp, exec_mounts_below in E'.
  destruct (mountfinder_below w (log s) mountpoint) as [mounts|e].
  - apply (unmount_loop w (fun p : string => p) _ (self s)) in E'; [|done|done].
    destruct E' as (l & -> & Hl). exists l. rewrite list_fmap_id in Hl.
    split; [|exact Hl].
    rewrite with_event_log_more, log_more_more in E.
    by destruct (new_events_log_more _ _ _ _ E) as [-> _].
  - inversion E'; subst; clear E'. rewrite with_event_log_more in E.
    by destruct (new_events_log_more _ _ _ _ E) as [-> _].
Qed.

Lemma bootstrap_leftovers_are_unmounted_in_reverse_witness :
  exists l',
    new_events (_unmount_directory_bootstrap_leftovers Mounts.leftovers) Rmdir.start
    = MountFinder_below "/mnt/tmp0" (Ok ["/mnt/tmp0/proc"; "/mnt/tmp0/dev"]) :: l'
    /\ Mounts.unmounted ["/mnt/tmp0/dev"; "/mnt/tmp0/proc"] l'
         (fst (_unmount_directory_bootstrap_leftovers Mounts.leftovers Rmdir.start)).
Proof.
  apply (bootstrap_leftovers_are_unmounted_in_reverse
           Mounts.leftovers Rmdir.start "/mnt/tmp0").
  reflexivity.
Defined.

(** ** Runs without a bootloader *)

Lemma none_is_not_host :
  String.eqb BOOTLOADER__NONE BOOTLOADER__HOST_GRUB2__DEVICE
  || String.eqb BOOTLOADER__NONE BOOTLOADER__HOST_GRUB2__DRIVE = false.
Proof. reflexivity. Qed.

Lemma none_is_not_chroot :
  String.eqb BOOTLOADER__NONE BOOTLOADER__CHROOT_GRUB2__DEVICE
  || String.eqb BOOTLOADER__NONE BOOTLOADER__CHROOT_GRUB2__DRIVE = false.
Proof. reflexivity. Qed.

Lemma none_is_none : negb (String.eqb BOOTLOADER__NONE BOOTLOADER__NONE) = false.
Proof. reflexivity. Qed.

Ltac approach_none_step :=
  match goal with
  | H : Bootloader.none ?e |- context [_bootloader_approach ?e] =>
      unfold Bootloader.none in H; rewrite H;
      rewrite ?none_is_not_host, ?none_is_not_chroot, ?none_is_none
  end.

Ltac not_a_step_side :=
  intros; unfold all_events, Bootloader.none in *;
  repeat match goal with
         | r : result _ |- _ => destruct r
         end;
  repeat constructor;
  unfold Bootloader.is_step;
  simpl; try done;
  try (apply not_true_is_false; intros Hmap;
       apply endswith_last_char in Hmap; [|done];
       rewrite last_char_join in Hmap by (simpl; congruence);
       simpl in Hmap; congruence).

Lemma run_without_bootloader w :
  sat Bootloader.none (all_events (fun ev => Bootloader.is_step ev = false)) (run w).
Proof.
  repeat first [approach_none_step | sat_step not_a_step_side].
Qed.

(** X10.  With the bootloader approach "none", in every world and
    however the run ends: no bootloader is installed and no GRUB
    configuration is generated.  The target path is never resolved, no
    device map is written or removed, the distribution is not asked for
    its grub2-install nor to generate grub.cfg, and grub.cfg is not
    post-processed. *)
Theorem approach_none_installs_no_bootloader (w : world) (s : state) :
  Bootloader.none (self s) ->
  Forall (fun ev => Bootloader.is_step ev = false) (new_events (run w) s).
Proof.
  intros Hnone. destruct (run_without_bootloader w s Hnone) as (l & Hl & HQ & _).
  by rewrite (new_events_app _ _ _ Hl).
Qed.

Lemma approach_none_installs_no_bootloader_witness :
  Forall (fun ev => Bootloader.is_step ev = false) (new_events (run Mock.happy) Retry.start).
Proof.
  apply (approach_none_installs_no_bootloader Mock.happy Retry.start). reflexivity.
Defined.

(** The same world with a host approach: the five steps that are left
    out with "none". *)
Example bootloader_steps_of_a_host_install :
  length
    (List.filter Bootloader.is_step
       (log (snd (run Mock.happy
                    (Mock.start (Mock.engine0 BOOTLOADER__HOST_GRUB2__DRIVE None None)
                       Mock.environ0)))))
  = 5%nat.
Proof. vm_compute. reflexivity. Qed.

(** ** The environment of the process *)

Section Keeps.

Variable w : world.
Variable environ : dict.

Local Abbreviation keeps := (Environ.keeps environ).

(** A computation that leaves the store as it is. *)
Lemma keeps_same {A} (m : M A) : (forall s, heap (snd (m s)) = heap s) -> keeps m.
Proof. intros H s Hs. by rewrite H. Qed.

Lemma keeps_bind {A B} (m : M A) (k : A -> M B) :
  keeps m -> (forall a, keeps (k a)) -> keeps (bind m k).
Proof.
  intros Hm Hk s Hs. specialize (Hm s Hs). unfold bind.
  destruct (m s) as [[a|e] s1]; simpl in *; [by apply Hk|done].
Qed.

Lemma keeps_ext {A} (m m' : M A) : (forall s, m s = m' s) -> keeps m' -> keeps m.
Proof. intros H Hm s Hs. rewrite H. by apply Hm. Qed.

Lemma keeps_bind_assoc {A B C} (m : M C) (g : C -> M A) (k : A -> M B) :
  keeps (bind m (fun c => bind (g c) k)) -> keeps (bind (bind m g) k).
Proof. apply keeps_ext. intros s. apply exec_bind. Qed.

Lemma keeps_bind_ret {A B} (a : A) (k : A -> M B) : keeps (k a) -> keeps (bind (ret a) k).
Proof. by apply keeps_ext. Qed.

Lemma keeps_try_finally {A} (body : M A) (final : M unit) :
  keeps body -> keeps final -> keeps (try_finally body final).
Proof.
  intros Hb Hf s Hs. specialize (Hb s Hs). unfold try_finally.
  destruct (body s) as [r s1]. simpl in Hb. specialize (Hf s1 Hb).
  by destruct (final s1) as [[[]|e] s2].
Qed.

Lemma keeps_try_except {A} (body : M A) (handler : exn -> M A) :
  keeps body -> (forall e, keeps (handler e)) -> keeps (try_except body handler).
Proof.
  intros Hb Hh s Hs. specialize (Hb s Hs). unfold try_except.
  destruct (body s) as [[a|e] s1]; simpl in *; [done|by apply Hh].
Qed.

Lemma keeps_for_each {A} (xs : list A) (body : A -> M unit) :
  (forall x, keeps (body x)) -> keeps (for_each xs body).
Proof.
  intros Hbody. induction xs as [|x xs IH]; simpl; [by apply keeps_same|].
  apply keeps_bind; [apply Hbody|by intros _].
Qed.

Lemma keeps_for_in {A} (xs : list A) (body : A -> M flow) (orelse : M unit) :
  (forall x, keeps (body x)) -> keeps orelse -> keeps (for_in xs body orelse).
Proof.
  intros Hbody Horelse. induction xs as [|x xs IH]; simpl; [done|].
  apply keeps_bind; [apply Hbody|]. intros []; [exact IH|by apply keeps_same].
Qed.

(** A new dictionary is never [os.environ]. *)
Lemma keeps_bind_dict_copy {B} l0 (k : nat -> M B) :
  (forall l, l <> os_environ -> keeps (k l)) -> keeps (bind (dict_copy l0) k).
Proof.
  intros Hk s Hs. rewrite exec_dict_copy. apply Hk.
  - intros Hl. apply lookup_lt_Some in Hs. unfold os_environ in *. lia.
  - simpl. by apply lookup_app_l_Some.
Qed.

(** What happens to another dictionary does not reach [os.environ]. *)
Lemma keeps_dict_pop l key : l <> os_environ -> keeps (dict_pop l key).
Proof. intros Hl s Hs. unfold dict_pop. simpl. by rewrite list_lookup_insert_ne. Qed.

Lemma keeps_dict_update l key v : l <> os_environ -> keeps (dict_update l key v).
Proof. intros Hl s Hs. unfold dict_update. simpl. by rewrite list_lookup_insert_ne. Qed.

Lemma keeps_check_call_env cmd l : l <> os_environ -> keeps (check_call w cmd (Some l)).
Proof. intros Hl s Hs. unfold check_call. simpl. by rewrite list_lookup_insert_ne. Qed.

Lemma keeps_check_call_any cmd env :
  (forall l, env = Some l -> l <> os_environ) -> keeps (check_call w cmd env).
Proof.
  intros Hl. destruct env as [l|]; [by apply keeps_check_call_env, Hl|].
  by apply keeps_same.
Qed.

Lemma keeps_distro_env method args l :
  l <> os_environ -> keeps (distro w method args (Some l)).
Proof. intros Hl s Hs. unfold distro. simpl. by rewrite list_lookup_insert_ne. Qed.

End Keeps.

(** A call that leaves the store as it is. *)
Ltac same_heap :=
  apply keeps_same; intros ?;
  try reflexivity;
  unfold_calls; simpl;
  repeat (match goal with
          | |- context [match ?x with _ => _ end] => destruct x; simpl
          end);
  reflexivity.

(** One step of a proof of [Environ.keeps environ m], by the shape of
    [m]; a location that a method hands to its continuation stays
    visible. *)
Ltac keeps_step :=
  cbn [fst snd];
  lazymatch goal with
  | |- Environ.keeps _ (bind (ret _) _) => apply keeps_bind_ret; cbv beta
  | |- Environ.keeps _ (bind (bind _ _) _) => apply keeps_bind_assoc
  | |- Environ.keeps _ (bind (dict_copy _) _) => apply keeps_bind_dict_copy; intros ? ?
  | |- Environ.keeps _ (bind (raise _) _) => apply keeps_bind; [same_heap|intros ?]
  | |- Environ.keeps _ (bind (attr _) _) => apply keeps_bind; [same_heap|intros ?]
  | |- Environ.keeps _ (bind (attr_str _) _) => apply keeps_bind; [same_heap|intros ?]
  | |- Environ.keeps _ (bind (attr_path _) _) => apply keeps_bind; [same_heap|intros ?]
  | |- Environ.keeps _ (@bind unit _ _ _) => apply keeps_bind; [|intros _]
  | |- Environ.keeps _ (bind (if ?b then _ else _) _) => destruct b
  | |- Environ.keeps _ (bind (match ?x with _ => _ end) _) => destruct x
  | |- Environ.keeps _ (bind ?m _) =>
      first [is_call m; apply keeps_bind; [|intros ?]
            |let h := head_of m in unfold h]
  | |- Environ.keeps _ (try_finally _ _) => apply keeps_try_finally
  | |- Environ.keeps _ (try_except _ _) => apply keeps_try_except; [|intros ?]
  | |- Environ.keeps _ (for_each _ _) => apply keeps_for_each; intros ?
  | |- Environ.keeps _ (for_in _ _ _) => apply keeps_for_in; [intros ?|]
  | |- Environ.keeps _ (if ?b then _ else _) => destruct b
  | |- Environ.keeps _ (match ?x with _ => _ end) => destruct x
  | |- Environ.keeps _ (dict_pop _ _) => apply keeps_dict_pop; assumption
  | |- Environ.keeps _ (dict_update _ _ _) => apply keeps_dict_update; assumption
  | |- Environ.keeps _ (check_call _ _ (Some _)) => apply keeps_check_call_env; assumption
  | |- Environ.keeps _ (distro _ _ _ (Some _)) => apply keeps_distro_env; assumption
  | |- Environ.keeps _ (ret _) => same_heap
  | |- Environ.keeps _ (raise _) => same_heap
  | |- Environ.keeps _ (attr _) => same_heap
  | |- Environ.keeps _ (attr_str _) => same_heap
  | |- Environ.keeps _ (attr_path _) => same_heap
  | |- Environ.keeps _ ?m =>
      first [is_call m; same_heap | let h := head_of m in unfold h]
  end.

Lemma run_keeps w environ : Environ.keeps environ (run w).
Proof. repeat keeps_step. Qed.

Lemma find_command_keeps w environ command :
  Environ.keeps environ (_find_command w command).
Proof.
  unfold _find_command. apply keeps_bind; [same_heap|intros path].
  induction (Py.split_char ":" path) as [|d ds IH]; simpl; [same_heap|].
  apply keeps_bind; [same_heap|intros found]. destruct found; [same_heap|exact IH].
Qed.

Lemma detect_grub2_install_keeps w environ :
  Environ.keeps environ (detect_grub2_install w).
Proof.
  repeat first [ apply find_command_keeps
               | apply keeps_bind; [apply find_command_keeps|intros ?]
               | keeps_step ].
Qed.

(** X11.  [os.environ] is never changed, in every world, also one whose
    commands and distribution hooks change the environment they are
    given, and however the run ends: after the detection of
    grub2-install and after the whole pipeline, [os.environ] holds what it
    held before.  Every environment that is handed out is a copy. *)
Theorem os_environ_is_never_changed (w : world) (s : state) (environ : dict) :
  heap s !! os_environ = Some environ ->
  heap (snd (detect_grub2_install w s)) !! os_environ = Some environ
  /\ heap (snd (run w s)) !! os_environ = Some environ.
Proof.
  intros Hs. split; [by apply detect_grub2_install_keeps|by apply run_keeps].
Qed.

Lemma os_environ_is_never_changed_witness :
  heap (snd (detect_grub2_install Env.wrecking Env.start)) !! os_environ
  = Some Mock.environ0
  /\ heap (snd (run Env.wrecking Env.start)) !! os_environ = Some Mock.environ0.
Proof.
  apply (os_environ_is_never_changed Env.wrecking Env.start Mock.environ0). reflexivity.
Defined.

(** ** The root password, before the pipeline *)

(** What is in front of the first line end holds no line end. *)
Lemma split_head_newline_free s : Py.contains newline (Py.split_head newline s) = false.
Proof.
  induction s as [|a s IH]; [reflexivity|].
  cbn [Py.split_head]. destruct (String.prefix newline (String a s)) eqn:E; [reflexivity|].
  cbn [Py.contains]. rewrite IH, orb_false_r.
  unfold newline in *. cbn [String.prefix] in *.
  destruct (ascii_dec _ a) as [Heq|Hne]; [|reflexivity].
  destruct s; discriminate E.
Qed.

(** X12.  [process_root_password], in every world.  A password file, when
    one is configured, wins over a password that is given: the file is
    read, the root password becomes its first line without the line end
    (the empty password for an empty file), so it never holds a line end,
    and nothing is warned about; when the file cannot be read the error
    is raised and the root password stays as it was.  Without a password
    file, a given password is warned about once and kept, and nothing
    happens when there is none. *)
Theorem password_file_wins (w : world) (s : state) :
  let r := fst (process_root_password w s) in
  let s' := snd (process_root_password w s) in
  let l := new_events (process_root_password w) s in
  if Py.truthy (_abs_root_password_file (self s)) then
    exists msg answer,
      l = [Messenger_info msg;
           File_readlines (Py.str (_abs_root_password_file (self s))) answer]
      /\ match answer with
         | Ok lines =>
             r = Ok tt
             /\ self s' = set__root_password (Some (PasswordFile.first_line lines)) (self s)
             /\ Py.contains newline (PasswordFile.first_line lines) = false
         | Raise e => r = Raise e /\ self s' = self s
         end
  else
    r = Ok tt /\ self s' = self s
    /\ l = match _root_password (self s) with
           | Some _ => [PasswordFile.warning]
           | None => []
           end.
Proof.
  intros r s' l. subst r s' l. unfold new_events.
  destruct (process_root_password w s) as [r s'] eqn:E. simpl.
  unfold process_root_password, read_file, messenger_warn in E.
  rewrite exec_tail in E. exec_in E.
  destruct (_abs_root_password_file (self s)) as [path|] eqn:Ef; simpl Py.truthy in *.
  - destruct (negb (path =? "")%string) eqn:Ept; exec_in E.
    + rewrite Ef in E. exec_in E.
      destruct (file_readlines w _ _) as [lines|e]; exec_in E;
        inversion E; subst; clear E; autorewrite with state;
        rewrite <- ?app_assoc, drop_app_length; simpl;
        eexists _, _; (split; [reflexivity|]); repeat split.
      apply split_head_newline_free.
    + destruct (_root_password (self s)); exec_in E; inversion E; subst; clear E;
        autorewrite with state; rewrite ?drop_app_length, ?drop_all;
        repeat split; reflexivity.
  - exec_in E.
    destruct (_root_password (self s)); exec_in E; inversion E; subst; clear E;
      autorewrite with state; rewrite ?drop_app_length, ?drop_all;
      repeat split; reflexivity.
Qed.

(** A file of two lines and a given password: the first line it is. *)
Example password_of_the_first_line :
  process_root_password PasswordFile.two_lines PasswordFile.start
  = (Ok tt,
     {| self := set__root_password (Some "secret") PasswordFile.engine1;
        log := [Messenger_info
                  ("Reading root password from file " +:+ dquote +:+ "/root/pw"
                   +:+ dquote +:+ "...");
                File_readlines "/root/pw" (Ok ["secret" +:+ newline; "more" +:+ newline])];
        heap := [Mock.environ0] |}).
Proof. vm_compute. reflexivity. Qed.

(** ** The error a run reports (C4) *)

Lemma raised_app l1 l2 : Errors.raised (l1 ++ l2) = Errors.raised l1 ++ Errors.raised l2.
Proof. apply omap_app. Qed.

#[global] Instance reported_sequential : Sequential Errors.reported.
Proof.
  split; [reflexivity|].
  intros l1 l2 o H1 H2. unfold Errors.reported in *. by rewrite raised_app, H1.
Qed.

#[global] Instance thrown_closed : Closed Errors.thrown.
Proof.
  split; unfold Errors.thrown.
  - reflexivity.
  - intros l1 l2 o H1 H2. rewrite raised_app, H2, app_nil_r. exact H1.
  - intros l1 l2 o e _ H2.
    rewrite raised_app. destruct (Errors.raised l2) as [|x xs] eqn:E; [discriminate|].
    rewrite <- H2. apply last_app_cons.
Qed.

Lemma reported_then_ok l1 l2 o :
  Errors.reported o l1 -> Errors.thrown None l2 -> Errors.reported o (l1 ++ l2).
Proof.
  unfold Errors.reported, Errors.thrown. intros H1 H2.
  by rewrite raised_app, H2, app_nil_r.
Qed.

Lemma reported_then_raise l1 l2 o e :
  Errors.reported o l1 -> Errors.thrown (Some e) l2 -> Errors.reported (Some e) (l1 ++ l2).
Proof.
  unfold Errors.reported, Errors.thrown. intros _ H2. left.
  rewrite raised_app. destruct (Errors.raised l2) as [|x xs] eqn:E; [discriminate|].
  rewrite <- H2. apply last_app_cons.
Qed.

Section SatSet.

Variable w : world.
Variable I : engine -> Prop.
Variable Φ : option exn -> list event -> Prop.
Context `{!Sequential Φ}.

(** An attribute that the engines satisfying [I] have set. *)
Lemma sat_bind_attr_str_set {B} (f : engine -> option string) (k : string -> M B) :
  (forall e, I e -> is_Some (f e)) ->
  (forall e v, I e -> f e = Some v -> sat I Φ (k v)) ->
  sat I Φ (bind (attr_str f) k).
Proof.
  intros Hset Hk s Hs. rewrite exec_attr_str.
  destruct (Hset _ Hs) as [v E]. rewrite E. apply (Hk (self s) v Hs E s Hs).
Qed.

Lemma sat_bind_attr_path_set {B} (f : engine -> option string) (k : string -> M B) :
  (forall e, I e -> is_Some (f e)) ->
  (forall e v, I e -> f e = Some v -> sat I Φ (k v)) ->
  sat I Φ (bind (attr_path f) k).
Proof.
  intros Hset Hk s Hs. rewrite exec_attr_path.
  destruct (Hset _ Hs) as [v E]. rewrite E. apply (Hk (self s) v Hs E s Hs).
Qed.

(** A step after which the engine satisfies the stronger [J]. *)
Lemma sat_bind_with (J : engine -> Prop) {A B} (m : M A) (k : A -> M B) :
  (forall e, J e -> I e) ->
  (forall s a s', I (self s) -> m s = (Ok a, s') -> J (self s')) ->
  sat I Φ m -> (forall a, sat J Φ (k a)) -> sat I Φ (bind m k).
Proof.
  intros HJ Hpost Hm Hk. apply sat_intro. intros s r s' Hs E.
  apply bind_inv in E. destruct E as [(a & s1 & E1 & E2)|(e & E1 & ->)].
  - destruct (sat_elim _ _ _ _ _ _ Hm Hs E1) as (l1 & Hl1 & HΦ1 & Hs1).
    destruct (sat_elim _ _ _ _ _ _ (Hk a) (Hpost _ _ _ Hs E1) E2) as (l2 & Hl2 & HΦ2 & Hs2).
    exists (l1 ++ l2). rewrite Hl2, Hl1, app_assoc. split; [done|]. split; [|by apply HJ].
    simpl in HΦ1. by apply seq_app.
  - by apply (sat_elim _ _ _ _ _ _ Hm Hs E1).
Qed.

(** The child of [Popen], and the check of its return code. *)
Lemma sat_popen_checked cmd env input :
  (forall d e, Φ (Some e) [Subprocess_Popen cmd d input (Raise e)]) ->
  (forall d, Φ None [Subprocess_Popen cmd d input (Ok 0)]) ->
  (forall d returncode, returncode <> 0 ->
     Φ (Some (CalledProcessError returncode cmd)) [Subprocess_Popen cmd d input (Ok returncode)]) ->
  sat I Φ
    (returncode <- popen_communicate w cmd env input ;;
     if negb (returncode =? 0) then raise (CalledProcessError returncode cmd)
     else ret tt).
Proof.
  intros Hraise Hok Hcode s Hs. rewrite exec_popen_communicate.
  destruct (subprocess_Popen w _ _ _ _) as [rc|e]; simpl.
  - destruct (rc =? 0) eqn:E; simpl; eexists [_]; (split; [reflexivity|]); (split; [|done]).
    + apply Z.eqb_eq in E. subst rc. apply Hok.
    + apply Z.eqb_neq in E. by apply Hcode.
  - eexists [_]. split; [reflexivity|]. split; [apply Hraise|done].
Qed.

(** The loop of [_rmdir_mountpount], with the mountpoint set. *)
Lemma sat_rmdir_loop_set (xs : list nat) :
  (forall e, I e -> is_Some (_abs_mountpoint e)) ->
  (forall p, Φ None [Os_rmdir p (Ok tt)]) ->
  (forall p e, (forall m, e <> OSError EBUSY m) -> Φ (Some e) [Os_rmdir p (Raise e)]) ->
  (forall p m, Φ None [Os_rmdir p (Raise (OSError EBUSY m)); Time_sleep 1]) ->
  sat I Φ
    (for_in xs
       (fun i =>
          try_except
            (mountpoint <- attr_str _abs_mountpoint ;;
             rmdir w mountpoint ;;
             ret Break)
            (fun e =>
               match e with
               | OSError errno _ =>
                   if negb (errno =? EBUSY) then raise e
                   else time_sleep 1 ;; ret Next
               | _ => raise e
               end))
       (ret tt)).
Proof.
  intros Hset Hok Hfatal Hagain.
  induction xs as [|x xs IH]; simpl; [apply (sat_ret I Φ)|].
  apply sat_intro. intros s r s' Hs E.
  unfold bind at 1, try_except at 1 in E.
  rewrite exec_attr_str in E.
  destruct (Hset _ Hs) as [mp Emp]. rewrite Emp in E.
  rewrite exec_rmdir in E.
  destruct (os_rmdir w (log s) mp) as [[]|e] eqn:Er.
  - unfold ret at 1 in E. cbv beta iota in E. unfold ret at 1 in E.
    inversion E; subst.
    eexists [_]. split; [done|]. split; [apply Hok|done].
  - cbv beta iota in E.
    destruct e as [? ?|errno m| | | | | | |];
      try (unfold raise at 1 in E; inversion E; subst; eexists [_];
           split; [done|]; split; [|done];
           apply Hfatal; intros m'; discriminate).
    destruct (errno =? EBUSY) eqn:Eb; cbn [negb] in E; cbv beta iota in E.
    + apply Z.eqb_eq in Eb. subst errno.
      rewrite exec_time_sleep in E. unfold ret at 1 in E. cbv beta iota in E.
      assert (Hs1 : I (self (with_event (Time_sleep 1)
                               (with_event (Os_rmdir mp (Raise (OSError EBUSY m))) s))))
        by done.
      destruct (sat_elim _ _ _ _ _ _ IH Hs1 E) as (l & Hl & HΦ & Hs').
      eexists (_ :: _ :: l). rewrite Hl. simpl. rewrite <- !app_assoc.
      split; [done|]. split; [|done].
      apply (seq_app [_; _] l); [apply Hagain|exact HΦ].
    + unfold raise at 1 in E. inversion E; subst.
      eexists [_]. split; [done|]. split; [|done].
      apply Hfatal. intros m' [= -> _]. by rewrite Z.eqb_refl in Eb.
Qed.

End SatSet.

Ltac reported_finish :=
  unfold Errors.engine_raised, Py.startswith; simpl;
  rewrite ?string_prefix_empty; case_strings;
  first [ reflexivity
        | left; reflexivity
        | right; simpl; auto 10
        | idtac ].

Ltac reported_side :=
  intros;
  first
    [ assumption
    | unfold Errors.reported, Errors.thrown, Errors.raised, _EXIT_COMMAND_NOT_FOUND in *;
      repeat match goal with
             | H : _ <> 127 |- _ =>
                 apply Z.eqb_neq in H; simpl; unfold _EXIT_COMMAND_NOT_FOUND;
                 rewrite ?H; simpl
             | H : _ <> 0 |- _ =>
                 apply Z.eqb_neq in H; simpl; rewrite ?H; simpl
             | H : Activation.fatal ?e |- _ =>
                 destruct e; simpl in H; try subst
             | H : forall m, ?e <> OSError EBUSY m |- _ =>
                 destruct e as [? ?|errno ?| | | | | | |];
                 [ | destruct (errno =? EBUSY) eqn:Ebusy;
                     [apply Z.eqb_eq in Ebusy; subst errno; exfalso; by eapply H
                     |simpl; rewrite ?Ebusy]
                   | .. ]; clear H
             | r : result _ |- _ => destruct r
             | |- context [if ?b then _ else _] => destruct b eqn:?
             end;
      simpl;
      first [ solve [reported_finish]
            | match goal with
              | e : exn |- _ => destruct e; solve [reported_finish]
              end ] ].

(** The attributes that are set while the pipeline is under way. *)
Ltac underway_side :=
  let H := fresh in
  intros ? H; destruct H as [? H]; first [assumption|rewrite H; by eexists].

Ltac reported_step :=
  lazymatch goal with
  | |- sat ?I Errors.reported (try_finally _ _) =>
      apply (sat_try_finally_with I Errors.reported Errors.thrown);
      [exact reported_then_ok|exact reported_then_raise| |]
  | |- sat ?I ?Φ (bind (popen_communicate _ _ _ _) _) =>
      apply (sat_popen_checked _ I Φ); solve [reported_side]
  | |- sat (Errors.configured ?d) ?Φ (bind (_mkdir_mountpount _) _) =>
      apply (sat_bind_with (Errors.configured d) Φ (Errors.underway d));
      [by intros ? [? ?]
      |let E := fresh in
       intros ? ? ? ? E; unfold _mkdir_mountpount in E; rewrite exec_tail in E;
       exec_in E; destruct (tempfile_mkdtemp _ _ _); exec_in E; inversion E; subst;
       split; [by eexists|assumption]
      | |intros _]
  | |- sat (Errors.underway ?d) ?Φ (bind (attr _abs_scripts_dir_chroot) _) =>
      let Hd := fresh in
      apply (sat_bind_attr (Errors.underway d) Φ); intros ? [? Hd]; rewrite Hd; clear Hd;
      destruct d as [?|];
      [destruct (Py.truthy _)|change (Py.truthy None) with false; cbv iota]
  | |- sat ?I Errors.thrown (bind (attr_str _) _) =>
      apply (sat_bind_attr_str_set I Errors.thrown); [solve [underway_side]|intros ? ? ? ?]
  | |- sat ?I Errors.thrown (bind (attr_path _) _) =>
      apply (sat_bind_attr_path_set I Errors.thrown); [solve [underway_side]|intros ? ? ? ?]
  | |- sat ?I Errors.thrown (for_in _ (fun _ => try_except (bind (attr_str _) _) _) _) =>
      apply (sat_rmdir_loop_set _ I Errors.thrown); solve [underway_side|reported_side]
  | |- _ => sat_step reported_side
  end.

Lemma run_reported w d : sat (Errors.configured d) Errors.reported (run w).
Proof. repeat reported_step. Qed.

(** ** Scopes and release steps (C1, C4) *)

Lemma idle_app l1 l2 : Cleanup.idle l1 -> Cleanup.idle l2 -> Cleanup.idle (l1 ++ l2).
Proof. intros H1 H2. by apply Forall_app. Qed.

Lemma idle_nil : Cleanup.idle [].
Proof. constructor. Qed.

Lemma lenient_idle : Cleanup.lenient Cleanup.idle.
Proof. split; [done|apply idle_app]. Qed.

Lemma lenient_scoped {A} (acq : A -> event) rel inner :
  Cleanup.lenient (Cleanup.scoped acq rel inner).
Proof.
  split; [apply Cleanup.scoped_idle|].
  intros l1 l2 H1 [l H|x l0 la lb H0 Hin Hrel].
  - apply Cleanup.scoped_idle. by apply idle_app.
  - rewrite app_assoc. apply Cleanup.scoped_held; [by apply idle_app|done|done].
Qed.

Lemma lenient_then_idle P : Cleanup.lenient P -> Cleanup.lenient (Cleanup.then_idle P).
Proof.
  intros [Hidle Hpre]. split.
  - intros l H. exists l, []. rewrite app_nil_r. split; [done|]. split; [by apply Hidle|constructor].
  - intros l1 l2 H1 (la & lb & -> & Ha & Hb). exists (l1 ++ la), lb.
    rewrite app_assoc. split; [done|]. split; [by apply Hpre|done].
Qed.

Lemma retried_idle cmd n l r :
  Cleanup.acquires (Executor_check_call cmd None (Ok tt)) = false ->
  (forall e, Cleanup.acquires (Executor_check_call cmd None (Raise e)) = false) ->
  Activation.retried cmd n l r -> Cleanup.idle l.
Proof.
  intros Hok Hraise. induction 1; repeat constructor; auto.
Qed.

Lemma tried_idle path n l r : Rmdir.tried path n l r -> Cleanup.idle l.
Proof. induction 1; repeat constructor; auto. Qed.

Ltac retried_is_idle H :=
  eapply retried_idle; [| |exact H]; [reflexivity|intros; reflexivity].

Lemma unmounted_idle paths l r : Mounts.unmounted paths l r -> Cleanup.idle l.
Proof.
  induction 1 as [|p ps l1 l2 r H1 H2 IH|p ps l e H1]; [constructor| |].
  - apply idle_app; [|exact IH]. retried_is_idle H1.
  - retried_is_idle H1.
Qed.

Lemma deactivated_idle t l : Cleanup.deactivated t l -> Cleanup.idle l.
Proof.
  intros (a & r & -> & H). constructor; [done|]. retried_is_idle H.
Qed.

Lemma directory_removed_idle mp l : Cleanup.directory_removed mp l -> Cleanup.idle l.
Proof.
  intros (a & r & -> & H). constructor; [done|]. by eapply tried_idle.
Qed.

Lemma partition_unmounted_idle mp l : Cleanup.partition_unmounted mp l -> Cleanup.idle l.
Proof.
  intros (a & r & -> & H). constructor; [done|]. retried_is_idle H.
Qed.

Lemma non_disk_unmounted_idle mp l : Cleanup.non_disk_unmounted mp l -> Cleanup.idle l.
Proof.
  intros (a & r & -> & H). constructor; [done|]. by eapply unmounted_idle.
Qed.

Section Scoped.

Variable I : engine -> Prop.

Lemma emits_idle {A} (m : M A) :
  sat I (all_events (fun ev => Cleanup.acquires ev = false)) m ->
  forall P, Cleanup.lenient P -> Cleanup.emits I P m.
Proof.
  intros Hm P [Hidle _] s Hs. destruct (Hm s Hs) as (l & Hl & HQ & Hs').
  exists l. split; [done|]. split; [by apply Hidle|done].
Qed.

Lemma emits_prefix P {A B} (m : M A) (k : A -> M B) :
  Cleanup.lenient P ->
  sat I (all_events (fun ev => Cleanup.acquires ev = false)) m ->
  (forall a, Cleanup.emits I P (k a)) ->
  Cleanup.emits I P (bind m k).
Proof.
  intros [Hidle Hpre] Hm Hk s Hs. destruct (Hm s Hs) as (l1 & Hl1 & HQ & Hs1).
  unfold bind. destruct (m s) as [[a|e] s1]; simpl in *.
  - destruct (Hk a s1 Hs1) as (l2 & Hl2 & HP & Hs2).
    exists (l1 ++ l2). rewrite Hl2, Hl1, app_assoc. split; [done|].
    split; [by apply Hpre|done].
  - exists l1. split; [done|]. split; [by apply Hidle|done].
Qed.

(** The acquiring step stands in front of the [try]: when it has
    returned normally, the body runs inside the scope and the release
    step ends it. *)
Lemma emits_scope {X A} (acq : X -> event) rel inner (J : X -> engine -> Prop)
    (a : M unit) (body : M A) (c : M unit) :
  Cleanup.acquiring I acq J false a ->
  (forall x, Cleanup.lenient (inner x)) ->
  (forall x, Cleanup.emits (J x) (inner x) body) ->
  (forall x, Cleanup.emits (J x) (rel x) c) ->
  (forall x e, J x e -> I e) ->
  Cleanup.emits I (Cleanup.scoped acq rel inner) (bind a (fun _ => try_finally body c)).
Proof.
  intros Ha Hlen Hb Hc HJ s Hs. destruct (Ha s Hs) as (la & Hla & Hsa & Hacq).
  unfold bind. destruct (a s) as [[[]|e] s1]; simpl in *.
  - destruct Hacq as (x & l0 & l1 & -> & H0 & H1 & HJx).
    unfold try_finally. destruct (Hb x s1 HJx) as (lb & Hlb & Hin & Hsb).
    destruct (body s1) as [r2 s2]; simpl in *.
    destruct (Hc x s2 Hsb) as (lc & Hlc & Hrel & Hsc).
    exists ((l0 ++ acq x :: l1) ++ lb ++ lc).
    split.
    + destruct (c s2) as [[[]|e] s3]; simpl in *; by rewrite Hlc, Hlb, Hla, <- !app_assoc.
    + split.
      * rewrite <- app_assoc. simpl. rewrite (app_assoc l1).
        apply Cleanup.scoped_held; [done| |done]. by apply (Hlen x).
      * destruct (c s2) as [[[]|e] s3]; simpl in *; by eapply HJ.
  - exists la. split; [done|]. split; [|done].
    destruct Hacq as [Hidle|[[=] _]]. by apply Cleanup.scoped_idle.
Qed.

End Scoped.

Section Scoped2.

Variable I : engine -> Prop.

Lemma emits_ext P {A} (m m' : M A) :
  (forall s, m s = m' s) -> Cleanup.emits I P m' -> Cleanup.emits I P m.
Proof. intros E H s Hs. rewrite E. by apply H. Qed.

Lemma emits_then_idle P {A B} (m : M A) (k : A -> M B) :
  Cleanup.lenient P ->
  Cleanup.emits I P m ->
  (forall a, sat I (all_events (fun ev => Cleanup.acquires ev = false)) (k a)) ->
  Cleanup.emits I (Cleanup.then_idle P) (bind m k).
Proof.
  intros [Hidle _] Hm Hk s Hs. destruct (Hm s Hs) as (l1 & Hl1 & HP & Hs1).
  unfold bind. destruct (m s) as [[a|e] s1]; simpl in *.
  - destruct (Hk a s1 Hs1) as (l2 & Hl2 & HQ & Hs2).
    exists (l1 ++ l2). rewrite Hl2, Hl1, app_assoc. split; [done|].
    split; [by exists l1, l2|done].
  - exists l1. split; [done|]. split; [|done].
    exists l1, []. rewrite app_nil_r. split; [done|]. split; [done|constructor].
Qed.

(** The release step is followed by more steps of the pipeline. *)
Lemma emits_scope_then {X A B} (acq : X -> event) rel inner (J : X -> engine -> Prop)
    (a : M unit) (body : M A) (c : M unit) (post : A -> M B) :
  Cleanup.acquiring I acq J false a ->
  (forall x, Cleanup.lenient (inner x)) ->
  (forall x, Cleanup.emits (J x) (inner x) body) ->
  (forall x, Cleanup.emits (J x) (rel x) c) ->
  (forall x e, J x e -> I e) ->
  (forall x, sat I (all_events (fun ev => Cleanup.acquires ev = false)) (post x)) ->
  Cleanup.emits I (Cleanup.then_idle (Cleanup.scoped acq rel inner))
    (bind a (fun _ => bind (try_finally body c) post)).
Proof.
  intros Ha Hlen Hb Hc HJ Hpost.
  apply (emits_ext _ _ (bind (bind a (fun _ => try_finally body c)) post)).
  - intros s. by rewrite exec_bind.
  - apply emits_then_idle; [apply lenient_scoped| |exact Hpost].
    by apply (emits_scope I acq rel inner J).
Qed.

(** The acquiring step is the first one inside the [try]: the release
    step runs however it ends. *)
Lemma emits_scope_in {X A} (acq : X -> event) rel inner (J : X -> engine -> Prop)
    (a : M unit) (rest : M A) (c : M unit) :
  Cleanup.acquiring I acq J true a ->
  (forall x, Cleanup.lenient (inner x)) ->
  (forall x, Cleanup.emits (J x) (inner x) rest) ->
  (forall x, Cleanup.emits (J x) (rel x) c) ->
  (forall x e, J x e -> I e) ->
  Cleanup.emits I Cleanup.idle c ->
  Cleanup.emits I (Cleanup.scoped acq rel inner) (try_finally (bind a (fun _ => rest)) c).
Proof.
  intros Ha Hlen Hb Hc HJ Hci s Hs. destruct (Ha s Hs) as (la & Hla & Hsa & Hacq).
  unfold try_finally, bind. destruct (a s) as [[[]|e] s1]; simpl in *.
  - destruct Hacq as (x & l0 & l1 & -> & H0 & H1 & HJx).
    destruct (Hb x s1 HJx) as (lb & Hlb & Hin & Hsb).
    destruct (rest s1) as [r2 s2]; simpl in *.
    destruct (Hc x s2 Hsb) as (lc & Hlc & Hrel & Hsc).
    exists ((l0 ++ acq x :: l1) ++ lb ++ lc).
    split.
    + destruct (c s2) as [[[]|e] s3]; simpl in *; by rewrite Hlc, Hlb, Hla, <- !app_assoc.
    + split.
      * rewrite <- app_assoc. simpl. rewrite (app_assoc l1).
        apply Cleanup.scoped_held; [done| |done]. by apply (Hlen x).
      * destruct (c s2) as [[[]|e] s3]; simpl in *; by eapply HJ.
  - destruct Hacq as [Hidle|(_ & x & l0 & -> & H0 & HJx)].
    + destruct (Hci s1 Hsa) as (lc & Hlc & Hcidle & Hsc).
      exists (la ++ lc). split.
      * destruct (c s1) as [[[]|e'] s3]; simpl in *; by rewrite Hlc, Hla, <- !app_assoc.
      * split; [apply Cleanup.scoped_idle; by apply idle_app|].
        destruct (c s1) as [[[]|e'] s3]; simpl in *; done.
    + destruct (Hc x s1 HJx) as (lc & Hlc & Hrel & Hsc).
      exists ((l0 ++ [acq x]) ++ lc). split.
      * destruct (c s1) as [[[]|e'] s3]; simpl in *; by rewrite Hlc, Hla, <- !app_assoc.
      * split.
        -- rewrite <- app_assoc. simpl.
           apply (Cleanup.scoped_held acq rel inner x l0 [] lc); [done| |done].
           apply (Hlen x). constructor.
        -- destruct (c s1) as [[[]|e'] s3]; simpl in *; by eapply HJ.
Qed.

End Scoped2.

Ltac idle_side :=
  intros;
  first
    [ assumption
    | unfold all_events; repeat constructor;
      unfold Cleanup.acquires, Py.startswith;
      repeat match goal with
             | r : result _ |- _ => destruct r
             | |- context [if ?b then _ else _] => destruct b eqn:?
             end;
      simpl; case_strings; done ].

Ltac log_ok :=
  autorewrite with state; simpl; rewrite <- ?app_assoc; reflexivity.

Section Steps.

Variable w : world.
Variable t : string.

Lemma kpartx_minus_d_deactivated :
  Cleanup.emits (Cleanup.target_is t) (Cleanup.deactivated t) (_kpartx_minus_d w).
Proof.
  intros s Hs. destruct (_kpartx_minus_d w s) as [r s'] eqn:E. simpl.
  unfold _kpartx_minus_d in E. rewrite exec_messenger_info, exec_attr in E.
  apply retry_loop_retried in E. destruct E as (l & -> & Hl).
  exists (Messenger_info "Deactivating partition devices..." :: l).
  split; [log_ok|]. split; [|done].
  exists l, r. split; [done|]. unfold Cleanup.target_is in Hs. simpl in Hl.
  unfold Retry.cmd_kpartx_d. by rewrite <- Hs.
Qed.

Lemma rmdir_mountpount_removed mp :
  Cleanup.emits (Cleanup.mountpoint_is t mp) (Cleanup.directory_removed mp) (_rmdir_mountpount w).
Proof.
  intros s Hs. destruct (_rmdir_mountpount w s) as [r s'] eqn:E. simpl.
  destruct Hs as [Ht Hmp].
  unfold _rmdir_mountpount in E. rewrite exec_attr, exec_messenger_info, Hmp in E.
  apply rmdir_loop_tried with (path := mp) in E; [|exact Hmp].
  destruct E as (l & -> & Hl). eexists (_ :: l).
  split; [log_ok|]. split; [|done].
  exists l, r. split; [done|exact Hl].
Qed.

Lemma unmount_disk_chroot_mounts_unmounted mp :
  Cleanup.emits (Cleanup.mountpoint_is t mp) (Cleanup.partition_unmounted mp)
    (_unmount_disk_chroot_mounts w).
Proof.
  intros s Hs. destruct (_unmount_disk_chroot_mounts w s) as [r s'] eqn:E. simpl.
  destruct Hs as [Ht Hmp].
  unfold _unmount_disk_chroot_mounts in E.
  rewrite exec_messenger_info, exec_attr_str in E. simpl in E. rewrite Hmp in E.
  unfold _try_unmounting in E.
  apply retry_loop_retried in E. destruct E as (l & -> & Hl). eexists (_ :: l).
  split; [log_ok|]. split; [|done].
  exists l, r. split; [done|exact Hl].
Qed.

Lemma unmount_nondisk_chroot_mounts_unmounted mp :
  Cleanup.emits (Cleanup.mountpoint_is t mp) (Cleanup.non_disk_unmounted mp)
    (_unmount_nondisk_chroot_mounts w).
Proof.
  intros s Hs. destruct (_unmount_nondisk_chroot_mounts w s) as [r s'] eqn:E. simpl.
  destruct Hs as [Ht Hmp].
  unfold _unmount_nondisk_chroot_mounts in E. rewrite exec_messenger_info in E.
  apply (unmount_loop w (fun task : string * list string * string =>
                           Py.join mp task.2) _ (self s)) in E.
  - destruct E as (l & -> & Hl). eexists (_ :: l).
    split; [log_ok|]. split; [|done].
    exists l, r. split; [done|exact Hl].
  - intros [[source options] target] s0 Hs0. cbv beta iota.
    by rewrite exec_attr_path, Hs0, Hmp.
  - done.
Qed.

Lemma format_partitions_acquiring :
  Cleanup.acquiring (Cleanup.target_is t) Cleanup.formatted (fun _ => Cleanup.target_is t) true
    (_format_partitions w).
Proof.
  intros s Hs. destruct (_format_partitions w s) as [r s'] eqn:E. simpl.
  unfold _format_partitions in E. rewrite exec_tail in E. exec_in E.
  destruct (_abs_first_partition_device (self s)) as [dev|]; exec_in E.
  - destruct (executor_check_call w _ _ _) as [[]|e] eqn:Ec; exec_in E;
      inversion E; subst; eexists [_; _]; (split; [reflexivity|]); (split; [done|]).
    + eexists (dev, Ok tt), [_], []. repeat split; try done; repeat constructor.
    + right. split; [done|]. eexists (dev, Raise e), [_]. repeat split; try done.
      repeat constructor.
  - inversion E; subst. eexists [_]. split; [reflexivity|]. split; [done|].
    left. repeat constructor.
Qed.

Lemma mkdir_mountpount_acquiring :
  Cleanup.acquiring (Cleanup.target_is t) Cleanup.made (Cleanup.mountpoint_is t) false (_mkdir_mountpount w).
Proof.
  intros s Hs. destruct (_mkdir_mountpount w s) as [r s'] eqn:E. simpl.
  unfold _mkdir_mountpount in E. rewrite exec_tail in E. exec_in E.
  destruct (tempfile_mkdtemp w (log s) _MOUNTPOINT_PARENT_DIR) as [mp|e];
    exec_in E; inversion E; subst.
  - eexists [_; _]. split; [reflexivity|]. split; [done|].
    eexists mp, [], [_]. repeat split; try done; repeat constructor.
  - eexists [_]. split; [reflexivity|]. split; [done|]. left. repeat constructor.
Qed.

Lemma mount_disk_chroot_mounts_acquiring mp :
  Cleanup.acquiring (Cleanup.mountpoint_is t mp) (Cleanup.mounted mp) (fun _ => Cleanup.mountpoint_is t mp)
    false (_mount_disk_chroot_mounts w).
Proof.
  intros s Hs. destruct (_mount_disk_chroot_mounts w s) as [r s'] eqn:E. simpl.
  pose proof Hs as [Ht Hmp].
  unfold _mount_disk_chroot_mounts in E. rewrite exec_tail in E. exec_in E.
  destruct (_abs_first_partition_device (self s)) as [dev|]; exec_in E.
  - rewrite Hmp in E. exec_in E.
    destruct (executor_check_call w _ _ _) as [[]|e]; exec_in E; inversion E; subst;
      eexists [_; _]; (split; [reflexivity|]); (split; [done|]).
    + eexists dev, [_], []. repeat split; try done; repeat constructor.
    + left. repeat constructor.
  - inversion E; subst. eexists [_]. split; [reflexivity|]. split; [done|].
    left. repeat constructor.
Qed.

Lemma mount_nondisk_chroot_mounts_acquiring mp :
  Cleanup.acquiring (Cleanup.mountpoint_is t mp) (Cleanup.mounted_sys mp) (fun _ => Cleanup.mountpoint_is t mp)
    false (_mount_nondisk_chroot_mounts w).
Proof.
  intros s Hs. destruct (_mount_nondisk_chroot_mounts w s) as [r s'] eqn:E. simpl.
  pose proof Hs as [Ht Hmp].
  unfold _mount_nondisk_chroot_mounts, _NON_DISK_MOUNT_TASKS in E.
  cbn [for_each app] in E. rewrite exec_tail in E. exec_in E.
  rewrite Hmp in E. exec_in E.
  repeat first
    [ progress exec_in E
    | rewrite Hmp in E
    | match type of E with
      | context [executor_check_call w ?h ?c None] =>
          destruct (executor_check_call w h c None) as [[]|?]
      end ];
    inversion E; subst; eexists; (split; [reflexivity|]); (split; [done|]);
    try (left; repeat constructor).
  eexists tt, [_; _; _; _], []. repeat split; try done; repeat constructor.
Qed.

End Steps.

Ltac skip_idle :=
  repeat (apply emits_prefix;
          [first [apply lenient_scoped|apply lenient_then_idle; apply lenient_scoped
                 |apply lenient_idle]
          |solve [sat_auto idle_side]
          |intros ?]).

Lemma run_unwound w t : Cleanup.emits (Cleanup.target_is t) (Cleanup.unwound t) (run w).
Proof.
  unfold run, Cleanup.unwound. skip_idle.
  apply (emits_scope_in _ _ _ _ (fun _ => Cleanup.target_is t));
    [apply format_partitions_acquiring
    |intros; apply lenient_scoped
    |intros _
    |intros _; apply kpartx_minus_d_deactivated
    |done
    |].
  2:{ intros s Hs. destruct (kpartx_minus_d_deactivated w t s Hs) as (l & Hl & Hd & Hs').
      exists l. split; [done|]. split; [by eapply deactivated_idle|done]. }
  skip_idle.
  apply (emits_scope _ _ _ _ (Cleanup.mountpoint_is t));
    [apply mkdir_mountpount_acquiring
    |intros; apply lenient_scoped
    |intros mp
    |intros mp; apply rmdir_mountpount_removed
    |by intros mp e [? ?]].
  apply (emits_scope _ _ _ _ (fun _ => Cleanup.mountpoint_is t mp));
    [apply mount_disk_chroot_mounts_acquiring
    |intros; apply lenient_then_idle, lenient_scoped
    |intros _
    |intros _; apply unmount_disk_chroot_mounts_unmounted
    |done].
  skip_idle.
  apply (emits_scope_then _ _ _ _ (fun _ => Cleanup.mountpoint_is t mp));
    [apply mount_nondisk_chroot_mounts_acquiring
    |intros; apply lenient_idle
    |intros _
    |intros _; apply unmount_nondisk_chroot_mounts_unmounted
    |done
    |intros ?; sat_auto idle_side].
  apply emits_idle; [sat_auto idle_side|apply lenient_idle].
Qed.

(** C1.  The second of the four non-disk mounts fails: [run] has mounted
    the partition and /dev below the mountpoint, and in its tear-down it
    unmounts the partition, removes the directory and deactivates the
    partition devices; /dev below the mountpoint is never unmounted.  The
    pipeline ends with the error of the mount. *)
Theorem partial_non_disk_mounts_are_not_released :
  let '(r, s) := run Cleanup.fault Cleanup.start in
  r = Raise (CalledProcessError 32
               ["mount"; "/dev/pts"; "-o"; "bind"; "/mnt/tmpAbCdEf/dev/pts"])
  /\ List.filter Cleanup.resource_call (log s)
     = [Tempfile_mkdtemp "/mnt" (Ok "/mnt/tmpAbCdEf");
        Executor_check_call ["mount"; "/dev/mapper/sda1"; "/mnt/tmpAbCdEf"] None (Ok tt);
        Executor_check_call ["mount"; "/dev"; "-o"; "bind"; "/mnt/tmpAbCdEf/dev"] None
          (Ok tt);
        Executor_check_call ["mount"; "/dev/pts"; "-o"; "bind"; "/mnt/tmpAbCdEf/dev/pts"]
          None
          (Raise (CalledProcessError 32
                    ["mount"; "/dev/pts"; "-o"; "bind"; "/mnt/tmpAbCdEf/dev/pts"]));
        Executor_check_call ["umount"; "/mnt/tmpAbCdEf"] None (Ok tt);
        Os_rmdir "/mnt/tmpAbCdEf" (Ok tt);
        Executor_check_call ["kpartx"; "-d"; "-p"; "p"; "/dev/sda"] None (Ok tt)].
Proof. vm_compute. split; reflexivity. Qed.

(** The umount of sys is not found: the three non-disk mounts behind it
    are never unmounted. *)
Example non_disk_mounts_behind_a_failed_umount_stay :
  let '(r, s) := run Cleanup.release_fails Cleanup.start in
  r = Raise (CalledProcessError 127 ["umount"; "/mnt/tmpAbCdEf/sys"])
  /\ List.filter Cleanup.resource_call (log s)
     = [Tempfile_mkdtemp "/mnt" (Ok "/mnt/tmpAbCdEf");
        Executor_check_call ["mount"; "/dev/mapper/sda1"; "/mnt/tmpAbCdEf"] None (Ok tt);
        Executor_check_call ["mount"; "/dev"; "-o"; "bind"; "/mnt/tmpAbCdEf/dev"] None
          (Ok tt);
        Executor_check_call ["mount"; "/dev/pts"; "-o"; "bind"; "/mnt/tmpAbCdEf/dev/pts"]
          None (Ok tt);
        Executor_check_call ["mount"; "PROC"; "-t"; "proc"; "/mnt/tmpAbCdEf/proc"] None
          (Ok tt);
        Executor_check_call ["mount"; "/sys"; "-o"; "bind"; "/mnt/tmpAbCdEf/sys"] None
          (Ok tt);
        Executor_check_call ["umount"; "/mnt/tmpAbCdEf/sys"] None
          (Raise (CalledProcessError 127 ["umount"; "/mnt/tmpAbCdEf/sys"]));
        Executor_check_call ["umount"; "/mnt/tmpAbCdEf"] None (Ok tt);
        Os_rmdir "/mnt/tmpAbCdEf" (Ok tt);
        Executor_check_call ["kpartx"; "-d"; "-p"; "p"; "/dev/sda"] None (Ok tt)].
Proof. vm_compute. split; reflexivity. Qed.

(** The partitions of a loop device are activated, and the node never
    shows up: activation raises in front of the outermost [try], and
    [kpartx -d] is never run. *)
Example activated_partitions_stay_without_their_node :
  let '(r, s) := run Cleanup.no_node Cleanup.start in
  r = Raise (OSError ENOENT "No such block device file: '/dev/mapper/loop0p1'")
  /\ List.filter Cleanup.resource_call (log s)
     = [Executor_check_call ["kpartx"; "-a"; "-p"; "p"; "-s"; "/dev/sda"] None (Ok tt)].
Proof. vm_compute. split; reflexivity. Qed.



(** The same for an error that the engine raises on its own: chpasswd
    returns 1, and in the tear-down the umounts are not found.  Three
    errors are raised; the pipeline reports the last one. *)
Example chpasswd_error_is_displaced :
  let '(r, s) := run Errors.chpasswd_fails Errors.with_password in
  r = Raise (CalledProcessError 127 ["umount"; "/mnt/tmpAbCdEf"])
  /\ Errors.raised (log s)
     = [CalledProcessError 1 ["chroot"; "/mnt/tmpAbCdEf"; "chpasswd"];
        CalledProcessError 127 ["umount"; "/mnt/tmpAbCdEf/sys"];
        CalledProcessError 127 ["umount"; "/mnt/tmpAbCdEf"]].
Proof. vm_compute. split; reflexivity. Qed.
